(** * Firstrade tax report: the conversion and aggregation core of [src/App.tsx]

    The development embeds the pure core of the React component: the money
    and date parsing helpers, the exchange-rate lookup with its backward
    search, the three transaction calculators, the CSV classifier of
    [processFile] and the year filter and aggregators.

    Modelling conventions.
    - A JavaScript [string] is a Rocq [string] holding its UTF-8 bytes.  The
      only case mapping the program relies on concerns ASCII needles
      ("symbol", "sales proceeds", "action", "amount", "var"), for which a
      byte-wise ASCII [toLowerCase] agrees with the JavaScript one.
    - A JavaScript [number] is [number]: [NaN], the two infinities and the
      finite binary64 values as rationals in lowest terms.  Every sum,
      product and parsed literal is rounded to the nearest binary64 value,
      ties to even, and overflows to an infinity ([round64]).  The sign of
      zero is not represented.
    - [undefined] and [null] are [None]; a plain object used as a dictionary
      is a [gmap] of its own properties, read together with the names it
      inherits from [Object.prototype] ([objectPrototype]).
    - A thrown exception is [None] in the option monad for pure code, and
      the [Thrown] outcome for code that has already updated React state.
    - date-fns, [Date] and Papa Parse are external: the program is written
      against the interfaces [DateFns] and [PapaParse]; a calendar instance
      on day numbers is supplied to run the program on concrete inputs. *)

From Stdlib Require Import ZArith QArith Qround Qreduction String Ascii List Lia.
From stdpp Require Import base option list gmap strings sorting.

Local Open Scope string_scope.

(** ** JavaScript strings *)

Module JsString.

Definition isUpper (c : ascii) : bool :=
  let n := nat_of_ascii c in (65 <=? n)%nat && (n <=? 90)%nat.

Definition isDigit (c : ascii) : bool :=
  let n := nat_of_ascii c in (48 <=? n)%nat && (n <=? 57)%nat.

Definition lowerChar (c : ascii) : ascii :=
  if isUpper c then ascii_of_nat (nat_of_ascii c + 32) else c.

(** [str.toLowerCase()] *)
Fixpoint toLowerCase (s : string) : string :=
  match s with
  | EmptyString => EmptyString
  | String c r => String (lowerChar c) (toLowerCase r)
  end.

(** [str.startsWith(p)] *)
Fixpoint startsWith (s p : string) : bool :=
  match p, s with
  | EmptyString, _ => true
  | String a p', String c s' => Ascii.eqb a c && startsWith s' p'
  | String _ _, EmptyString => false
  end.

(** [str.includes(sub)] *)
Fixpoint includes (s sub : string) : bool :=
  startsWith s sub ||
  match s with
  | EmptyString => false
  | String _ r => includes r sub
  end.

Fixpoint dropChars (n : nat) (s : string) : string :=
  match n, s with
  | S n', String _ r => dropChars n' r
  | _, _ => s
  end.

Fixpoint filterChars (keep : ascii -> bool) (s : string) : string :=
  match s with
  | EmptyString => EmptyString
  | String c r => if keep c then String c (filterChars keep r) else filterChars keep r
  end.

(** Longest prefix of characters satisfying [p], and the rest. *)
Fixpoint spanChars (p : ascii -> bool) (s : string) : string * string :=
  match s with
  | EmptyString => (EmptyString, EmptyString)
  | String c r =>
      if p c then let '(h, t) := spanChars p r in (String c h, t)
      else (EmptyString, s)
  end.

Fixpoint revOnto (s acc : string) : string :=
  match s with
  | EmptyString => acc
  | String c r => revOnto r (String c acc)
  end.

Definition reverse (s : string) : string := revOnto s EmptyString.

Definition bytes (l : list nat) : string :=
  string_of_list_ascii (map ascii_of_nat l).

(** The characters ECMAScript counts as white space or line terminators
    (what [trim] strips and what [\s] matches), in UTF-8. *)
Definition whiteSpace : list string :=
  map bytes
    [ [9]; [10]; [11]; [12]; [13]; [32]; [194; 160]; [225; 154; 128];
      [226; 128; 128]; [226; 128; 129]; [226; 128; 130]; [226; 128; 131];
      [226; 128; 132]; [226; 128; 133]; [226; 128; 134]; [226; 128; 135];
      [226; 128; 136]; [226; 128; 137]; [226; 128; 138]; [226; 128; 168];
      [226; 128; 169]; [226; 128; 175]; [226; 129; 159]; [227; 128; 128];
      [239; 187; 191] ].

(** Strip one leading token of [toks], when there is one. *)
Fixpoint stripOne (toks : list string) (s : string) : option string :=
  match toks with
  | [] => None
  | t :: ts =>
      if startsWith s t then Some (dropChars (String.length t) s)
      else stripOne ts s
  end.

Fixpoint stripAll (fuel : nat) (toks : list string) (s : string) : string :=
  match fuel with
  | O => s
  | S f =>
      match stripOne toks s with
      | Some r => stripAll f toks r
      | None => s
      end
  end.

Definition trimStart (s : string) : string :=
  stripAll (String.length s) whiteSpace s.

Definition trimEnd (s : string) : string :=
  reverse (stripAll (String.length s) (map reverse whiteSpace) (reverse s)).

(** [str.trim()] *)
Definition trim (s : string) : string := trimEnd (trimStart s).

(** [str.split(sep)] for a one-character separator. *)
Fixpoint split (s : string) (sep : ascii) : list string :=
  match s with
  | EmptyString => [EmptyString]
  | String c r =>
      if Ascii.eqb c sep then EmptyString :: split r sep
      else
        match split r sep with
        | h :: t => String c h :: t
        | [] => [String c EmptyString]
        end
  end.

Definition newline : ascii := ascii_of_nat 10.

(** [lines.join(sep)] *)
Definition join (l : list string) (sep : string) : string := String.concat sep l.

End JsString.

(** ** JavaScript numbers *)

Module JsNumber.

Inductive number : Type :=
| NaN
| Infinity (negative : bool)
| Num (q : Q).

Definition isNegative (q : Q) : bool := (Qnum q <? 0)%Z.
Definition isZero (q : Q) : bool := (Qnum q =? 0)%Z.

(** [|q|] *)
Definition magnitude (q : Q) : Q := Z.abs (Qnum q) # Qden q.

(** [2 ^ e] *)
Definition pow2 (e : Z) : Q :=
  if (0 <=? e)%Z then inject_Z (2 ^ e) else / inject_Z (2 ^ (- e)).

(** The binade of a non-zero [q]: the [e] with [2 ^ e <= |q| < 2 ^ (e + 1)]. *)
Definition binade (q : Q) : Z :=
  let e0 := (Z.log2 (Z.abs (Qnum q)) - Z.log2 (Zpos (Qden q)))%Z in
  if Qle_bool (pow2 e0) (magnitude q) then e0 else (e0 - 1)%Z.

(** The nearest integer, the even one of two that are equally near. *)
Definition roundHalfEven (q : Q) : Z :=
  let f := Qfloor q in
  match (q - inject_Z f ?= 1 # 2)%Q with
  | Lt => f
  | Gt => (f + 1)%Z
  | Eq => if Z.even f then f else (f + 1)%Z
  end.

(** The binary64 value nearest to [q], ties to even: a significand of 53
    bits, a spacing of [2 ^ (e - 52)] in the binade [e] and of [2 ^ -1074]
    below the binade [-1022], an infinity from [2 ^ 1024] on. *)
Definition round64 (q : Q) : number :=
  if isZero q then Num 0
  else
    let e := (Z.max (binade q) (-1022) - 52)%Z in
    let v := (inject_Z (roundHalfEven (q * pow2 (- e))) * pow2 e)%Q in
    if Qle_bool (pow2 1024) (magnitude v) then Infinity (isNegative q)
    else Num (Qred v).

(** The number a real value becomes, and the number of an integer that
    is a binary64 value as it stands. *)
Definition ofQ (q : Q) : number := round64 q.
Definition ofZ (z : Z) : number := Num (inject_Z z).

Definition zero : number := Num 0.

Definition neg (a : number) : number :=
  match a with
  | NaN => NaN
  | Infinity s => Infinity (negb s)
  | Num q => Num (- q)%Q
  end.

(** [a + b] *)
Definition add (a b : number) : number :=
  match a, b with
  | NaN, _ | _, NaN => NaN
  | Infinity s, Infinity s' => if Bool.eqb s s' then Infinity s else NaN
  | Infinity s, Num _ | Num _, Infinity s => Infinity s
  | Num p, Num q => ofQ (p + q)
  end.

(** [a - b] *)
Definition sub (a b : number) : number := add a (neg b).

(** [a * b] *)
Definition mul (a b : number) : number :=
  match a, b with
  | NaN, _ | _, NaN => NaN
  | Infinity s, Infinity s' => Infinity (xorb s s')
  | Infinity s, Num q | Num q, Infinity s =>
      if isZero q then NaN else Infinity (xorb s (isNegative q))
  | Num p, Num q => ofQ (p * q)
  end.

(** [Math.floor(a)]; the floor of a binary64 value is one. *)
Definition floor (a : number) : number :=
  match a with
  | Num q => ofZ (Qfloor q)
  | _ => a
  end.

(** [a === b] on numbers *)
Definition strictEq (a b : number) : bool :=
  match a, b with
  | Num p, Num q => Qeq_bool p q
  | Infinity s, Infinity s' => Bool.eqb s s'
  | _, _ => false
  end.

(** ToBoolean on a number: [0] and [NaN] are falsy. *)
Definition truthy (a : number) : bool :=
  match a with
  | NaN => false
  | Infinity _ => true
  | Num q => negb (isZero q)
  end.

Import JsString.

Definition digitValue (c : ascii) : Z := Z.of_nat (nat_of_ascii c) - 48.

Fixpoint digitsValue (s : string) (acc : Z) : Z :=
  match s with
  | EmptyString => acc
  | String c r => digitsValue r (10 * acc + digitValue c)
  end.

Definition isSign (c : ascii) : bool :=
  Ascii.eqb c "+" || Ascii.eqb c "-".

(** The exponent part of a decimal literal: [e] or [E], an optional sign
    and at least one digit; absent or malformed, it contributes nothing. *)
Definition exponentOf (s : string) : Z :=
  match s with
  | String c r =>
      if Ascii.eqb c "e" || Ascii.eqb c "E" then
        let '(sg, r') :=
          match r with
          | String d r'' => if isSign d then (Ascii.eqb d "-", r'') else (false, r)
          | EmptyString => (false, r)
          end in
        let '(ds, _) := spanChars isDigit r' in
        match ds with
        | EmptyString => 0
        | _ => if sg then - digitsValue ds 0 else digitsValue ds 0
        end
      else 0
  | EmptyString => 0
  end%Z.

Definition pow10 (e : Z) : Q :=
  if (0 <=? e)%Z then inject_Z (10 ^ e) else / inject_Z (10 ^ (- e)).

(** [parseFloat(s)]: leading white space, an optional sign, then [Infinity]
    or the longest decimal literal, rounded to binary64; [NaN] when no digit
    can be read. *)
Definition parseFloat (s : string) : number :=
  let s0 := trimStart s in
  let '(sg, s1) :=
    match s0 with
    | String c r => if isSign c then (Ascii.eqb c "-", r) else (false, s0)
    | EmptyString => (false, s0)
    end in
  if startsWith s1 "Infinity" then Infinity sg
  else
    let '(ip, s2) := spanChars isDigit s1 in
    let '(fp, s3) :=
      match s2 with
      | String c r => if Ascii.eqb c "." then spanChars isDigit r else (EmptyString, s2)
      | EmptyString => (EmptyString, s2)
      end in
    match ip, fp with
    | EmptyString, EmptyString => NaN
    | _, _ =>
        let mant := (inject_Z (digitsValue (ip ++ fp) 0)
                     * pow10 (- Z.of_nat (String.length fp)))%Q in
        let v := (mant * pow10 (exponentOf s3))%Q in
        ofQ (if sg then (- v)%Q else v)
    end.

End JsNumber.

Export JsString JsNumber.

(** ** External collaborators *)

(** What the program uses of [Date] and date-fns.  [parse s f] stands for
    [parse(s, f, new Date())] and, like [parseISO], is [None] when the
    library throws; a string it cannot read yields an Invalid Date value,
    not an exception.  [format] is [None] when it throws its [RangeError],
    which date-fns does on an Invalid Date.  [getFullYear] of an Invalid
    Date is [NaN]. *)
Class DateFns : Type := {
  Date : Type;
  parse : string -> string -> option Date;
  parseISO : string -> option Date;
  format : Date -> string -> option string;
  subDays : Date -> Z -> Date;
  getFullYear : Date -> number;
}.

(** A row object produced by Papa Parse with [header: true]: the header
    names mapped to the cell texts.  The TypeScript interfaces [GainLossRow]
    and [HistoryRow] are casts of this one shape; a column the file lacks
    reads as [undefined]. *)
Abbreviation Row := (gmap string string).

(** [RatesMap]: ISO date to rate. *)
Abbreviation RatesMap := (gmap string number).

(** Papa Parse on the cleaned text: the rows handed to [complete], or the
    message handed to [error]. *)
Inductive ParseResult : Type :=
| Complete (data : list Row)
| ParseError (message : string).

Class PapaParse : Type := {
  Papa_parse : string -> ParseResult;
}.

Inductive FileType : Type := GAIN_LOSS | HISTORY | UNKNOWN.

Inductive Tab : Type := capital | dividend | interest.

(** ** Types

    The three transaction records of the program.  Their [id] is an array
    index and is kept as a [nat]; a text read from a row may be
    [undefined].  The records take the type of dates as a parameter. *)

Module RateData.
Record t : Type := mk { rate : number; dateUsed : string }.
End RateData.

Module JpyTransaction.
Section WithDates.
Context {Date : Type}.
Record t : Type := mk {
  id : nat;
  symbol : option string;
  quantity : number;
  dateAcquired : option Date;
  dateSold : Date;
  proceedsUsd : number;
  costUsd : number;
  wsDisallowed : number;
  rateAcquired : number;
  rateSold : number;
  proceedsJpy : number;
  costJpy : number;
  gainLossJpy : number;
  isWashSale : bool;
  notes : string;
}.
End WithDates.
Arguments t : clear implicits.
End JpyTransaction.

Module DividendTransaction.
Section WithDates.
Context {Date : Type}.
Record t : Type := mk {
  id : nat;
  symbol : option string;
  date : Date;
  amountNetUsd : number;
  taxUsd : number;
  amountGrossUsd : number;
  rate : number;
  amountGrossJpy : number;
  taxJpy : number;
  amountNetJpy : number;
  description : option string;
}.
End WithDates.
Arguments t : clear implicits.
End DividendTransaction.

Module InterestTransaction.
Section WithDates.
Context {Date : Type}.
Record t : Type := mk {
  id : nat;
  symbol : option string;
  date : Date;
  amountNetUsd : number;
  rate : number;
  amountNetJpy : number;
  description : option string;
}.
End WithDates.
Arguments t : clear implicits.
End InterestTransaction.

(** ** Utils *)

Definition isMoneyChar (c : ascii) : bool :=
  isDigit c || Ascii.eqb c "." || Ascii.eqb c "-".

(** [parseMoney]: [0] for an absent or empty text, else [parseFloat] of the
    text with every character outside [0-9.-] removed. *)
Definition parseMoney (str : option string) : number :=
  match str with
  | None | Some EmptyString => zero
  | Some s => parseFloat (filterChars isMoneyChar s)
  end.

Section Utils.
Context {dates : DateFns}.

(** [parseDateAny]: [null] for an absent or empty text and for a text
    containing "var" in any case; otherwise the first of the two formats
    whose delimiter the text contains and whose parser does not throw. *)
Definition parseDateAny (str : option string) : option Date :=
  match str with
  | None | Some EmptyString => None
  | Some s =>
      if includes (toLowerCase s) "var" then None
      else
        match (if includes s "/" then parse s "MM/dd/yyyy" else None) with
        | Some d => Some d
        | None => if includes s "-" then parseISO s else None
        end
  end.

(** [rates[key]] when it is truthy. *)
Definition truthyRate (rates : RatesMap) (key : string) : option number :=
  match rates !! key with
  | Some r => if truthy r then Some r else None
  | None => None
  end.

(** [format(current, 'yyyy-MM-dd')] *)
Definition keyOf (current : Date) : option string := format current "yyyy-MM-dd".

(** The loop of [getRateForDate] with [remaining = 10 - attempts]
    iterations left. *)
Fixpoint getRateFrom (remaining : nat) (current : Date) (rates : RatesMap)
  : option RateData.t :=
  match remaining with
  | O => Some (RateData.mk zero "N/A")
  | S n =>
      key ← keyOf current;
      match truthyRate rates key with
      | Some r => Some (RateData.mk r key)
      | None => getRateFrom n (subDays current 1) rates
      end
  end.

Definition getRateForDate (date : Date) (rates : RatesMap) : option RateData.t :=
  getRateFrom 10 date rates.

(** A day on which the loop goes on to the day before. *)
Definition skipped (rates : RatesMap) (d : Date) : Prop :=
  exists key, keyOf d = Some key /\ truthyRate rates key = None.

(** The day [k] calendar days before [date]: [subDays(_, 1)] applied [k]
    times, as the loop steps. *)
Definition daysBefore (date : Date) (k : nat) : Date :=
  Nat.iter k (fun current => subDays current 1) date.

(** A date for which the ten keys the loop may ask for can all be
    formatted, so that no [RangeError] is thrown. *)
Definition formattable (date : Date) : Prop :=
  forall j, j < 10 -> is_Some (keyOf (daysBefore date j)).

End Utils.

Definition isTaxChar (c : ascii) : bool :=
  isDigit c || Ascii.eqb c "," || Ascii.eqb c ".".

(** A match of [/TAX WITHHELD\s+\$?([0-9,.]+)/i] starting at the first
    character of [s]: the text of its group. *)
Definition matchTaxAt (s : string) : option string :=
  if startsWith (toLowerCase s) "tax withheld" then
    match stripOne whiteSpace (dropChars 12 s) with
    | None => None
    | Some r1 =>
        let r2 := stripAll (String.length r1) whiteSpace r1 in
        let r3 := match r2 with
                  | String c r' => if Ascii.eqb c "$" then r' else r2
                  | EmptyString => r2
                  end in
        match fst (spanChars isTaxChar r3) with
        | EmptyString => None
        | cap => Some cap
        end
    end
  else None.

(** [desc.match(...)]: the leftmost match. *)
Fixpoint matchTax (s : string) : option string :=
  match matchTaxAt s with
  | Some cap => Some cap
  | None =>
      match s with
      | EmptyString => None
      | String _ r => matchTax r
      end
  end.

(** [extractTaxFromDescription]; [desc.match] on [undefined] throws. *)
Definition extractTaxFromDescription (desc : option string) : option number :=
  match desc with
  | None => None
  | Some d =>
      match matchTax d with
      | Some cap => Some (parseMoney (Some cap))
      | None => Some zero
      end
  end.

(** ** Calculators *)

Section Calculators.
Context {dates : DateFns}.

(** [rows.map(callback).filter(Boolean)] for a callback that returns a
    record or [null], or throws. *)
Definition mapRows {A : Type} (f : nat -> Row -> option (option A))
    (rows : list Row) : option (list A) :=
  omap (fun x => x) <$> mapM (fun x => x) (imap f rows).

Definition variousNote : string := "取得日不明(Various)".
Definition rateErrorNote : string := "レートエラー".

(** The callback of [calculateGainLoss]. *)
Definition gainLossOfRow (currentRates : RatesMap) (idx : nat) (row : Row)
  : option (option (JpyTransaction.t Date)) :=
  match parseDateAny (row !! "Date Sold") with
  | None => Some None
  | Some dateSold =>
      let parsedAcquired := parseDateAny (row !! "Date Acquired") in
      let isVarious :=
        match parsedAcquired, row !! "Date Acquired" with
        | None, Some s => includes (toLowerCase s) "var"
        | _, _ => false
        end in
      let dateAcquired := default dateSold parsedAcquired in
      let proceedsUsd := parseMoney (row !! "Sales Proceeds") in
      let costUsd := parseMoney (row !! "Adjust Cost") in
      let wsDisallowed := parseMoney (row !! "WS Loss Disallowed") in
      rateSoldData ← getRateForDate dateSold currentRates;
      rateAcqData ← getRateForDate dateAcquired currentRates;
      let proceedsJpy := floor (mul proceedsUsd (RateData.rate rateSoldData)) in
      let costJpy := floor (mul costUsd (RateData.rate rateAcqData)) in
      Some (Some {|
        JpyTransaction.id := idx;
        JpyTransaction.symbol := row !! "Symbol";
        JpyTransaction.quantity :=
          match row !! "Quantity" with Some q => parseFloat q | None => NaN end;
        JpyTransaction.dateAcquired := Some dateAcquired;
        JpyTransaction.dateSold := dateSold;
        JpyTransaction.proceedsUsd := proceedsUsd;
        JpyTransaction.costUsd := costUsd;
        JpyTransaction.wsDisallowed := wsDisallowed;
        JpyTransaction.rateAcquired := RateData.rate rateAcqData;
        JpyTransaction.rateSold := RateData.rate rateSoldData;
        JpyTransaction.proceedsJpy := proceedsJpy;
        JpyTransaction.costJpy := costJpy;
        JpyTransaction.gainLossJpy := sub proceedsJpy costJpy;
        JpyTransaction.isWashSale :=
          bool_decide (row !! "Wash Sales" = Some "YES");
        JpyTransaction.notes :=
          if isVarious then variousNote
          else if strictEq (RateData.rate rateSoldData) zero then rateErrorNote
          else ""
      |})
  end.

(** The callback of [calculateDividends]. *)
Definition dividendOfRow (currentRates : RatesMap) (idx : nat) (row : Row)
  : option (option (DividendTransaction.t Date)) :=
  match parseDateAny (row !! "TradeDate") with
  | None => Some None
  | Some date =>
      let amountNetUsd := parseMoney (row !! "Amount") in
      taxUsd ← extractTaxFromDescription (row !! "Description");
      let amountGrossUsd := add amountNetUsd taxUsd in
      rateData ← getRateForDate date currentRates;
      Some (Some {|
        DividendTransaction.id := idx;
        DividendTransaction.symbol := row !! "Symbol";
        DividendTransaction.date := date;
        DividendTransaction.amountNetUsd := amountNetUsd;
        DividendTransaction.taxUsd := taxUsd;
        DividendTransaction.amountGrossUsd := amountGrossUsd;
        DividendTransaction.rate := RateData.rate rateData;
        DividendTransaction.amountGrossJpy :=
          floor (mul amountGrossUsd (RateData.rate rateData));
        DividendTransaction.taxJpy := floor (mul taxUsd (RateData.rate rateData));
        DividendTransaction.amountNetJpy :=
          floor (mul amountNetUsd (RateData.rate rateData));
        DividendTransaction.description := row !! "Description"
      |})
  end.

(** The callback of [calculateInterests]. *)
Definition interestOfRow (currentRates : RatesMap) (idx : nat) (row : Row)
  : option (option (InterestTransaction.t Date)) :=
  match parseDateAny (row !! "TradeDate") with
  | None => Some None
  | Some date =>
      let amountNetUsd := parseMoney (row !! "Amount") in
      rateData ← getRateForDate date currentRates;
      Some (Some {|
        InterestTransaction.id := idx;
        InterestTransaction.symbol := row !! "Symbol";
        InterestTransaction.date := date;
        InterestTransaction.amountNetUsd := amountNetUsd;
        InterestTransaction.rate := RateData.rate rateData;
        InterestTransaction.amountNetJpy :=
          floor (mul amountNetUsd (RateData.rate rateData));
        InterestTransaction.description := row !! "Description"
      |})
  end.

(** Whether the acquisition text of a row contains "var" in any case. *)
Definition signalsVarious (row : Row) : bool :=
  match row !! "Date Acquired" with
  | Some s => includes (toLowerCase s) "var"
  | None => false
  end.

(** What the three calculators guarantee about the identities of their
    output: strictly increasing in output order, exactly the indices of the
    input rows whose governing date parses, and the sequence 0, 1, ... when
    the output is as long as the input. *)
Definition stampedByRowIndex {A : Type} (id : A -> nat) (dateField : string)
    (rows : list Row) (out : list A) : Prop :=
  StronglySorted lt (id <$> out) /\
  (forall i, i ∈ id <$> out <->
     exists row, rows !! i = Some row /\
                 is_Some (parseDateAny (row !! dateField))) /\
  (length out = length rows -> id <$> out = seq 0 (length rows)).

(** The [calculated] arrays of the three calculators. *)
Definition calculatedGainLoss (rows : list Row) (currentRates : RatesMap)
  : option (list (JpyTransaction.t Date)) :=
  mapRows (gainLossOfRow currentRates) rows.

Definition calculatedDividends (rows : list Row) (currentRates : RatesMap)
  : option (list (DividendTransaction.t Date)) :=
  mapRows (dividendOfRow currentRates) rows.

Definition calculatedInterests (rows : list Row) (currentRates : RatesMap)
  : option (list (InterestTransaction.t Date)) :=
  mapRows (interestOfRow currentRates) rows.

End Calculators.

(** ** Application state *)

Section StateCells.
Context {Date : Type}.

(** The [useState] cells of [App] that the modelled code reads or writes. *)
Record AppState : Type := mkState {
  activeTab : Tab;
  gainLossData : list (JpyTransaction.t Date);
  dividendData : list (DividendTransaction.t Date);
  interestData : list (InterestTransaction.t Date);
  gainLossRaw : option (list Row);
  dividendRaw : option (list Row);
  interestRaw : option (list Row);
  rates : RatesMap;
  loading : bool;
  error : option string;
  selectedYear : number;
}.

Definition setActiveTab (v : Tab) (st : AppState) : AppState :=
  mkState v (gainLossData st) (dividendData st) (interestData st)
    (gainLossRaw st) (dividendRaw st) (interestRaw st) (rates st)
    (loading st) (error st) (selectedYear st).

Definition setGainLossData (v : list (JpyTransaction.t Date)) (st : AppState) : AppState :=
  mkState (activeTab st) v (dividendData st) (interestData st)
    (gainLossRaw st) (dividendRaw st) (interestRaw st) (rates st)
    (loading st) (error st) (selectedYear st).

Definition setDividendData (v : list (DividendTransaction.t Date)) (st : AppState) : AppState :=
  mkState (activeTab st) (gainLossData st) v (interestData st)
    (gainLossRaw st) (dividendRaw st) (interestRaw st) (rates st)
    (loading st) (error st) (selectedYear st).

Definition setInterestData (v : list (InterestTransaction.t Date)) (st : AppState) : AppState :=
  mkState (activeTab st) (gainLossData st) (dividendData st) v
    (gainLossRaw st) (dividendRaw st) (interestRaw st) (rates st)
    (loading st) (error st) (selectedYear st).

Definition setGainLossRaw (v : option (list Row)) (st : AppState) : AppState :=
  mkState (activeTab st) (gainLossData st) (dividendData st) (interestData st)
    v (dividendRaw st) (interestRaw st) (rates st)
    (loading st) (error st) (selectedYear st).

Definition setDividendRaw (v : option (list Row)) (st : AppState) : AppState :=
  mkState (activeTab st) (gainLossData st) (dividendData st) (interestData st)
    (gainLossRaw st) v (interestRaw st) (rates st)
    (loading st) (error st) (selectedYear st).

Definition setInterestRaw (v : option (list Row)) (st : AppState) : AppState :=
  mkState (activeTab st) (gainLossData st) (dividendData st) (interestData st)
    (gainLossRaw st) (dividendRaw st) v (rates st)
    (loading st) (error st) (selectedYear st).

Definition setLoading (v : bool) (st : AppState) : AppState :=
  mkState (activeTab st) (gainLossData st) (dividendData st) (interestData st)
    (gainLossRaw st) (dividendRaw st) (interestRaw st) (rates st)
    v (error st) (selectedYear st).

Definition setError (v : option string) (st : AppState) : AppState :=
  mkState (activeTab st) (gainLossData st) (dividendData st) (interestData st)
    (gainLossRaw st) (dividendRaw st) (interestRaw st) (rates st)
    (loading st) v (selectedYear st).

Definition setSelectedYear (v : number) (st : AppState) : AppState :=
  mkState (activeTab st) (gainLossData st) (dividendData st) (interestData st)
    (gainLossRaw st) (dividendRaw st) (interestRaw st) (rates st)
    (loading st) (error st) v.

(** The state of a freshly mounted [App]; [year] is the current calendar
    year. *)
Definition initialState (year : number) : AppState :=
  mkState capital [] [] [] None None None ∅ false None year.

(** A handler either returns or throws; the state updates it queued before
    throwing are kept. *)
Inductive Outcome : Type :=
| Returned (st : AppState)
| Thrown (st : AppState).

Definition andThen (o : Outcome) (k : AppState -> Outcome) : Outcome :=
  match o with
  | Returned st => k st
  | Thrown st => Thrown st
  end.

End StateCells.
Arguments AppState : clear implicits.
Arguments Outcome : clear implicits.

Section App.
Context {dates : DateFns}.

Definition calculateGainLoss (rows : list Row) (currentRates : RatesMap)
    (st : AppState Date) : Outcome Date :=
  match calculatedGainLoss rows currentRates with
  | Some calculated => Returned (setGainLossData calculated st)
  | None => Thrown st
  end.

Definition calculateDividends (rows : list Row) (currentRates : RatesMap)
    (st : AppState Date) : Outcome Date :=
  match calculatedDividends rows currentRates with
  | Some calculated => Returned (setDividendData calculated st)
  | None => Thrown st
  end.

Definition calculateInterests (rows : list Row) (currentRates : RatesMap)
    (st : AppState Date) : Outcome Date :=
  match calculatedInterests rows currentRates with
  | Some calculated => Returned (setInterestData calculated st)
  | None => Thrown st
  end.

(** ** Filtering *)

Definition filteredGainLoss (st : AppState Date) : list (JpyTransaction.t Date) :=
  filter (fun t => Is_true (strictEq (getFullYear (JpyTransaction.dateSold t))
                                     (selectedYear st)))
         (gainLossData st).

Definition filteredDividends (st : AppState Date) : list (DividendTransaction.t Date) :=
  filter (fun t => Is_true (strictEq (getFullYear (DividendTransaction.date t))
                                     (selectedYear st)))
         (dividendData st).

Definition filteredInterests (st : AppState Date) : list (InterestTransaction.t Date) :=
  filter (fun t => Is_true (strictEq (getFullYear (InterestTransaction.date t))
                                     (selectedYear st)))
         (interestData st).

(** ** File processing *)

Definition quotedSymbol : string :=
  String (ascii_of_nat 34) ("symbol" ++ String (ascii_of_nat 34) EmptyString).

Definition isHeaderLine (line : string) : bool :=
  let lower := toLowerCase line in
  startsWith lower "symbol" || startsWith lower quotedSymbol.

(** [text.split('\n').map(l => l.trim()).filter(l => l.length > 0)] *)
Definition linesOf (text : string) : list string :=
  filter (fun l => (0 < String.length l)%nat) (trim <$> split text newline).

(** [lines.findIndex(...)] with the line found; [None] is [-1]. *)
Definition findHeader (lines : list string) : option (nat * string) :=
  list_find (fun line => Is_true (isHeaderLine line)) lines.

(** The choice of [fileType] from the lower-cased header line. *)
Definition detectFileType (headerLine : string) : FileType :=
  if includes headerLine "sales proceeds" then GAIN_LOSS
  else if includes headerLine "action" && includes headerLine "amount" then HISTORY
  else UNKNOWN.

(** ToBoolean of a cell read from a row. *)
Definition nonEmpty (cell : option string) : bool :=
  match cell with
  | Some (String _ _) => true
  | _ => false
  end.

(** [r.Action === a] *)
Definition hasAction (a : string) (r : Row) : bool :=
  bool_decide (r !! "Action" = Some a).

Definition isTransactionRow (r : Row) : bool :=
  match r !! "Symbol" with
  | Some (String c s) => negb (startsWith (String c s) "Total")
  | _ => false
  end.

Definition emptyFileMsg : string := "ファイルが空です".
Definition headerNotFoundMsg : string :=
  "ヘッダー(Symbol)が見つかりません。正しいCSVか確認してください。".
Definition noGainLossMsg : string :=
  "有効なデータが見つかりませんでした(Gain/Loss)".
Definition noDividendMsg : string :=
  "配当データ(Action=Dividend)が見つかりませんでした".
Definition neitherMsg : string :=
  "CSVは読み込めましたが、配当(Dividend)も利子(Interest)も含まれていません".
Definition unknownFormatMsg : string :=
  "不明なCSV形式です。Firstradeの Gain/Loss または History ファイルを使用してください。".
Definition parseErrorPrefix : string := "パースエラー: ".

Definition isNil {A : Type} (l : list A) : bool :=
  match l with [] => true | _ => false end.

(** The [complete] callback handed to Papa Parse.  [rates st] stands for
    the [rates] the handler closed over. *)
Definition onComplete (fileType : FileType) (data : list Row) (st : AppState Date)
  : Outcome Date :=
  andThen
    match fileType with
    | GAIN_LOSS =>
        let rows := filter (fun r => Is_true (isTransactionRow r)) data in
        if isNil rows then Returned (setError (Some noGainLossMsg) st)
        else
          let st1 := setActiveTab capital (setGainLossRaw (Some rows) st) in
          if (0 <? size (rates st))%nat then calculateGainLoss rows (rates st) st1
          else Returned st1
    | HISTORY =>
        let rows := filter (fun r => Is_true (hasAction "Dividend" r)) data in
        if isNil rows then Returned (setError (Some noDividendMsg) st)
        else
          let st1 := setActiveTab dividend (setDividendRaw (Some rows) st) in
          let interestRows := filter (fun r => Is_true (hasAction "Interest" r)) data in
          let st2 := if isNil interestRows then st1
                     else setInterestRaw (Some interestRows) st1 in
          if (0 <? size (rates st))%nat then
            andThen (calculateDividends rows (rates st) st2) (fun st3 =>
              if isNil interestRows then Returned st3
              else calculateInterests interestRows (rates st) st3)
          else Returned st2
    | UNKNOWN =>
        let firstRow := data !! 0%nat in
        if nonEmpty (firstRow ≫= lookup "Sales Proceeds") then
          Returned (setActiveTab capital
            (setGainLossRaw
               (Some (filter (fun r => Is_true (nonEmpty (r !! "Symbol"))) data)) st))
        else if nonEmpty (firstRow ≫= lookup "Action") then
          let divRows := filter (fun r => Is_true (hasAction "Dividend" r)) data in
          let intRows := filter (fun r => Is_true (hasAction "Interest" r)) data in
          if isNil divRows && isNil intRows then
            Returned (setError (Some neitherMsg) st)
          else
            let st1 := if isNil divRows then st
                       else setActiveTab dividend (setDividendRaw (Some divRows) st) in
            let st2 := if isNil intRows then st1
                       else
                         let st' := setInterestRaw (Some intRows) st1 in
                         if isNil divRows then setActiveTab interest st' else st' in
            Returned st2
        else Returned (setError (Some unknownFormatMsg) st)
    end
    (fun st' => Returned (setLoading false st')).

Context {papa : PapaParse}.

(** The [onload] handler of [processFile], from the decoded text. *)
Definition processFile (text : string) (st : AppState Date) : Outcome Date :=
  match text with
  | EmptyString => Returned (setLoading false (setError (Some emptyFileMsg) st))
  | _ =>
      let lines := linesOf text in
      match findHeader lines with
      | None => Returned (setLoading false (setError (Some headerNotFoundMsg) st))
      | Some (headerIndex, line) =>
          let headerLine := toLowerCase line in
          let fileType := detectFileType headerLine in
          let cleanCsv := join (drop headerIndex lines) (String newline EmptyString) in
          match Papa_parse cleanCsv with
          | Complete data => onComplete fileType data st
          | ParseError message =>
              Returned (setLoading false
                (setError (Some (parseErrorPrefix ++ message)) st))
          end
      end
  end.

End App.

(** ** Aggregation for capital gains *)

(** [a.localeCompare(b)], which depends on the host locale. *)
Class Collation : Type := {
  localeCompare : string -> string -> Z;
}.

Module Summary.
Record t : Type := mk {
  proceeds : number;
  cost : number;
  gainLoss : number;
  proceedsUsd : number;
  costUsd : number;
  gainLossUsd : number;
}.
End Summary.

Module Totals.
Record t : Type := mk {
  proceeds : number;
  cost : number;
  gainLoss : number;
  proceedsUsd : number;
  costUsd : number;
  gainLossUsd : number;
  wsDisallowed : number;
  count : nat;
}.
End Totals.

Section Groups.
Context {Date : Type}.

Record Group : Type := mkGroup {
  summary : Summary.t;
  transactions : list (JpyTransaction.t Date);
}.

End Groups.
Arguments Group : clear implicits.

(** The property names a plain object inherits from [Object.prototype].
    Read through [groups[key]], each gives a function (and [__proto__] the
    prototype itself): a truthy value without a [transactions] property. *)
Definition objectPrototype : list string :=
  ["constructor"; "hasOwnProperty"; "isPrototypeOf"; "propertyIsEnumerable";
   "toLocaleString"; "toString"; "valueOf"; "__proto__";
   "__defineGetter__"; "__defineSetter__"; "__lookupGetter__";
   "__lookupSetter__"].

Definition inherited (key : string) : bool :=
  bool_decide (key ∈ objectPrototype).


Section Aggregation.
Context {dates : DateFns} {collation : Collation}.

Definition newGroup : Group Date :=
  mkGroup (Summary.mk zero zero zero zero zero zero) [].

(** The statements of the [forEach] body that update [groups[t.symbol]]. *)
Definition addToGroup (t : JpyTransaction.t Date) (g : Group Date) : Group Date :=
  let s := summary g in
  mkGroup
    (Summary.mk
       (add (Summary.proceeds s) (JpyTransaction.proceedsJpy t))
       (add (Summary.cost s) (JpyTransaction.costJpy t))
       (add (Summary.gainLoss s) (JpyTransaction.gainLossJpy t))
       (add (Summary.proceedsUsd s) (JpyTransaction.proceedsUsd t))
       (add (Summary.costUsd s) (JpyTransaction.costUsd t))
       (add (Summary.gainLossUsd s)
            (sub (JpyTransaction.proceedsUsd t) (JpyTransaction.costUsd t))))
    (transactions g ++ [t]).

(** The property name [t.symbol] converts to. *)
Definition propertyKey (sym : option string) : string :=
  default "undefined" sym.

(** The [forEach] body on a [groups] object that has, or is given, its own
    property [t.symbol]. *)
Definition fileRecord (groups : gmap string (Group Date)) (t : JpyTransaction.t Date)
  : gmap string (Group Date) :=
  let key := propertyKey (JpyTransaction.symbol t) in
  <[key := addToGroup t (default newGroup (groups !! key))]> groups.

(** The [forEach] body.  When [t.symbol] is not an own property of [groups]
    but an inherited one, [groups[t.symbol]] is truthy, no group is created
    and [groups[t.symbol].transactions.push] throws. *)
Definition groupStep (groups : gmap string (Group Date)) (t : JpyTransaction.t Date)
  : option (gmap string (Group Date)) :=
  let key := propertyKey (JpyTransaction.symbol t) in
  match groups !! key with
  | None => if inherited key then None else Some (fileRecord groups t)
  | Some _ => Some (fileRecord groups t)
  end.

Definition groupsOf (filtered : list (JpyTransaction.t Date))
  : option (gmap string (Group Date)) :=
  foldl (fun acc t => groups ← acc; groupStep groups t) (Some ∅) filtered.

(** The groups when no record is turned away. *)
Definition filed (filtered : list (JpyTransaction.t Date)) : gmap string (Group Date) :=
  foldl fileRecord ∅ filtered.

(** The comparison handed to [sort]. *)
Definition bySymbol (a b : string * Group Date) : Prop :=
  (localeCompare a.1 b.1 <= 0)%Z.

#[local] Instance bySymbol_dec (a b : string * Group Date) : Decision (bySymbol a b) :=
  Z_le_dec (localeCompare a.1 b.1) 0.

(** [groupedGainLoss]: the entries of [groups], sorted by symbol.  The keys
    are distinct, so the order in which the entries are enumerated before
    the sort matters only where [localeCompare] ties two distinct symbols. *)
Definition groupedGainLoss (filtered : list (JpyTransaction.t Date))
  : option (list (string * Group Date)) :=
  groups ← groupsOf filtered; Some (merge_sort bySymbol (map_to_list groups)).

(** A summary whose JPY gain/loss is its JPY proceeds minus its JPY cost. *)
Definition balanced (s : Summary.t) : Prop :=
  Summary.gainLoss s = sub (Summary.proceeds s) (Summary.cost s).

Definition totalsStep (acc : Totals.t) (t : JpyTransaction.t Date) : Totals.t :=
  Totals.mk
    (add (Totals.proceeds acc) (JpyTransaction.proceedsJpy t))
    (add (Totals.cost acc) (JpyTransaction.costJpy t))
    (add (Totals.gainLoss acc) (JpyTransaction.gainLossJpy t))
    (add (Totals.proceedsUsd acc) (JpyTransaction.proceedsUsd t))
    (add (Totals.costUsd acc) (JpyTransaction.costUsd t))
    (add (Totals.gainLossUsd acc)
         (sub (JpyTransaction.proceedsUsd t) (JpyTransaction.costUsd t)))
    (add (Totals.wsDisallowed acc) (JpyTransaction.wsDisallowed t))
    (Totals.count acc + 1).

Definition totalsGainLoss (filtered : list (JpyTransaction.t Date)) : Totals.t :=
  foldl totalsStep (Totals.mk zero zero zero zero zero zero zero 0) filtered.




End Aggregation.

(** ** A calendar instance of the external interfaces

    Dates are day numbers counted from 1970-01-01 in the proleptic Gregorian
    calendar, or the Invalid Date.  The instance reads the two date-only
    layouts that the broker's files contain and writes the one pattern the
    program asks for; the range limit of [Date] is not represented. *)

Module Calendar.

Local Open Scope Z_scope.

Inductive date : Type :=
| Day (n : Z)
| InvalidDate.

Definition isLeap (y : Z) : bool :=
  (y mod 4 =? 0) && (negb (y mod 100 =? 0) || (y mod 400 =? 0)).

Definition daysInMonth (y m : Z) : Z :=
  if m =? 2 then (if isLeap y then 29 else 28)
  else if (m =? 4) || (m =? 6) || (m =? 9) || (m =? 11) then 30
  else 31.

Definition daysFromCivil (y m d : Z) : Z :=
  let y' := if m <=? 2 then y - 1 else y in
  let era := y' / 400 in
  let yoe := y' - era * 400 in
  let doy := (153 * (if 2 <? m then m - 3 else m + 9) + 2) / 5 + d - 1 in
  let doe := yoe * 365 + yoe / 4 - yoe / 100 + doy in
  era * 146097 + doe - 719468.

Definition civilFromDays (z : Z) : Z * Z * Z :=
  let z' := z + 719468 in
  let era := z' / 146097 in
  let doe := z' - era * 146097 in
  let yoe := (doe - doe / 1460 + doe / 36524 - doe / 146096) / 365 in
  let doy := doe - (365 * yoe + yoe / 4 - yoe / 100) in
  let mp := (5 * doy + 2) / 153 in
  let d := doy - (153 * mp + 2) / 5 + 1 in
  let m := if mp <? 10 then mp + 3 else mp - 9 in
  (yoe + era * 400 + (if m <=? 2 then 1 else 0), m, d).

Definition digitChar (d : Z) : ascii := ascii_of_nat (Z.to_nat (48 + d mod 10)).

Fixpoint padded (width : nat) (z : Z) (acc : string) : string :=
  match width with
  | O => acc
  | S w => padded w (z / 10) (String (digitChar z) acc)
  end.

Definition iso (n : Z) : string :=
  let '(y, m, d) := civilFromDays n in
  (padded 4 y "" ++ "-" ++ padded 2 m "" ++ "-" ++ padded 2 d "")%string.

Definition ofCivil (y m d : Z) : date :=
  if (1 <=? y) && (1 <=? m) && (m <=? 12) && (1 <=? d) && (d <=? daysInMonth y m)
  then Day (daysFromCivil y m d)
  else InvalidDate.

(** At most [max] leading digits, as long as there is at least one. *)
Fixpoint takeDigits (max : nat) (s : string) : string * string :=
  match max, s with
  | S k, String c r =>
      if isDigit c then let '(h, t) := takeDigits k r in (String c h, t)
      else (EmptyString, s)
  | _, _ => (EmptyString, s)
  end.

Definition expect (c : ascii) (s : string) : option string :=
  match s with
  | String a r => if Ascii.eqb a c then Some r else None
  | EmptyString => None
  end.

Definition number (s : string) : option Z :=
  match s with
  | EmptyString => None
  | _ => Some (digitsValue s 0)
  end.

(** [parse(s, 'MM/dd/yyyy', ref)] *)
Definition parseSlashed (s : string) : date :=
  let '(mm, r1) := takeDigits 2 s in
  let '(dd, r3) := takeDigits 2 (default EmptyString (expect "/" r1)) in
  let '(yy, r5) := takeDigits 4 (default EmptyString (expect "/" r3)) in
  match number mm, number dd, number yy, trim r5 with
  | Some m, Some d, Some y, EmptyString => ofCivil y m d
  | _, _, _, _ => InvalidDate
  end.

(** [parseISO(s)] on a calendar date [yyyy-MM-dd] *)
Definition parseDashed (s : string) : date :=
  let '(yy, r1) := takeDigits 4 s in
  let '(mm, r3) := takeDigits 2 (default EmptyString (expect "-" r1)) in
  let '(dd, r5) := takeDigits 2 (default EmptyString (expect "-" r3)) in
  match String.length yy, String.length mm, String.length dd, r5 with
  | 4%nat, 2%nat, 2%nat, EmptyString =>
      ofCivil (digitsValue yy 0) (digitsValue mm 0) (digitsValue dd 0)
  | _, _, _, _ => InvalidDate
  end.

#[export] Instance dateFns : DateFns := {|
  Date := date;
  parse s f := Some (if String.eqb f "MM/dd/yyyy" then parseSlashed s else InvalidDate);
  parseISO s := Some (parseDashed s);
  format d f :=
    match d with
    | Day n => if String.eqb f "yyyy-MM-dd" then Some (iso n) else None
    | InvalidDate => None
    end;
  subDays d k := match d with Day n => Day (n - k) | InvalidDate => InvalidDate end;
  getFullYear d :=
    match d with
    | Day n => ofZ (civilFromDays n).1.1
    | InvalidDate => NaN
    end;
|}.

(** A reader for comma-separated text without quoting: the first line names
    the fields, every later non-blank line is a row. *)
Definition cells (line : string) : list string := split line ",".

Definition rowOf (header fields : list string) : Row :=
  list_to_map (zip header fields).

Definition readCsv (text : string) : ParseResult :=
  match split text newline with
  | [] => Complete []
  | h :: ls =>
      Complete (rowOf (cells h) <$>
                (cells <$> filter (fun l => (0 < String.length l)%nat) ls))
  end.

#[export] Instance papaParse : PapaParse := {| Papa_parse := readCsv |}.

#[export] Instance collation : Collation := {|
  localeCompare a b :=
    match String.compare a b with
    | Lt => -1
    | Eq => 0
    | Gt => 1
    end;
|}.

End Calendar.

(** ** Sample inputs

    The two end-to-end scenarios of the specification and small variations
    of them. *)

Module Samples.
Import Calendar.

Definition st0 : AppState Date := initialState (ofZ 2024).

(** 2023-03-04, a Saturday, and the day after. *)
Definition saturday : Date := Day 19420.
Definition sunday : Date := Day 19421.

(** 2023-03-24, three weeks later. *)
Definition lateMarch : Date := Day 19440.

Definition saleRates : RatesMap :=
  list_to_map [("2023-01-02", ofZ 130); ("2023-03-04", ofZ 140)].

(** Only the Friday is published. *)
Definition weekendRates : RatesMap := {[ "2023-03-03" := ofZ 136 ]}.

(** A table that stores a zero for the Saturday. *)
Definition zeroRates : RatesMap := {[ "2023-03-04" := zero ]}.

Definition appleSale : Row :=
  list_to_map
    [("Symbol", "AAPL"); ("Quantity", "10"); ("Date Acquired", "01/02/2023");
     ("Date Sold", "03/04/2023"); ("Sales Proceeds", "$1,500.00");
     ("Adjust Cost", "$1,000.00"); ("WS Loss Disallowed", "$0.00");
     ("Wash Sales", "")].

Definition variousSale : Row := <["Date Acquired" := "VARIOUS"]> appleSale.

Definition dividendRates : RatesMap := {[ "2023-06-15" := ofQ (1452 # 10) ]}.

Definition dividendRow : Row :=
  list_to_map
    [("Symbol", "AAPL"); ("Action", "Dividend");
     ("Description", "NON-RES TAX WITHHELD $1.50");
     ("TradeDate", "2023-06-15"); ("Amount", "$8.50")].

Definition interestRow : Row :=
  list_to_map
    [("Symbol", ""); ("Action", "Interest");
     ("Description", "INTEREST ON CREDIT BALANCE");
     ("TradeDate", "2023-06-15"); ("Amount", "$1.00")].

(** The interest row as read under a header that names the amount "Net". *)
Definition interestRowNet : Row :=
  list_to_map
    [("Symbol", ""); ("Action", "Interest");
     ("Description", "INTEREST ON CREDIT BALANCE");
     ("TradeDate", "2023-06-15"); ("Net", "$1.00")].

(** A dividend row whose date cell is empty. *)
Definition undatedRow : Row := <["TradeDate" := ""]> dividendRow.

Definition msftSale : Row := <["Symbol" := "MSFT"]> appleSale.

Definition nl : string := String newline EmptyString.

Definition gainLossCsv : string :=
  join ["Firstrade realized gain/loss";
        "Symbol,Quantity,Date Acquired,Date Sold,Sales Proceeds,Adjust Cost";
        "AAPL,10,01/02/2023,03/04/2023,1500.00,1000.00"] nl.

Definition historyHeader : string := "Symbol,Action,Description,TradeDate,Amount".

Definition interestLine : string :=
  ",Interest,INTEREST ON CREDIT BALANCE,2023-06-15,$1.00".

(** A history export that holds interest rows only. *)
Definition interestOnlyCsv : string := join [historyHeader; interestLine] nl.

(** The same rows under a header that names the amount column "Net". *)
Definition interestOnlyCsvNet : string :=
  join ["Symbol,Action,Description,TradeDate,Net"; interestLine] nl.





(** The record the first scenario yields. *)
Definition appleRecord : JpyTransaction.t Date :=
  {| JpyTransaction.id := 0;
     JpyTransaction.symbol := Some "AAPL";
     JpyTransaction.quantity := ofZ 10;
     JpyTransaction.dateAcquired := Some (Day 19359);
     JpyTransaction.dateSold := saturday;
     JpyTransaction.proceedsUsd := ofZ 1500;
     JpyTransaction.costUsd := ofZ 1000;
     JpyTransaction.wsDisallowed := zero;
     JpyTransaction.rateAcquired := ofZ 130;
     JpyTransaction.rateSold := ofZ 140;
     JpyTransaction.proceedsJpy := ofZ 210000;
     JpyTransaction.costJpy := ofZ 130000;
     JpyTransaction.gainLossJpy := ofZ 80000;
     JpyTransaction.isWashSale := false;
     JpyTransaction.notes := "" |}.

(** The record the second scenario yields, with identity [i]. *)
Definition dividendRecord (i : nat) : DividendTransaction.t Date :=
  {| DividendTransaction.id := i;
     DividendTransaction.symbol := Some "AAPL";
     DividendTransaction.date := Day 19523;
     DividendTransaction.amountNetUsd := Num (17 # 2);
     DividendTransaction.taxUsd := Num (3 # 2);
     DividendTransaction.amountGrossUsd := ofZ 10;
     DividendTransaction.rate := ofQ (1452 # 10);
     DividendTransaction.amountGrossJpy := ofZ 1452;
     DividendTransaction.taxJpy := ofZ 217;
     DividendTransaction.amountNetJpy := ofZ 1234;
     DividendTransaction.description := Some "NON-RES TAX WITHHELD $1.50" |}.

End Samples.

(** * Further definitions *)

(** ** Texts and lookups *)

(** Every character of [s] satisfies [p]. *)
Fixpoint allChars (p : ascii -> bool) (s : string) : bool :=
  match s with
  | EmptyString => true
  | String c r => p c && allChars p r
  end.

Definition dotOrDash (c : ascii) : bool := Ascii.eqb c "." || Ascii.eqb c "-".

(** [t] is empty or begins with [c]. *)
Definition beginsWith (c : ascii) (t : string) : bool :=
  match t with
  | String a _ => Ascii.eqb a c
  | EmptyString => true
  end.

(** No white-space character begins with the byte [c]. *)
Definition notSpaceStart (c : ascii) : bool :=
  forallb (fun t => negb (beginsWith c t)) whiteSpace.

(** What [getRateForDate] returns when it finds nothing. *)
Definition notFound : RateData.t := RateData.mk zero "N/A".

(** ** Records and the rows they come from *)

Section Provenance.
Context {dates : DateFns}.

(** A capital-gain record read from [row]: its dates, symbol, USD amounts
    and wash-sale flag. *)
Definition gainLossReadFrom (t : JpyTransaction.t Date) (row : Row) : Prop :=
  parseDateAny (row !! "Date Sold") = Some (JpyTransaction.dateSold t) /\
  JpyTransaction.dateAcquired t =
    Some (default (JpyTransaction.dateSold t)
                  (parseDateAny (row !! "Date Acquired"))) /\
  JpyTransaction.symbol t = row !! "Symbol" /\
  JpyTransaction.proceedsUsd t = parseMoney (row !! "Sales Proceeds") /\
  JpyTransaction.costUsd t = parseMoney (row !! "Adjust Cost") /\
  JpyTransaction.wsDisallowed t = parseMoney (row !! "WS Loss Disallowed") /\
  (JpyTransaction.isWashSale t = true <-> row !! "Wash Sales" = Some "YES").

(** A dividend record read from [row]. *)
Definition dividendReadFrom (t : DividendTransaction.t Date) (row : Row) : Prop :=
  parseDateAny (row !! "TradeDate") = Some (DividendTransaction.date t) /\
  DividendTransaction.symbol t = row !! "Symbol" /\
  DividendTransaction.description t = row !! "Description" /\
  DividendTransaction.amountNetUsd t = parseMoney (row !! "Amount") /\
  extractTaxFromDescription (row !! "Description") =
    Some (DividendTransaction.taxUsd t).

(** An interest record read from [row] and converted with [currentRates]. *)
Definition interestReadFrom (currentRates : RatesMap)
    (t : InterestTransaction.t Date) (row : Row) : Prop :=
  parseDateAny (row !! "TradeDate") = Some (InterestTransaction.date t) /\
  InterestTransaction.symbol t = row !! "Symbol" /\
  InterestTransaction.description t = row !! "Description" /\
  InterestTransaction.amountNetUsd t = parseMoney (row !! "Amount") /\
  (exists rd, getRateForDate (InterestTransaction.date t) currentRates = Some rd /\
     InterestTransaction.rate t = RateData.rate rd) /\
  InterestTransaction.amountNetJpy t =
    floor (mul (InterestTransaction.amountNetUsd t) (InterestTransaction.rate t)).

(** The rows a calculator keeps: those whose date cell parses. *)
Definition datable (dateField : string) (row : Row) : Prop :=
  is_Some (parseDateAny (row !! dateField)).

#[export] Instance datable_dec (dateField : string) (row : Row) :
  Decision (datable dateField row).
Proof. unfold datable. apply _. Defined.

End Provenance.

(** ** Outcomes of a handler *)

Section Outcomes.
Context {Date : Type}.

(** The state a handler leaves behind, whether it returned or threw. *)
Definition stateAfter (o : Outcome Date) : AppState Date :=
  match o with
  | Returned st => st
  | Thrown st => st
  end.

(** Two states that agree on everything a file or a rate table feeds: the
    raw and the derived collections, the rates, the tab and the year. *)
Definition sameData (a b : AppState Date) : Prop :=
  activeTab a = activeTab b /\
  gainLossData a = gainLossData b /\
  dividendData a = dividendData b /\
  interestData a = interestData b /\
  gainLossRaw a = gainLossRaw b /\
  dividendRaw a = dividendRaw b /\
  interestRaw a = interestRaw b /\
  rates a = rates b /\
  selectedYear a = selectedYear b.

End Outcomes.

(** ** Totals of dividends, and the years on offer *)

Module DividendTotals.
Record t : Type := mk {
  amountGrossJpy : number;
  taxJpy : number;
  amountNetJpy : number;
  amountGrossUsd : number;
  count : nat;
}.
End DividendTotals.

(** [dividendTotal] of [ReportTemplate]. *)
Module ReportDividendTotal.
Record t : Type := mk {
  gross : number;
  tax : number;
  net : number;
  grossUsd : number;
}.
End ReportDividendTotal.

(** SameValueZero, the equality of a [Set]: like [===], and [NaN] equals
    [NaN]. *)
Definition sameValueZero (a b : number) : bool :=
  match a, b with
  | NaN, NaN => true
  | _, _ => strictEq a b
  end.

(** [years.add(x)] on a [Set] kept in insertion order. *)
Definition setAdd (years : list number) (x : number) : list number :=
  if existsb (sameValueZero x) years then years else (years ++ [x])%list.

(** A comparator result that lets the first argument stay first: negative,
    zero, or [NaN], which [sort] takes for zero. *)
Definition staysFirst (v : number) : bool :=
  match v with
  | NaN => true
  | Infinity negative => negative
  | Num q => Qle_bool q 0
  end.

(** The order of [sort((a, b) => b - a)]. *)
Definition byYearDescending (a b : number) : Prop := Is_true (staysFirst (sub b a)).

#[export] Instance byYearDescending_dec (a b : number) :
  Decision (byYearDescending a b).
Proof. unfold byYearDescending. apply _. Defined.

Section MoreAggregation.
Context {dates : DateFns}.

Definition totalsDividendStep (acc : DividendTotals.t)
    (d : DividendTransaction.t Date) : DividendTotals.t :=
  DividendTotals.mk
    (add (DividendTotals.amountGrossJpy acc) (DividendTransaction.amountGrossJpy d))
    (add (DividendTotals.taxJpy acc) (DividendTransaction.taxJpy d))
    (add (DividendTotals.amountNetJpy acc) (DividendTransaction.amountNetJpy d))
    (add (DividendTotals.amountGrossUsd acc) (DividendTransaction.amountGrossUsd d))
    (DividendTotals.count acc + 1).

(** [totalsDividend] of [App], over the filtered dividends. *)
Definition totalsDividend (filtered : list (DividendTransaction.t Date))
  : DividendTotals.t :=
  foldl totalsDividendStep (DividendTotals.mk zero zero zero zero 0) filtered.

Definition dividendTotalStep (acc : ReportDividendTotal.t)
    (d : DividendTransaction.t Date) : ReportDividendTotal.t :=
  ReportDividendTotal.mk
    (add (ReportDividendTotal.gross acc) (DividendTransaction.amountGrossJpy d))
    (add (ReportDividendTotal.tax acc) (DividendTransaction.taxJpy d))
    (add (ReportDividendTotal.net acc) (DividendTransaction.amountNetJpy d))
    (add (ReportDividendTotal.grossUsd acc) (DividendTransaction.amountGrossUsd d)).

Definition dividendTotal (dividends : list (DividendTransaction.t Date))
  : ReportDividendTotal.t :=
  foldl dividendTotalStep (ReportDividendTotal.mk zero zero zero zero) dividends.

(** The years collected by [availableYears], before the sort. *)
Definition collectedYears (st : AppState Date) : list number :=
  let years1 :=
    foldl setAdd [] ((fun t => getFullYear (JpyTransaction.dateSold t))
                     <$> gainLossData st) in
  let years2 :=
    foldl setAdd years1 ((fun t => getFullYear (DividendTransaction.date t))
                         <$> dividendData st) in
  foldl setAdd years2 ((fun t => getFullYear (InterestTransaction.date t))
                       <$> interestData st).

(** [availableYears]; [currentYear] is [new Date().getFullYear()]. *)
Definition availableYears (currentYear : number) (st : AppState Date)
  : list number :=
  let years := collectedYears st in
  if isNil years then [currentYear] else merge_sort byYearDescending years.

(** The records of a group: those of [filtered] filed under [key]. *)
Definition filedUnder (key : string) (t : JpyTransaction.t Date) : Prop :=
  propertyKey (JpyTransaction.symbol t) = key.

#[export] Instance filedUnder_dec (key : string) (t : JpyTransaction.t Date) :
  Decision (filedUnder key t).
Proof. unfold filedUnder. apply _. Defined.

(** The six sums of a group summary agree with [totals]. *)
Definition summaryOfTotals (s : Summary.t) (totals : Totals.t) : Prop :=
  Summary.proceeds s = Totals.proceeds totals /\
  Summary.cost s = Totals.cost totals /\
  Summary.gainLoss s = Totals.gainLoss totals /\
  Summary.proceedsUsd s = Totals.proceedsUsd totals /\
  Summary.costUsd s = Totals.costUsd totals /\
  Summary.gainLossUsd s = Totals.gainLossUsd totals.

End MoreAggregation.

(** ** Uploading a file *)

Section Upload.
Context {dates : DateFns} {papa : PapaParse}.

(** [handleFileUpload]; [file] is the text of [e.target.files?.[0]] as the
    [FileReader] decodes it. *)
Definition handleFileUpload (file : option string) (st : AppState Date)
  : Outcome Date :=
  match file with
  | None => Returned st
  | Some text => processFile text (setError None (setLoading true st))
  end.

End Upload.

(** ** Fetching the rates *)

(** [a > b] on numbers. *)
Definition greaterThan (a b : number) : bool :=
  match a, b with
  | NaN, _ | _, NaN => false
  | Infinity na, Infinity nb => negb na && nb
  | Infinity na, Num _ => negb na
  | Num _, Infinity nb => nb
  | Num p, Num q => negb (Qle_bool p q)
  end.

Definition maxStep (highest v : number) : number :=
  match highest, v with
  | NaN, _ | _, NaN => NaN
  | _, _ => if greaterThan v highest then v else highest
  end.

(** [Math.max(...values)] *)
Definition Math_max (values : list number) : number :=
  foldl maxStep (Infinity true) values.

(** What [fetch] and [res.json()] give for a request: the request or the
    reading of the body fails with an error of some message; the response
    is not [ok]; or the body has the documented shape, a [rates] object
    whose entries carry a numeric [JPY], from which [ratesMap] is built. *)
Inductive Response : Type :=
| Rejects (message : string)
| NotOk
| Rates (ratesMap : RatesMap).

Class Network : Type := {
  fetch : string -> Response;
}.

(** The exceptions library and runtime code throws into the handler: the
    [RangeError] of [format] on an invalid date and the [TypeError] of
    [desc.match] on [undefined]. *)
Inductive Exception : Type :=
| RangeError
| TypeError.

(** [min] and [max] of date-fns, and the [message] of an exception. *)
Class Runtime {dates : DateFns} : Type := {
  min : list Date -> Date;
  max : list Date -> Date;
  messageOf : Exception -> string;
}.

Definition noDatesMsg : string := "日付データが見つかりません".
Definition fetchFailedMsg : string := "為替レート取得失敗".
Definition rateFetchErrorMsg : string := "レート取得エラー".

Section StateCellsMore.
Context {Date : Type}.

Definition setRates (v : RatesMap) (st : AppState Date) : AppState Date :=
  mkState (activeTab st) (gainLossData st) (dividendData st) (interestData st)
    (gainLossRaw st) (dividendRaw st) (interestRaw st) v
    (loading st) (error st) (selectedYear st).

(** The [try] block of a handler: it ran to its end, or an error of some
    message reached the [catch]; the updates queued before are kept. *)
Inductive Attempt : Type :=
| Done (st : AppState Date)
| Failed (message : string) (st : AppState Date).

End StateCellsMore.
Arguments Attempt : clear implicits.

Section Fetching.
Context {dates : DateFns} {runtime : Runtime} {network : Network}.

(** The dates a capital-gains row adds to [dates]. *)
Definition datesOfSale (row : Row) : list Date :=
  (option_list (parseDateAny (row !! "Date Acquired"))
   ++ option_list (parseDateAny (row !! "Date Sold")))%list.

(** The date a history row adds. *)
Definition dateOfTrade (row : Row) : list Date :=
  option_list (parseDateAny (row !! "TradeDate")).

(** The [dates] array of [fetchExchangeRates]. *)
Definition collectedDates (st : AppState Date) : list Date :=
  ((default [] (gainLossRaw st) ≫= datesOfSale)
   ++ (default [] (dividendRaw st) ≫= dateOfTrade)
   ++ (default [] (interestRaw st) ≫= dateOfTrade))%list.

(** The address of the request. *)
Definition requestUrl (fetchStart fetchEnd : string) : string :=
  "https://api.frankfurter.app/" ++ fetchStart ++ ".." ++ fetchEnd
  ++ "?from=USD&to=JPY".

(** What a row of [calculateDividends] throws, if it throws. *)
Definition thrownByDividend (currentRates : RatesMap) (row : Row)
  : option Exception :=
  match parseDateAny (row !! "TradeDate") with
  | None => None
  | Some date =>
      match row !! "Description" with
      | None => Some TypeError
      | Some _ =>
          match getRateForDate date currentRates with
          | None => Some RangeError
          | Some _ => None
          end
      end
  end.

(** The exception that stops [calculateDividends]: that of the first row
    that throws. *)
Definition thrownByDividends (currentRates : RatesMap) (rows : list Row)
  : Exception :=
  default RangeError (list_find is_Some (thrownByDividend currentRates <$> rows)
                      ≫= snd).

(** [if (raw) calculate(raw, ratesMap)], with the exception a throw raises. *)
Definition whenLoaded (raw : option (list Row))
    (calculate : list Row -> AppState Date -> Outcome Date)
    (thrown : list Row -> Exception) (st : AppState Date) : Attempt Date :=
  match raw with
  | None => Done st
  | Some rows =>
      match calculate rows st with
      | Returned st' => Done st'
      | Thrown st' => Failed (messageOf (thrown rows)) st'
      end
  end.

Definition attemptThen (a : Attempt Date) (k : AppState Date -> Attempt Date)
  : Attempt Date :=
  match a with
  | Done st => k st
  | Failed message st => Failed message st
  end.

(** The [try] block of [fetchExchangeRates], entered in state [st]. *)
Definition fetchAttempt (st : AppState Date) : Attempt Date :=
  let dates := collectedDates st in
  if isNil dates then Failed noDatesMsg st
  else
    let minDate := min dates in
    let maxDate := max dates in
    match format (subDays minDate 10) "yyyy-MM-dd" with
    | None => Failed (messageOf RangeError) st
    | Some fetchStart =>
        match format maxDate "yyyy-MM-dd" with
        | None => Failed (messageOf RangeError) st
        | Some fetchEnd =>
            match fetch (requestUrl fetchStart fetchEnd) with
            | Rejects message => Failed message st
            | NotOk => Failed fetchFailedMsg st
            | Rates ratesMap =>
                attemptThen
                  (whenLoaded (gainLossRaw st)
                     (fun rows => calculateGainLoss rows ratesMap)
                     (fun _ => RangeError) (setRates ratesMap st))
                  (fun st1 =>
                attemptThen
                  (whenLoaded (dividendRaw st)
                     (fun rows => calculateDividends rows ratesMap)
                     (thrownByDividends ratesMap) st1)
                  (fun st2 =>
                attemptThen
                  (whenLoaded (interestRaw st)
                     (fun rows => calculateInterests rows ratesMap)
                     (fun _ => RangeError) st2)
                  (fun st3 =>
                let years := foldl setAdd [] (getFullYear <$> dates) in
                Done (if isNil years then st3
                      else setSelectedYear (Math_max years) st3))))
            end
        end
    end.

(** [err.message || "..."] *)
Definition messageOr (message fallback : string) : string :=
  match message with
  | EmptyString => fallback
  | _ => message
  end.

(** [fetchExchangeRates], on the state cells and on [fetchingRates]. *)
Definition fetchExchangeRates (st : AppState Date) (fetchingRates : bool)
  : AppState Date * bool :=
  match gainLossRaw st, dividendRaw st with
  | None, None => (st, fetchingRates)
  | _, _ =>
      match fetchAttempt (setError None st) with
      | Done st' => (st', false)
      | Failed message st' =>
          (setError (Some (messageOr message rateFetchErrorMsg)) st', false)
      end
  end.

(** The state is as [fetchExchangeRates] found it, but for the message. *)
Definition untouched (st st' : AppState Date) : Prop :=
  sameData st st' /\ loading st' = loading st.

(** The state holds the rates [ratesMap], every loaded table is calculated
    with them, and nothing else but the selected year has changed. *)
Definition inStep (ratesMap : RatesMap) (st st' : AppState Date) : Prop :=
  rates st' = ratesMap /\
  gainLossRaw st' = gainLossRaw st /\
  dividendRaw st' = dividendRaw st /\
  interestRaw st' = interestRaw st /\
  activeTab st' = activeTab st /\
  loading st' = loading st /\
  match gainLossRaw st with
  | Some rows => calculatedGainLoss rows ratesMap = Some (gainLossData st')
  | None => gainLossData st' = gainLossData st
  end /\
  match dividendRaw st with
  | Some rows => calculatedDividends rows ratesMap = Some (dividendData st')
  | None => dividendData st' = dividendData st
  end /\
  match interestRaw st with
  | Some rows => calculatedInterests rows ratesMap = Some (interestData st')
  | None => interestData st' = interestData st
  end.

End Fetching.

(** ** The calendar instance, continued *)

Module CalendarRuntime.
Import Calendar.

(** One step of [min]: the first date, an earlier one, or an invalid one
    replaces the result; an invalid result is never replaced by a valid
    date. *)
Definition earlier (result : option date) (d : date) : option date :=
  match result, d with
  | None, _ => Some d
  | Some _, InvalidDate => Some InvalidDate
  | Some (Day r), Day n => if (n <? r)%Z then Some d else result
  | Some InvalidDate, Day _ => result
  end.

Definition later (result : option date) (d : date) : option date :=
  match result, d with
  | None, _ => Some d
  | Some _, InvalidDate => Some InvalidDate
  | Some (Day r), Day n => if (r <? n)%Z then Some d else result
  | Some InvalidDate, Day _ => result
  end.

Definition earliest (ds : list date) : date :=
  default InvalidDate (foldl earlier None ds).

Definition latest (ds : list date) : date :=
  default InvalidDate (foldl later None ds).

#[export] Instance runtime : Runtime := {|
  min := earliest;
  max := latest;
  messageOf e :=
    match e with
    | RangeError => "Invalid time value"
    | TypeError => "Cannot read properties of undefined (reading 'match')"
    end;
|}.

(** A service that answers every request with [ratesMap]. *)
Definition answering (ratesMap : RatesMap) : Network :=
  {| fetch _ := Rates ratesMap |}.

(** A service that knows one address and answers it with [ratesMap]. *)
Definition serving (url : string) (ratesMap : RatesMap) : Network :=
  {| fetch asked := if String.eqb asked url then Rates ratesMap else NotOk |}.

End CalendarRuntime.

(** ** More sample inputs *)

Module MoreSamples.
Import Calendar Samples CalendarRuntime.

(** A sale whose sale date names no day of the calendar. *)
Definition misdatedSale : Row := <["Date Sold" := "13/45/2023"]> appleSale.

(** A dividend row without a description cell. *)
Definition undescribedRow : Row := delete "Description" dividendRow.

(** The summary line of a capital-gains export. *)
Definition totalRow : Row := <["Symbol" := "Total"]> appleSale.


(** The January and March rates, and the one of the dividend. *)
Definition yearRates : RatesMap :=
  <["2023-06-15" := ofQ (1452 # 10)]> saleRates.

(** The record of [variousSale] under [saleRates]. *)
Definition variousRecord : JpyTransaction.t Date :=
  {| JpyTransaction.id := 0;
     JpyTransaction.symbol := Some "AAPL";
     JpyTransaction.quantity := ofZ 10;
     JpyTransaction.dateAcquired := Some saturday;
     JpyTransaction.dateSold := saturday;
     JpyTransaction.proceedsUsd := ofZ 1500;
     JpyTransaction.costUsd := ofZ 1000;
     JpyTransaction.wsDisallowed := zero;
     JpyTransaction.rateAcquired := ofZ 140;
     JpyTransaction.rateSold := ofZ 140;
     JpyTransaction.proceedsJpy := ofZ 210000;
     JpyTransaction.costJpy := ofZ 140000;
     JpyTransaction.gainLossJpy := ofZ 70000;
     JpyTransaction.isWashSale := false;
     JpyTransaction.notes := variousNote |}.


(** The records of a Microsoft and an Apple sale. *)
Definition twoSales : list (JpyTransaction.t Date) :=
  default [] (calculatedGainLoss [msftSale; appleSale] saleRates).

(** A sale of a security whose symbol is a name every object inherits. *)
Definition constructorSale : Row := <["Symbol" := "constructor"]> appleSale.

(** The group the Apple sale makes. *)
Definition appleGroup : Group Date := addToGroup appleRecord newGroup.

(** A state that shows a message. *)
Definition complaining : AppState Date := setError (Some emptyFileMsg) st0.

(** A state with rates loaded. *)
Definition rated : AppState Date := setRates saleRates st0.

(** A sale and a dividend loaded, no rates yet. *)
Definition loaded : AppState Date :=
  setDividendRaw (Some [dividendRow]) (setGainLossRaw (Some [appleSale]) st0).

(** The same with a dividend row that has no description. *)
Definition loadedUndescribed : AppState Date :=
  setDividendRaw (Some [undescribedRow]) (setGainLossRaw (Some [appleSale]) st0).

(** The service, asked for the window of [loaded]: ten days before the
    acquisition of 2023-01-02 up to the dividend of 2023-06-15. *)
Definition frankfurter : Network :=
  serving "https://api.frankfurter.app/2022-12-23..2023-06-15?from=USD&to=JPY"
          yearRates.

End MoreSamples.

(** * Properties *)

(** ** Exchange-rate lookup *)

Section RateLookup.
Context {dates : DateFns}.

Lemma daysBefore_succ (date : Date) (k : nat) :
  daysBefore (subDays date 1) k = daysBefore date (S k).
Proof. unfold daysBefore. by rewrite Nat.iter_succ_r. Qed.

Lemma truthyRate_Some (rates : RatesMap) (key : string) (r : number) :
  truthyRate rates key = Some r <-> rates !! key = Some r /\ truthy r = true.
Proof.
  unfold truthyRate. destruct (rates !! key) as [r'|]; [|by split; [|intros []]].
  destruct (truthy r') eqn:Ht; split; try done.
  - by intros [= ->].
  - by intros [[= ->] _].
  - intros [[= ->] ?]. congruence.
Qed.

Lemma truthyRate_absent (rates : RatesMap) (key : string) :
  rates !! key = None -> truthyRate rates key = None.
Proof. unfold truthyRate. by intros ->. Qed.

Lemma getRateFrom_skip (n : nat) (date : Date) (rates : RatesMap) :
  skipped rates date ->
  getRateFrom (S n) date rates = getRateFrom n (subDays date 1) rates.
Proof. intros (key & Hk & Hr). simpl. by rewrite Hk; simpl; rewrite Hr. Qed.

Lemma getRateFrom_found (n k : nat) (date : Date) (rates : RatesMap)
    (key : string) (r : number) :
  k < n ->
  keyOf (daysBefore date k) = Some key ->
  truthyRate rates key = Some r ->
  (forall j, j < k -> skipped rates (daysBefore date j)) ->
  getRateFrom n date rates = Some (RateData.mk r key).
Proof.
  revert n date. induction k as [|k IH]; intros n date Hlt Hkey Hr Hskip.
  - destruct n as [|n]; [lia|]. simpl in *. by rewrite Hkey; simpl; rewrite Hr.
  - destruct n as [|n]; [lia|].
    rewrite getRateFrom_skip by (apply (Hskip 0); lia).
    apply IH; [lia | by rewrite daysBefore_succ | done |].
    intros j Hj. rewrite daysBefore_succ. apply Hskip. lia.
Qed.

Lemma getRateFrom_exhausted (n : nat) (date : Date) (rates : RatesMap) :
  (forall j, j < n -> skipped rates (daysBefore date j)) ->
  getRateFrom n date rates = Some (RateData.mk zero "N/A").
Proof.
  revert date. induction n as [|n IH]; intros date Hskip; [done|].
  rewrite getRateFrom_skip by (apply (Hskip 0); lia).
  apply IH. intros j Hj. rewrite daysBefore_succ. apply Hskip. lia.
Qed.

Lemma getRateFrom_returns (n : nat) (date : Date) (rates : RatesMap) :
  (forall j, j < n -> is_Some (keyOf (daysBefore date j))) ->
  is_Some (getRateFrom n date rates).
Proof.
  revert date. induction n as [|n IH]; intros date Hfmt; [by eexists|].
  destruct (Hfmt 0) as [key Hkey]; [lia|]. simpl in *. rewrite Hkey. simpl.
  destruct (truthyRate rates key); [by eexists|].
  apply IH. intros j Hj. rewrite daysBefore_succ. apply Hfmt. lia.
Qed.

(** The lookup returns for every date whose look-back days are valid. *)
Lemma getRateForDate_returns (date : Date) (rates : RatesMap) :
  formattable date -> is_Some (getRateForDate date rates).
Proof. intros Hfmt. by apply getRateFrom_returns. Qed.

(** C1, as the program has it: when the day [k] days back ([k] from 0 to 9;
    0 is the date itself) has a truthy stored rate, that is one that is
    neither 0 nor NaN, and every nearer day has no entry or a falsy one,
    [getRateForDate] returns that rate with that day's key as [dateUsed]. *)
Theorem getRateForDate_nearest_truthy (date : Date) (rates : RatesMap)
    (k : nat) (key : string) (r : number) :
  k <= 9 ->
  keyOf (daysBefore date k) = Some key ->
  rates !! key = Some r ->
  truthy r = true ->
  (forall j, j < k ->
     exists kj, keyOf (daysBefore date j) = Some kj /\
                (rates !! kj = None \/
                 exists r', rates !! kj = Some r' /\ truthy r' = false)) ->
  getRateForDate date rates = Some (RateData.mk r key).
Proof.
  intros Hk Hkey Hr Ht Hskip. unfold getRateForDate.
  apply getRateFrom_found with (k := k); [lia | done | by apply truthyRate_Some |].
  intros j Hj. destruct (Hskip j Hj) as (kj & Hkj & Hcase).
  exists kj. split; [done|]. unfold truthyRate.
  destruct Hcase as [-> | (r' & -> & ->)]; done.
Qed.

(** C2: when none of the ten days from the date backward has an entry,
    [getRateForDate] returns rate 0 and the sentinel "N/A". *)
Theorem getRateForDate_not_found (date : Date) (rates : RatesMap) :
  (forall j, j < 10 ->
     exists kj, keyOf (daysBefore date j) = Some kj /\ rates !! kj = None) ->
  getRateForDate date rates = Some (RateData.mk zero "N/A").
Proof.
  intros Habs. apply getRateFrom_exhausted. intros j Hj.
  destruct (Habs j Hj) as (kj & Hkj & Hnone).
  exists kj. split; [done | by apply truthyRate_absent].
Qed.

End RateLookup.

(** ** The row loop of the calculators *)

Section RowLoop.
Context {A : Type}.
Implicit Types (f : nat -> Row -> option (option A)) (rows : list Row).

Lemma mapRows_cons f (r : Row) rows :
  mapRows f (r :: rows) =
  x ← f 0%nat r; xs ← mapRows (f ∘ S) rows;
  Some (match x with Some t => t :: xs | None => xs end).
Proof.
  unfold mapRows. cbn [imap mapM].
  destruct (f 0%nat r) as [x|]; [|done]. cbn.
  destruct (mapM (fun x => x) (imap (f ∘ S) rows)) as [ys|]; [|done].
  by destruct x.
Qed.

(** Every output record comes from the callback at some input index. *)
Lemma mapRows_elem f rows (out : list A) (t : A) :
  mapRows f rows = Some out -> t ∈ out ->
  exists i row, rows !! i = Some row /\ f i row = Some (Some t).
Proof.
  revert f out. induction rows as [|r rows IH]; intros f out Hm Ht.
  - injection Hm as <-. by apply elem_of_nil in Ht.
  - rewrite mapRows_cons in Hm.
    destruct (f 0%nat r) as [x|] eqn:Hx; [|done]. cbn in Hm.
    destruct (mapRows (f ∘ S) rows) as [xs|] eqn:Hxs; [|done]. cbn in Hm.
    injection Hm as <-.
    assert (t ∈ xs -> exists i row, (r :: rows) !! i = Some row /\ f i row = Some (Some t)) as Htail.
    { intros Hin. destruct (IH _ _ Hxs Hin) as (i & row & Hi & Hf).
      by exists (S i), row. }
    destruct x as [t0|]; [|by apply Htail].
    apply elem_of_cons in Ht as [-> | Hin]; [|by apply Htail].
    by exists 0%nat, r.
Qed.

(** When the loop completes, the callback returned on every row, and the
    record it returned, if any, is in the output. *)
Lemma mapRows_lookup f rows (out : list A) (i : nat) (row : Row) :
  mapRows f rows = Some out -> rows !! i = Some row ->
  exists x, f i row = Some x /\ forall t, x = Some t -> t ∈ out.
Proof.
  revert f out i. induction rows as [|r rows IH]; intros f out i Hm Hi; [done|].
  rewrite mapRows_cons in Hm.
  destruct (f 0%nat r) as [x|] eqn:Hx; [|done]. cbn in Hm.
  destruct (mapRows (f ∘ S) rows) as [xs|] eqn:Hxs; [|done]. cbn in Hm.
  injection Hm as <-. destruct i as [|i].
  - injection Hi as <-. exists x. split; [done|].
    intros t ->. apply elem_of_cons. by left.
  - destruct (IH _ _ _ Hxs Hi) as (y & Hy & Hin). exists y. split; [done|].
    intros t Ht. destruct x; [apply elem_of_cons; right|]; by apply Hin.
Qed.

(** The callback throws on no row exactly when the loop completes. *)
Lemma mapRows_total f rows :
  (forall i row, rows !! i = Some row -> is_Some (f i row)) ->
  is_Some (mapRows f rows).
Proof.
  revert f. induction rows as [|r rows IH]; intros f Hf; [by eexists|].
  rewrite mapRows_cons.
  destruct (Hf 0%nat r eq_refl) as [x ->]. cbn.
  destruct (IH (f ∘ S)) as [xs ->]; [|by eexists].
  intros i row Hi. by apply (Hf (S i)).
Qed.

Variable key : A -> nat.

(** When the callback stamps each record with its index (shifted by
    [base]), the stamps of the output increase strictly, start no lower
    than [base], and are consecutive when no row was dropped. *)
Lemma mapRows_stamps rows : forall f (base : nat) (out : list A),
  (forall i r t, f i r = Some (Some t) -> key t = base + i) ->
  mapRows f rows = Some out ->
  length out <= length rows /\
  Forall (fun x => base <= x < base + length rows) (key <$> out) /\
  StronglySorted lt (key <$> out) /\
  (length out = length rows -> key <$> out = seq base (length rows)).
Proof.
  induction rows as [|r rows IH]; intros f base out Hkey Hm.
  - injection Hm as <-. cbn. repeat split; constructor.
  - rewrite mapRows_cons in Hm.
    destruct (f 0%nat r) as [x|] eqn:Hx; [|done]. cbn in Hm.
    destruct (mapRows (f ∘ S) rows) as [xs|] eqn:Hxs; [|done]. cbn in Hm.
    injection Hm as <-.
    destruct (IH (f ∘ S) (S base) xs) as (Hlen & Hrange & Hsorted & Hdense); [|done|].
    { intros i r' t Hf. rewrite (Hkey _ _ _ Hf). lia. }
    assert (Forall (fun x => base <= x < base + length (r :: rows)) (key <$> xs)) as Hrange'.
    { eapply Forall_impl; [exact Hrange|]. cbn. intros; lia. }
    destruct x as [t0|]; cbn [length fmap list_fmap].
    + pose proof (Hkey _ _ _ Hx) as Hk0. rewrite Nat.add_0_r in Hk0.
      repeat split.
      * lia.
      * constructor; [cbn; lia | done].
      * constructor; [done|]. rewrite Hk0.
        eapply Forall_impl; [exact Hrange|]. cbn. intros; lia.
      * intros Hl. cbn. rewrite Hk0. f_equal. apply Hdense. lia.
    + repeat split; [lia | done | done | lia].
Qed.

End RowLoop.

(** ** The three calculators *)

Section CalculatorFacts.
Context {dates : DateFns}.
Implicit Types (rows : list Row) (row : Row) (currentRates : RatesMap)
  (st : AppState Date).

Lemma calculateGainLoss_Returned rows currentRates st st' :
  calculateGainLoss rows currentRates st = Returned st' ->
  calculatedGainLoss rows currentRates = Some (gainLossData st').
Proof.
  unfold calculateGainLoss.
  destruct (calculatedGainLoss rows currentRates); [|done]. by intros [= <-].
Qed.

Lemma calculateDividends_Returned rows currentRates st st' :
  calculateDividends rows currentRates st = Returned st' ->
  calculatedDividends rows currentRates = Some (dividendData st').
Proof.
  unfold calculateDividends.
  destruct (calculatedDividends rows currentRates); [|done]. by intros [= <-].
Qed.

Lemma calculateInterests_Returned rows currentRates st st' :
  calculateInterests rows currentRates st = Returned st' ->
  calculatedInterests rows currentRates = Some (interestData st').
Proof.
  unfold calculateInterests.
  destruct (calculatedInterests rows currentRates); [|done]. by intros [= <-].
Qed.

(** A text that signals "various" never parses. *)
Lemma parseDateAny_various (s : string) :
  includes (toLowerCase s) "var" = true -> parseDateAny (Some s) = None.
Proof.
  intros Hvar. unfold parseDateAny. destruct s as [|c s]; [done|]. by rewrite Hvar.
Qed.

(** What the callback of [calculateGainLoss] builds for a row whose sale
    date parses and whose rate lookups return. *)
Lemma gainLossOfRow_record currentRates (idx : nat) row (dateSold : Date)
    (rs ra : RateData.t) :
  parseDateAny (row !! "Date Sold") = Some dateSold ->
  getRateForDate dateSold currentRates = Some rs ->
  getRateForDate (default dateSold (parseDateAny (row !! "Date Acquired")))
                 currentRates = Some ra ->
  exists t, gainLossOfRow currentRates idx row = Some (Some t) /\
    JpyTransaction.id t = idx /\
    JpyTransaction.dateSold t = dateSold /\
    JpyTransaction.dateAcquired t =
      Some (default dateSold (parseDateAny (row !! "Date Acquired"))) /\
    JpyTransaction.rateSold t = RateData.rate rs /\
    JpyTransaction.rateAcquired t = RateData.rate ra /\
    JpyTransaction.notes t =
      (if match parseDateAny (row !! "Date Acquired"), row !! "Date Acquired" with
          | None, Some s => includes (toLowerCase s) "var"
          | _, _ => false
          end
       then variousNote
       else if strictEq (RateData.rate rs) zero then rateErrorNote else "").
Proof.
  intros Hsold Hrs Hra. unfold gainLossOfRow.
  rewrite Hsold. cbn zeta. rewrite Hrs. cbn [mbind option_bind].
  rewrite Hra. cbn [mbind option_bind].
  eexists. split; [reflexivity|]. by cbn.
Qed.

Lemma gainLossOfRow_inv currentRates (idx : nat) row (t : JpyTransaction.t Date) :
  gainLossOfRow currentRates idx row = Some (Some t) ->
  JpyTransaction.id t = idx /\
  is_Some (parseDateAny (row !! "Date Sold")) /\
  is_Some (JpyTransaction.dateAcquired t) /\
  JpyTransaction.gainLossJpy t =
    sub (JpyTransaction.proceedsJpy t) (JpyTransaction.costJpy t) /\
  JpyTransaction.proceedsJpy t =
    floor (mul (JpyTransaction.proceedsUsd t) (JpyTransaction.rateSold t)) /\
  JpyTransaction.costJpy t =
    floor (mul (JpyTransaction.costUsd t) (JpyTransaction.rateAcquired t)).
Proof.
  unfold gainLossOfRow.
  destruct (parseDateAny (row !! "Date Sold")) as [dateSold|]; [|done]. cbn zeta.
  destruct (getRateForDate dateSold currentRates) as [rs|]; [|done].
  cbn [mbind option_bind].
  destruct (getRateForDate _ currentRates) as [ra|]; [|done].
  cbn [mbind option_bind]. intros [= <-]. cbn. by repeat split; try eexists.
Qed.

Lemma dividendOfRow_inv currentRates (idx : nat) row (t : DividendTransaction.t Date) :
  dividendOfRow currentRates idx row = Some (Some t) ->
  DividendTransaction.id t = idx /\
  is_Some (parseDateAny (row !! "TradeDate")) /\
  DividendTransaction.amountGrossUsd t =
    add (DividendTransaction.amountNetUsd t) (DividendTransaction.taxUsd t) /\
  DividendTransaction.amountGrossJpy t =
    floor (mul (DividendTransaction.amountGrossUsd t) (DividendTransaction.rate t)) /\
  DividendTransaction.taxJpy t =
    floor (mul (DividendTransaction.taxUsd t) (DividendTransaction.rate t)) /\
  DividendTransaction.amountNetJpy t =
    floor (mul (DividendTransaction.amountNetUsd t) (DividendTransaction.rate t)).
Proof.
  unfold dividendOfRow.
  destruct (parseDateAny (row !! "TradeDate")) as [date|]; [|done]. cbn zeta.
  destruct (extractTaxFromDescription (row !! "Description")) as [tax|]; [|done].
  cbn [mbind option_bind].
  destruct (getRateForDate date currentRates) as [rd|]; [|done].
  cbn [mbind option_bind]. intros [= <-]. cbn. by repeat split; try eexists.
Qed.

Lemma interestOfRow_inv currentRates (idx : nat) row (t : InterestTransaction.t Date) :
  interestOfRow currentRates idx row = Some (Some t) ->
  InterestTransaction.id t = idx /\
  is_Some (parseDateAny (row !! "TradeDate")) /\
  InterestTransaction.amountNetJpy t =
    floor (mul (InterestTransaction.amountNetUsd t) (InterestTransaction.rate t)).
Proof.
  unfold interestOfRow.
  destruct (parseDateAny (row !! "TradeDate")) as [date|]; [|done]. cbn zeta.
  destruct (getRateForDate date currentRates) as [rd|]; [|done].
  cbn [mbind option_bind]. intros [= <-]. cbn. by repeat split; try eexists.
Qed.

(** A callback returns [null] only for a row whose governing date does not
    parse. *)
Lemma gainLossOfRow_null currentRates (idx : nat) row :
  gainLossOfRow currentRates idx row = Some None ->
  parseDateAny (row !! "Date Sold") = None.
Proof.
  unfold gainLossOfRow.
  destruct (parseDateAny (row !! "Date Sold")) as [dateSold|]; [|done]. cbn zeta.
  destruct (getRateForDate dateSold currentRates) as [rs|]; [|done].
  cbn [mbind option_bind].
  by destruct (getRateForDate _ currentRates) as [ra|].
Qed.

Lemma dividendOfRow_null currentRates (idx : nat) row :
  dividendOfRow currentRates idx row = Some None ->
  parseDateAny (row !! "TradeDate") = None.
Proof.
  unfold dividendOfRow.
  destruct (parseDateAny (row !! "TradeDate")) as [date|]; [|done]. cbn zeta.
  destruct (extractTaxFromDescription (row !! "Description")) as [tax|]; [|done].
  cbn [mbind option_bind].
  by destruct (getRateForDate date currentRates) as [rd|].
Qed.

Lemma interestOfRow_null currentRates (idx : nat) row :
  interestOfRow currentRates idx row = Some None ->
  parseDateAny (row !! "TradeDate") = None.
Proof.
  unfold interestOfRow.
  destruct (parseDateAny (row !! "TradeDate")) as [date|]; [|done]. cbn zeta.
  by destruct (getRateForDate date currentRates) as [rd|].
Qed.

(** The two rates of a capital-gain record are what the lookup returned for
    its sale date and for its acquisition date. *)
Lemma gainLossOfRow_rates currentRates (idx : nat) row (t : JpyTransaction.t Date) :
  gainLossOfRow currentRates idx row = Some (Some t) ->
  (exists rs, getRateForDate (JpyTransaction.dateSold t) currentRates = Some rs /\
     JpyTransaction.rateSold t = RateData.rate rs) /\
  (exists acquired ra, JpyTransaction.dateAcquired t = Some acquired /\
     getRateForDate acquired currentRates = Some ra /\
     JpyTransaction.rateAcquired t = RateData.rate ra).
Proof.
  intros Hrow. unfold gainLossOfRow in Hrow.
  destruct (parseDateAny (row !! "Date Sold")) as [dateSold|]; [|done].
  cbn zeta in Hrow.
  destruct (getRateForDate dateSold currentRates) as [rs|] eqn:Ers; [|done].
  cbn [mbind option_bind] in Hrow.
  destruct (getRateForDate
              (default dateSold (parseDateAny (row !! "Date Acquired")))
              currentRates) as [ra|] eqn:Era; [|done].
  cbn [mbind option_bind] in Hrow. injection Hrow as <-. cbn.
  split; [by exists rs|]. by eexists _, ra.
Qed.

Lemma dividendOfRow_rate currentRates (idx : nat) row (t : DividendTransaction.t Date) :
  dividendOfRow currentRates idx row = Some (Some t) ->
  exists rd, getRateForDate (DividendTransaction.date t) currentRates = Some rd /\
    DividendTransaction.rate t = RateData.rate rd.
Proof.
  intros Hrow. unfold dividendOfRow in Hrow.
  destruct (parseDateAny (row !! "TradeDate")) as [date|]; [|done].
  cbn zeta in Hrow.
  destruct (extractTaxFromDescription (row !! "Description")) as [tax|]; [|done].
  cbn [mbind option_bind] in Hrow.
  destruct (getRateForDate date currentRates) as [rd|] eqn:Erd; [|done].
  cbn [mbind option_bind] in Hrow. injection Hrow as <-. cbn. by exists rd.
Qed.

(** The calculators return when every date that parses is a valid one
    (and, for dividends, every row has a description). *)
Lemma calculateGainLoss_returns rows currentRates st :
  (forall row d, row ∈ rows ->
     parseDateAny (row !! "Date Sold") = Some d -> formattable d) ->
  (forall row d, row ∈ rows ->
     parseDateAny (row !! "Date Acquired") = Some d -> formattable d) ->
  exists st', calculateGainLoss rows currentRates st = Returned st'.
Proof.
  intros Hsold Hacq. unfold calculateGainLoss, calculatedGainLoss.
  destruct (mapRows_total (gainLossOfRow currentRates) rows) as [out ->];
    [|by eexists].
  intros i row Hi. apply list_elem_of_lookup_2 in Hi. unfold gainLossOfRow.
  destruct (parseDateAny (row !! "Date Sold")) as [dateSold|] eqn:Es; [|by eexists].
  cbn zeta.
  destruct (getRateForDate_returns dateSold currentRates) as [rs ->]; [by eapply Hsold|].
  cbn [mbind option_bind].
  destruct (getRateForDate_returns
              (default dateSold (parseDateAny (row !! "Date Acquired")))
              currentRates) as [ra ->]; [|by eexists].
  destruct (parseDateAny (row !! "Date Acquired")) as [d|] eqn:Ea; cbn.
  - by eapply Hacq.
  - by eapply Hsold.
Qed.

Lemma calculateDividends_returns rows currentRates st :
  (forall row d, row ∈ rows ->
     parseDateAny (row !! "TradeDate") = Some d -> formattable d) ->
  (forall row, row ∈ rows -> is_Some (row !! "Description")) ->
  exists st', calculateDividends rows currentRates st = Returned st'.
Proof.
  intros Hdate Hdesc. unfold calculateDividends, calculatedDividends.
  destruct (mapRows_total (dividendOfRow currentRates) rows) as [out ->];
    [|by eexists].
  intros i row Hi. apply list_elem_of_lookup_2 in Hi. unfold dividendOfRow.
  destruct (parseDateAny (row !! "TradeDate")) as [date|] eqn:Ed; [|by eexists].
  cbn zeta. destruct (Hdesc row Hi) as [desc ->].
  unfold extractTaxFromDescription.
  destruct (matchTax desc); cbn [mbind option_bind];
    (destruct (getRateForDate_returns date currentRates) as [rd ->];
       [by eapply Hdate | by eexists]).
Qed.

Lemma calculateInterests_returns rows currentRates st :
  (forall row d, row ∈ rows ->
     parseDateAny (row !! "TradeDate") = Some d -> formattable d) ->
  exists st', calculateInterests rows currentRates st = Returned st'.
Proof.
  intros Hdate. unfold calculateInterests, calculatedInterests.
  destruct (mapRows_total (interestOfRow currentRates) rows) as [out ->];
    [|by eexists].
  intros i row Hi. apply list_elem_of_lookup_2 in Hi. unfold interestOfRow.
  destruct (parseDateAny (row !! "TradeDate")) as [date|] eqn:Ed; [|by eexists].
  cbn zeta.
  destruct (getRateForDate_returns date currentRates) as [rd ->];
    [by eapply Hdate | by eexists].
Qed.

Lemma signalsVarious_unparsed row :
  signalsVarious row = true -> parseDateAny (row !! "Date Acquired") = None.
Proof.
  unfold signalsVarious. destruct (row !! "Date Acquired") as [s|]; [|done].
  apply parseDateAny_various.
Qed.

(** C3, as the program has it by design: for a row whose sale date parses
    (and whose rate lookup returns), an acquisition text that signals
    "various" gives a record carrying the various-date note whose
    [dateAcquired] is the sale date, not [null]; an acquisition text for
    which [parseDateAny] returns [null] without that signal gets the same
    substitution without the note, and [parseDateAny] does return [null]
    for an absent cell and for a text that holds neither "/" nor "-"; a
    date that [parseDateAny] returns is kept as it is.  What becomes of a
    text with a "/" or a "-" that the date library cannot read is not
    stated here. *)
Theorem gainLoss_unparsed_acquisition_takes_sale_date currentRates (idx : nat)
    row (dateSold : Date) (rs : RateData.t) :
  parseDateAny (row !! "Date Sold") = Some dateSold ->
  getRateForDate dateSold currentRates = Some rs ->
  (signalsVarious row = true ->
     exists t, gainLossOfRow currentRates idx row = Some (Some t) /\
       JpyTransaction.dateAcquired t = Some dateSold /\
       JpyTransaction.notes t = variousNote) /\
  (signalsVarious row = false ->
   parseDateAny (row !! "Date Acquired") = None ->
     exists t, gainLossOfRow currentRates idx row = Some (Some t) /\
       JpyTransaction.dateAcquired t = Some dateSold /\
       JpyTransaction.notes t =
         if strictEq (RateData.rate rs) zero then rateErrorNote else "") /\
  ((row !! "Date Acquired" = None \/
    exists s, row !! "Date Acquired" = Some s /\
      includes s "/" = false /\ includes s "-" = false) ->
   parseDateAny (row !! "Date Acquired") = None) /\
  (forall (acquired : Date) (ra : RateData.t),
   parseDateAny (row !! "Date Acquired") = Some acquired ->
   getRateForDate acquired currentRates = Some ra ->
     exists t, gainLossOfRow currentRates idx row = Some (Some t) /\
       JpyTransaction.dateAcquired t = Some acquired).
Proof.
  intros Hsold Hrs. split; [|split; [|split]].
  - intros Hvar. pose proof (signalsVarious_unparsed _ Hvar) as Hnone.
    destruct (gainLossOfRow_record currentRates idx row dateSold rs rs)
      as (t & Ht & _ & _ & Hacq & _ & _ & Hnotes); [done | done | by rewrite Hnone |].
    exists t. rewrite Hacq, Hnotes, Hnone. unfold signalsVarious in Hvar.
    destruct (row !! "Date Acquired"); [|done]. by rewrite Hvar.
  - intros Hvar Hnone.
    destruct (gainLossOfRow_record currentRates idx row dateSold rs rs)
      as (t & Ht & _ & _ & Hacq & _ & _ & Hnotes); [done | done | by rewrite Hnone |].
    exists t. rewrite Hacq, Hnotes, Hnone. unfold signalsVarious in Hvar.
    destruct (row !! "Date Acquired"); [|done]. by rewrite Hvar.
  - intros [-> | (s & -> & Hslash & Hdash)]; [done|]. unfold parseDateAny.
    destruct s as [|c s]; [done|]. rewrite Hslash, Hdash.
    by destruct (includes _ "var").
  - intros acquired ra Hacq Hra.
    destruct (gainLossOfRow_record currentRates idx row dateSold rs ra)
      as (t & Ht & _ & _ & Hacq' & _); [done | done | by rewrite Hacq |].
    exists t. by rewrite Hacq', Hacq.
Qed.

Lemma calculated_record_fields rows currentRates st st' (t : JpyTransaction.t Date) :
  calculateGainLoss rows currentRates st = Returned st' ->
  t ∈ gainLossData st' ->
  exists i row, rows !! i = Some row /\
    gainLossOfRow currentRates i row = Some (Some t).
Proof.
  intros Hc%calculateGainLoss_Returned Ht. by eapply mapRows_elem.
Qed.


Lemma calculated_dividend_fields rows currentRates st st'
    (t : DividendTransaction.t Date) :
  calculateDividends rows currentRates st = Returned st' ->
  t ∈ dividendData st' ->
  DividendTransaction.amountGrossUsd t =
    add (DividendTransaction.amountNetUsd t) (DividendTransaction.taxUsd t) /\
  DividendTransaction.amountGrossJpy t =
    floor (mul (DividendTransaction.amountGrossUsd t) (DividendTransaction.rate t)) /\
  DividendTransaction.taxJpy t =
    floor (mul (DividendTransaction.taxUsd t) (DividendTransaction.rate t)) /\
  DividendTransaction.amountNetJpy t =
    floor (mul (DividendTransaction.amountNetUsd t) (DividendTransaction.rate t)) /\
  exists rd, getRateForDate (DividendTransaction.date t) currentRates = Some rd /\
    DividendTransaction.rate t = RateData.rate rd.
Proof.
  intros Hc%calculateDividends_Returned Ht.
  destruct (mapRows_elem _ _ _ _ Hc Ht) as (i & row & _ & Hrow).
  destruct (dividendOfRow_inv _ _ _ _ Hrow) as (_ & _ & ? & ? & ? & ?).
  pose proof (dividendOfRow_rate _ _ _ _ Hrow). done.
Qed.

(** C4: every record derived by [calculateGainLoss] has [gainLossJpy] equal
    to [proceedsJpy - costJpy], where [proceedsJpy] is the floor of
    [proceedsUsd * rateSold] and [costJpy] the floor of
    [costUsd * rateAcquired], the two rates being those looked up for the
    sale date and for the acquisition date of the record. *)
Theorem gainLoss_is_difference_of_floored rows currentRates st st'
    (t : JpyTransaction.t Date) :
  calculateGainLoss rows currentRates st = Returned st' ->
  t ∈ gainLossData st' ->
  JpyTransaction.gainLossJpy t =
    sub (JpyTransaction.proceedsJpy t) (JpyTransaction.costJpy t) /\
  JpyTransaction.proceedsJpy t =
    floor (mul (JpyTransaction.proceedsUsd t) (JpyTransaction.rateSold t)) /\
  JpyTransaction.costJpy t =
    floor (mul (JpyTransaction.costUsd t) (JpyTransaction.rateAcquired t)) /\
  (exists rs, getRateForDate (JpyTransaction.dateSold t) currentRates = Some rs /\
     JpyTransaction.rateSold t = RateData.rate rs) /\
  (exists acquired ra, JpyTransaction.dateAcquired t = Some acquired /\
     getRateForDate acquired currentRates = Some ra /\
     JpyTransaction.rateAcquired t = RateData.rate ra).
Proof.
  intros Hc Ht.
  destruct (calculated_record_fields _ _ _ _ _ Hc Ht) as (i & row & _ & Hrow).
  destruct (gainLossOfRow_inv _ _ _ _ Hrow) as (_ & _ & _ & ? & ? & ?).
  destruct (gainLossOfRow_rates _ _ _ _ Hrow) as [? ?]. done.
Qed.

Lemma mapRows_stamped {A : Type} (id : A -> nat) (dateField : string)
    (f : nat -> Row -> option (option A)) rows (out : list A) :
  (forall i r t, f i r = Some (Some t) ->
     id t = i /\ is_Some (parseDateAny (r !! dateField))) ->
  (forall i r, f i r = Some None -> parseDateAny (r !! dateField) = None) ->
  mapRows f rows = Some out ->
  stampedByRowIndex id dateField rows out.
Proof.
  intros Hf Hnull Hm.
  destruct (mapRows_stamps id rows f 0 out) as (_ & _ & Hsorted & Hdense); [|done|].
  { intros i r t Hi. by destruct (Hf _ _ _ Hi). }
  split; [done|]. split; [|done].
  intros i. rewrite list_elem_of_fmap. split.
  - intros (t & -> & Ht).
    destruct (mapRows_elem _ _ _ _ Hm Ht) as (i & row & Hi & Hrow).
    destruct (Hf _ _ _ Hrow) as [-> ?]. by exists row.
  - intros (row & Hi & Hdate).
    destruct (mapRows_lookup _ _ _ _ _ Hm Hi) as ([t|] & Hx & Hin).
    + exists t. split; [|by apply Hin]. by destruct (Hf _ _ _ Hx) as [-> _].
    + rewrite (Hnull _ _ Hx) in Hdate. by destruct Hdate.
Qed.

(** C6, as the program has it: each calculator gives a record the
    zero-based index of the input row it derives from.  The identities
    increase strictly in output order, are exactly the indices of the rows
    whose governing date parses, and are 0, 1, 2, ... without gaps when no
    row was dropped. *)
Theorem calculators_stamp_row_indices rows currentRates st st' :
  (calculateGainLoss rows currentRates st = Returned st' ->
     stampedByRowIndex JpyTransaction.id "Date Sold" rows (gainLossData st')) /\
  (calculateDividends rows currentRates st = Returned st' ->
     stampedByRowIndex DividendTransaction.id "TradeDate" rows (dividendData st')) /\
  (calculateInterests rows currentRates st = Returned st' ->
     stampedByRowIndex InterestTransaction.id "TradeDate" rows (interestData st')).
Proof.
  split; [|split].
  - intros Hc%calculateGainLoss_Returned.
    eapply mapRows_stamped; [| |exact Hc].
    + intros i r t Hi. by destruct (gainLossOfRow_inv _ _ _ _ Hi) as (? & ? & _).
    + apply gainLossOfRow_null.
  - intros Hc%calculateDividends_Returned.
    eapply mapRows_stamped; [| |exact Hc].
    + intros i r t Hi. by destruct (dividendOfRow_inv _ _ _ _ Hi) as (? & ? & _).
    + apply dividendOfRow_null.
  - intros Hc%calculateInterests_Returned.
    eapply mapRows_stamped; [| |exact Hc].
    + intros i r t Hi. by destruct (interestOfRow_inv _ _ _ _ Hi) as (? & ? & _).
    + apply interestOfRow_null.
Qed.

End CalculatorFacts.

(** ** Year filter *)

Section YearFilter.
Context {dates : DateFns}.

(** C9: a record is in the view filtered for a year exactly when it is in
    the derived collection and the calendar year of its governing date
    ([dateSold] for capital gains, [date] for dividends and interest) equals
    that year; selecting a year changes none of the derived collections. *)
Theorem year_filter_selects_governing_year (st : AppState Date) (year : number) :
  let st' := setSelectedYear year st in
  (forall t, t ∈ filteredGainLoss st' <->
     t ∈ gainLossData st /\
     strictEq (getFullYear (JpyTransaction.dateSold t)) year = true) /\
  (forall t, t ∈ filteredDividends st' <->
     t ∈ dividendData st /\
     strictEq (getFullYear (DividendTransaction.date t)) year = true) /\
  (forall t, t ∈ filteredInterests st' <->
     t ∈ interestData st /\
     strictEq (getFullYear (InterestTransaction.date t)) year = true) /\
  gainLossData st' = gainLossData st /\
  dividendData st' = dividendData st /\
  interestData st' = interestData st.
Proof.
  cbn zeta. unfold filteredGainLoss, filteredDividends, filteredInterests.
  split; [|split; [|split; [|done]]].
  all: intros t; rewrite list_elem_of_filter, Is_true_true; cbn; tauto.
Qed.

End YearFilter.

(** ** File classification *)

Section Classifier.
Context {dates : DateFns} {papa : PapaParse}.

Lemma findHeader_empty_text : findHeader (linesOf "") = None.
Proof. reflexivity. Qed.

(** C8: when the located header line contains "sales proceeds" in any case,
    [processFile] selects the capital-gains schema; when it does not but
    contains both "action" and "amount", it selects the history schema.  In
    both cases the rows Papa Parse returns are handled under that schema. *)
Theorem header_selects_schema (text : string) (st : AppState Date) (i : nat)
    (line : string) :
  findHeader (linesOf text) = Some (i, line) ->
  let lower := toLowerCase line in
  let cleanCsv := join (drop i (linesOf text)) (String newline EmptyString) in
  (includes lower "sales proceeds" = true ->
     detectFileType lower = GAIN_LOSS /\
     forall data, Papa_parse cleanCsv = Complete data ->
       processFile text st = onComplete GAIN_LOSS data st) /\
  (includes lower "sales proceeds" = false ->
   includes lower "action" = true ->
   includes lower "amount" = true ->
     detectFileType lower = HISTORY /\
     forall data, Papa_parse cleanCsv = Complete data ->
       processFile text st = onComplete HISTORY data st).
Proof.
  intros Hfind lower cleanCsv.
  assert (forall ft data, detectFileType lower = ft ->
            Papa_parse cleanCsv = Complete data ->
            processFile text st = onComplete ft data st) as Hrun.
  { intros ft data Hft Hdata. unfold processFile.
    destruct text as [|c text]; [by rewrite findHeader_empty_text in Hfind|].
    rewrite Hfind. fold lower. fold cleanCsv. by rewrite Hft, Hdata. }
  split.
  - intros Hsales.
    assert (detectFileType lower = GAIN_LOSS) as Hft
      by (unfold detectFileType; by rewrite Hsales).
    split; [done | by intros data; apply Hrun].
  - intros Hsales Haction Hamount.
    assert (detectFileType lower = HISTORY) as Hft
      by (unfold detectFileType; by rewrite Hsales, Haction, Hamount).
    split; [done | by intros data; apply Hrun].
Qed.

(** On the history branch a file without dividend rows is reported as an
    error and nothing else is stored, whatever interest rows it holds. *)
Lemma history_without_dividends (data : list Row) (st : AppState Date) :
  filter (fun r => Is_true (hasAction "Dividend" r)) data = [] ->
  onComplete HISTORY data st =
    Returned (setLoading false (setError (Some noDividendMsg) st)).
Proof. intros Hnone. unfold onComplete. by rewrite Hnone. Qed.

(** On the history branch with dividend rows and no rates fetched yet, the
    two subsets are the rows whose action is "Dividend" and "Interest". *)
Lemma history_with_dividends (data : list Row) (st : AppState Date) :
  filter (fun r => Is_true (hasAction "Dividend" r)) data <> [] ->
  filter (fun r => Is_true (hasAction "Interest" r)) data <> [] ->
  size (rates st) = 0%nat ->
  exists st', onComplete HISTORY data st = Returned st' /\
    dividendRaw st' = Some (filter (fun r => Is_true (hasAction "Dividend" r)) data) /\
    interestRaw st' = Some (filter (fun r => Is_true (hasAction "Interest" r)) data).
Proof.
  intros Hdiv Hint Hrates. unfold onComplete.
  destruct (filter _ data) as [|d ds] eqn:Ed; [done|].
  destruct (filter (fun r => Is_true (hasAction "Interest" r)) data)
    as [|x xs] eqn:Ex; [done|].
  rewrite Hrates. cbn. eexists. by split.
Qed.

(** On the fallback branch the interest rows are stored whether or not
    there are dividend rows. *)
Lemma fallback_keeps_interest (data : list Row) (first : Row) (st : AppState Date) :
  data !! 0%nat = Some first ->
  nonEmpty (first !! "Sales Proceeds") = false ->
  nonEmpty (first !! "Action") = true ->
  filter (fun r => Is_true (hasAction "Interest" r)) data <> [] ->
  exists st', onComplete UNKNOWN data st = Returned st' /\
    interestRaw st' = Some (filter (fun r => Is_true (hasAction "Interest" r)) data).
Proof.
  intros Hfirst Hsales Haction Hint. unfold onComplete.
  rewrite Hfirst. cbn [mbind option_bind]. rewrite Hsales, Haction.
  destruct (filter (fun r => Is_true (hasAction "Interest" r)) data)
    as [|x xs] eqn:Ex; [done|].
  destruct (filter (fun r => Is_true (hasAction "Dividend" r)) data)
    as [|d ds] eqn:Ed; cbn; eexists; by split.
Qed.

End Classifier.

(** ** Arithmetic used by the aggregators *)

Section NumberFacts.

Lemma sub_zero_zero : sub zero zero = zero.
Proof. reflexivity. Qed.









End NumberFacts.

(** ** Aggregation *)

Section AggregationFacts.
Context {dates : DateFns} {collation : Collation}.
Implicit Types (t : JpyTransaction.t Date) (g : Group Date)
  (l filtered : list (JpyTransaction.t Date)) (groups : gmap string (Group Date)).

Lemma newGroup_balanced : balanced (summary newGroup).
Proof. reflexivity. Qed.

Lemma filed_snoc l t : filed (l ++ [t]) = fileRecord (filed l) t.
Proof. unfold filed. by rewrite foldl_snoc. Qed.

Lemma groupsOf_snoc l t :
  groupsOf (l ++ [t]) = groups ← groupsOf l; groupStep groups t.
Proof. unfold groupsOf. by rewrite foldl_snoc. Qed.

Lemma totalsGainLoss_snoc l t :
  totalsGainLoss (l ++ [t]) = totalsStep (totalsGainLoss l) t.
Proof. unfold totalsGainLoss. by rewrite foldl_snoc. Qed.

Lemma groupStep_Some groups groups' t :
  groupStep groups t = Some groups' -> groups' = fileRecord groups t.
Proof.
  unfold groupStep.
  destruct (groups !! _); [by intros [= <-]|].
  destruct (inherited _); [done | by intros [= <-]].
Qed.

(** When the loop runs to its end, the groups are the filed ones. *)
Lemma groupsOf_Some l groups : groupsOf l = Some groups -> groups = filed l.
Proof.
  revert groups. induction l as [|t l IH] using rev_ind; intros groups.
  - by intros [= <-].
  - rewrite groupsOf_snoc, filed_snoc.
    destruct (groupsOf l) as [groups0|]; [|done]. cbn.
    intros ->%groupStep_Some. by rewrite (IH groups0).
Qed.

(** What [groups[key]] holds once the records of [l] have been filed. *)
Lemma filed_lookup l (key : string) :
  match filed l !! key with
  | None => filter (filedUnder key) l = []
  | Some g =>
      filter (filedUnder key) l <> [] /\
      transactions g = filter (filedUnder key) l /\
      summaryOfTotals (summary g) (totalsGainLoss (filter (filedUnder key) l))
  end.
Proof.
  induction l as [|t l IH] using rev_ind; [done|].
  rewrite filed_snoc, filter_app. unfold fileRecord.
  destruct (decide (propertyKey (JpyTransaction.symbol t) = key)) as [<- | Hne].
  - rewrite lookup_insert_eq.
    rewrite (filter_cons_True (filedUnder _) t []) by done.
    rewrite filter_nil, totalsGainLoss_snoc.
    destruct (filed l !! propertyKey (JpyTransaction.symbol t)) as [g|].
    + destruct IH as (Hne & Htr & Hs1 & Hs2 & Hs3 & Hs4 & Hs5 & Hs6).
      cbn [default]. split; [by destruct (filter _ l)|].
      split; [cbn; by rewrite Htr|].
      unfold summaryOfTotals. cbn.
      by rewrite Hs1, Hs2, Hs3, Hs4, Hs5, Hs6.
    + rewrite IH. cbn [default]. by repeat split.
  - rewrite lookup_insert_ne by done.
    rewrite (filter_cons_False (filedUnder key) t []) by (by intros ?).
    rewrite filter_nil, app_nil_r. exact IH.
Qed.

(** The loop throws exactly when a record carries an inherited name. *)
Lemma groupsOf_None l :
  groupsOf l = None <->
  exists t, t ∈ l /\ inherited (propertyKey (JpyTransaction.symbol t)) = true.
Proof.
  induction l as [|t l IH] using rev_ind.
  { split; [done|]. by intros (t & Ht%elem_of_nil & _). }
  rewrite groupsOf_snoc. split.
  - destruct (groupsOf l) as [groups|] eqn:Hl.
    + cbn. unfold groupStep. destruct (groups !! _); [done|].
      destruct (inherited _) eqn:Hin; [|done]. intros _. exists t.
      split; [|done]. apply elem_of_app. right. by apply list_elem_of_singleton.
    + intros _. destruct (proj1 IH eq_refl) as (t0 & Ht0 & Hin). exists t0.
      split; [|done]. apply elem_of_app. by left.
  - intros (t0 & Ht0 & Hin).
    destruct (groupsOf l) as [groups|] eqn:Hl; [|done]. cbn.
    apply elem_of_app in Ht0 as [Ht0 | ->%list_elem_of_singleton].
    { assert (Some groups = None) as [=]. apply IH. by exists t0. }
    unfold groupStep.
    destruct (groups !! propertyKey (JpyTransaction.symbol t)) as [g|] eqn:Hg;
      [|by rewrite Hin].
    exfalso. rewrite (groupsOf_Some _ _ Hl) in Hg.
    pose proof (filed_lookup l (propertyKey (JpyTransaction.symbol t))) as Hlk.
    rewrite Hg in Hlk. destruct Hlk as (Hne & _).
    destruct (filter _ l) as [|t1 l1] eqn:Hf; [done|].
    assert (t1 ∈ filter (filedUnder (propertyKey (JpyTransaction.symbol t))) l)
      as Ht1 by (rewrite Hf; apply elem_of_cons; by left).
    apply list_elem_of_filter in Ht1 as [Hkey Ht1].
    assert (Some groups = None) as [=].
    apply IH. exists t1. split; [done|]. unfold filedUnder in Hkey. by rewrite Hkey.
Qed.









End AggregationFacts.

(** ** The program on the sample inputs *)

Section Scenarios.
Import Calendar Samples.

Ltac run := vm_compute; reflexivity.

(** In the calendar instance the day [k] days before day [n] is day
    [n - k], and every valid day can be formatted. *)
Lemma daysBefore_Day (n : Z) (k : nat) :
  daysBefore (Day n) k = Day (n - Z.of_nat k).
Proof.
  induction k as [|k IH]; [cbn; f_equal; lia|].
  unfold daysBefore in *. rewrite Nat.iter_succ, IH. cbn. f_equal. lia.
Qed.

Lemma Day_formattable (n : Z) : formattable (Day n).
Proof.
  intros j _. rewrite daysBefore_Day. by eexists.
Qed.

(** The testable properties the specification lists for the helpers. *)
Example parseMoney_dollars : parseMoney (Some "$1,234.56") = ofQ (123456 # 100).
Proof. run. Qed.

Example parseMoney_empty : parseMoney (Some "") = zero.
Proof. run. Qed.

Example parseMoney_negative : parseMoney (Some "-$12.00") = ofZ (-12).
Proof. run. Qed.

Example extractTax_found :
  extractTaxFromDescription (Some "NON-RES TAX WITHHELD $1.23") = Some (ofQ (123 # 100)).
Proof. run. Qed.

Example extractTax_absent :
  extractTaxFromDescription (Some "CASH DIVIDEND") = Some zero.
Proof. run. Qed.

(** The two end-to-end scenarios. *)
Example apple_sale_scenario :
  calculatedGainLoss [appleSale] saleRates = Some [appleRecord].
Proof. run. Qed.

Example dividend_scenario :
  calculatedDividends [dividendRow] dividendRates = Some [dividendRecord 0].
Proof. run. Qed.

(** C1 as stated fails on a table that stores a zero: the Saturday has an
    entry, yet the lookup reports "N/A" instead of that day. *)
Lemma getRateForDate_zero_entry_not_used :
  keyOf saturday = Some "2023-03-04" /\
  zeroRates !! "2023-03-04" = Some zero /\
  getRateForDate saturday zeroRates = Some (RateData.mk zero "N/A") /\
  getRateForDate saturday zeroRates <> Some (RateData.mk zero "2023-03-04").
Proof. repeat split; try run. vm_compute. discriminate. Qed.

Lemma getRateForDate_nearest_truthy_witness :
  getRateForDate sunday weekendRates = Some (RateData.mk (ofZ 136) "2023-03-03").
Proof.
  apply (getRateForDate_nearest_truthy sunday weekendRates 2 "2023-03-03" (ofZ 136)).
  - lia.
  - run.
  - run.
  - run.
  - intros j Hj.
    destruct j as [|[|j]]; [| |lia]; eexists; (split; [run | left; run]).
Defined.

Lemma getRateForDate_not_found_witness :
  getRateForDate lateMarch weekendRates = Some (RateData.mk zero "N/A").
Proof.
  apply (getRateForDate_not_found lateMarch weekendRates).
  intros j Hj.
  do 10 (destruct j as [|j]; [eexists; split; run|]). lia.
Defined.

(** C3 as stated fails on a "VARIOUS" row: the record keeps the various-date
    note, but its [dateAcquired] is the sale date and not [null]. *)
Lemma various_row_gets_sale_date :
  parseDateAny (variousSale !! "Date Sold") = Some saturday /\
  signalsVarious variousSale = true /\
  exists t, calculatedGainLoss [variousSale] saleRates = Some [t] /\
    JpyTransaction.notes t = variousNote /\
    JpyTransaction.dateAcquired t = Some saturday /\
    JpyTransaction.dateAcquired t <> None.
Proof.
  split; [run|]. split; [run|].
  eexists. split; [run|]. split; [run|]. split; [run|]. discriminate.
Qed.

Lemma gainLoss_unparsed_acquisition_takes_sale_date_witness :
  exists t, gainLossOfRow saleRates 0 variousSale = Some (Some t) /\
    JpyTransaction.dateAcquired t = Some saturday /\
    JpyTransaction.notes t = variousNote.
Proof.
  destruct (gainLoss_unparsed_acquisition_takes_sale_date saleRates 0 variousSale
              saturday (RateData.mk (ofZ 140) "2023-03-04")) as [Hvar _].
  - run.
  - run.
  - apply Hvar. run.
Defined.

Lemma gainLoss_is_difference_of_floored_witness :
  JpyTransaction.gainLossJpy appleRecord =
    sub (JpyTransaction.proceedsJpy appleRecord) (JpyTransaction.costJpy appleRecord) /\
  JpyTransaction.proceedsJpy appleRecord =
    floor (mul (JpyTransaction.proceedsUsd appleRecord)
               (JpyTransaction.rateSold appleRecord)) /\
  JpyTransaction.costJpy appleRecord =
    floor (mul (JpyTransaction.costUsd appleRecord)
               (JpyTransaction.rateAcquired appleRecord)).
Proof.
  destruct (gainLoss_is_difference_of_floored [appleSale] saleRates st0
              (setGainLossData [appleRecord] st0) appleRecord)
    as (Hgain & Hproceeds & Hcost & _).
  - run.
  - cbn. constructor.
  - exact (conj Hgain (conj Hproceeds Hcost)).
Defined.

(** C5: in every record derived by [calculateDividends] the gross USD amount
    is the net amount plus the withheld tax, and each of the three JPY
    amounts is the floor of its own USD amount times the rate looked up for
    the record's date; the second scenario shows a record whose gross JPY amount differs from the sum of
    its tax and net JPY amounts. *)
Theorem dividend_gross_is_net_plus_tax :
  (forall (dates : DateFns) (rows : list Row) (currentRates : RatesMap)
          (st st' : AppState Date) (t : DividendTransaction.t Date),
     calculateDividends rows currentRates st = Returned st' ->
     t ∈ dividendData st' ->
     DividendTransaction.amountGrossUsd t =
       add (DividendTransaction.amountNetUsd t) (DividendTransaction.taxUsd t) /\
     DividendTransaction.amountGrossJpy t =
       floor (mul (DividendTransaction.amountGrossUsd t) (DividendTransaction.rate t)) /\
     DividendTransaction.taxJpy t =
       floor (mul (DividendTransaction.taxUsd t) (DividendTransaction.rate t)) /\
     DividendTransaction.amountNetJpy t =
       floor (mul (DividendTransaction.amountNetUsd t) (DividendTransaction.rate t)) /\
     exists rd, getRateForDate (DividendTransaction.date t) currentRates = Some rd /\
       DividendTransaction.rate t = RateData.rate rd) /\
  (exists (rows : list Row) (currentRates : RatesMap) (st st' : AppState Date)
          (t : DividendTransaction.t Date),
     calculateDividends rows currentRates st = Returned st' /\
     t ∈ dividendData st' /\
     DividendTransaction.amountGrossJpy t <>
       add (DividendTransaction.taxJpy t) (DividendTransaction.amountNetJpy t)).
Proof.
  split.
  - intros dates rows currentRates st st' t. apply calculated_dividend_fields.
  - exists [dividendRow], dividendRates, st0,
      (setDividendData [dividendRecord 0] st0), (dividendRecord 0).
    split; [run|]. split; [cbn; constructor|]. vm_compute. discriminate.
Qed.

Lemma dividend_gross_is_net_plus_tax_witness :
  let t := dividendRecord 0 in
  DividendTransaction.amountGrossUsd t =
    add (DividendTransaction.amountNetUsd t) (DividendTransaction.taxUsd t) /\
  DividendTransaction.amountGrossJpy t =
    floor (mul (DividendTransaction.amountGrossUsd t) (DividendTransaction.rate t)) /\
  DividendTransaction.taxJpy t =
    floor (mul (DividendTransaction.taxUsd t) (DividendTransaction.rate t)) /\
  DividendTransaction.amountNetJpy t =
    floor (mul (DividendTransaction.amountNetUsd t) (DividendTransaction.rate t)) /\
  exists rd, getRateForDate (DividendTransaction.date t) dividendRates = Some rd /\
    DividendTransaction.rate t = RateData.rate rd.
Proof.
  apply (proj1 dividend_gross_is_net_plus_tax dateFns [dividendRow] dividendRates
           st0 (setDividendData [dividendRecord 0] st0) (dividendRecord 0)).
  - run.
  - cbn. constructor.
Defined.

(** C6 as stated fails when a row is dropped before a kept one: the only
    output record carries identity 1, not 0. *)
Lemma dropped_row_leaves_gap :
  parseDateAny (undatedRow !! "TradeDate") = None /\
  exists st', calculateDividends [undatedRow; dividendRow] dividendRates st0
                = Returned st' /\
    DividendTransaction.id <$> dividendData st' = [1%nat] /\
    DividendTransaction.id <$> dividendData st' <> seq 0 (length (dividendData st')).
Proof.
  split; [run|]. eexists. split; [run|]. split; [run|]. vm_compute. discriminate.
Qed.

Lemma calculators_stamp_row_indices_witness :
  stampedByRowIndex DividendTransaction.id "TradeDate"
    [undatedRow; dividendRow] [dividendRecord 1].
Proof.
  apply (proj1 (proj2 (calculators_stamp_row_indices [undatedRow; dividendRow]
           dividendRates st0 (setDividendData [dividendRecord 1] st0)))).
  run.
Defined.

(** C7 on the program: a history export with interest rows only is turned
    away by the history branch with the no-dividend message and its interest
    rows are not stored, while the fallback branch, reached by the same rows
    under a header the classifier does not recognise, stores them. *)
Theorem interest_only_history_is_rejected :
  detectFileType (toLowerCase historyHeader) = HISTORY /\
  processFile interestOnlyCsv st0 =
    Returned (setLoading false (setError (Some noDividendMsg) st0)) /\
  (forall st', processFile interestOnlyCsv st0 = Returned st' ->
     interestRaw st' = None) /\
  processFile interestOnlyCsvNet st0 =
    Returned (setLoading false
      (setActiveTab interest (setInterestRaw (Some [interestRowNet]) st0))).
Proof.
  split; [run|]. split; [run|]. split; [|run].
  intros st' Hst'. vm_compute in Hst'. by injection Hst' as <-.
Qed.

Lemma header_selects_schema_witness :
  detectFileType
    (toLowerCase "Symbol,Quantity,Date Acquired,Date Sold,Sales Proceeds,Adjust Cost")
    = GAIN_LOSS /\
  exists data, processFile gainLossCsv st0 = onComplete GAIN_LOSS data st0.
Proof.
  destruct (header_selects_schema gainLossCsv st0 1
    "Symbol,Quantity,Date Acquired,Date Sold,Sales Proceeds,Adjust Cost")
    as [Hsales _].
  - run.
  - destruct Hsales as [Hft Hrun]; [run|].
    split; [exact Hft|]. eexists. apply Hrun. run.
Defined.



End Scenarios.

(** * Further properties *)

(** ** Money and tax texts *)

Section TextFacts.

Lemma isMoneyChar_cases (c : ascii) :
  isMoneyChar c = isDigit c || dotOrDash c.
Proof. unfold isMoneyChar, dotOrDash. by destruct (isDigit c), (Ascii.eqb c "."). Qed.

Lemma filter_money_without_digits (s : string) :
  allChars (fun c => negb (isDigit c)) s = true ->
  allChars dotOrDash (filterChars isMoneyChar s) = true.
Proof.
  induction s as [|c s IH]; [done|]. cbn. intros [Hc Hs]%andb_true_iff.
  rewrite isMoneyChar_cases. destruct (isDigit c); [done|]. cbn.
  destruct (dotOrDash c) eqn:Hd; [cbn; rewrite Hd|]; by apply IH.
Qed.

Lemma dotOrDash_inv (c : ascii) : dotOrDash c = true -> c = "."%char \/ c = "-"%char.
Proof.
  unfold dotOrDash. intros [H|H]%orb_true_iff; apply Ascii.eqb_eq in H; auto.
Qed.

Lemma spanChars_dotOrDash (s : string) :
  allChars dotOrDash s = true -> spanChars isDigit s = (EmptyString, s).
Proof.
  destruct s as [|c s]; [done|]. cbn. intros [Hc _]%andb_true_iff.
  by destruct (dotOrDash_inv c Hc) as [-> | ->].
Qed.

Lemma stripOne_other_start (toks : list string) (c : ascii) (s : string) :
  forallb (fun t => negb (beginsWith c t)) toks = true ->
  stripOne toks (String c s) = None.
Proof.
  induction toks as [|t toks IH]; [done|]. cbn [forallb stripOne].
  intros [Ht Htoks]%andb_true_iff. rewrite (IH Htoks).
  destruct t as [|a t]; [done|]. cbn in *.
  by destruct (Ascii.eqb a c).
Qed.

(** [trimStart] leaves a text alone that begins with no white space. *)
Lemma trimStart_no_space (c : ascii) (s : string) :
  notSpaceStart c = true -> trimStart (String c s) = String c s.
Proof.
  intros Hc. unfold trimStart. cbn [String.length stripAll].
  by rewrite stripOne_other_start.
Qed.

Lemma parseFloat_dotOrDash (s : string) :
  allChars dotOrDash s = true -> parseFloat s = NaN.
Proof.
  intros Hs. destruct s as [|c s]; [done|].
  cbn in Hs. apply andb_true_iff in Hs as [Hc Hs].
  unfold parseFloat.
  destruct (dotOrDash_inv c Hc) as [-> | ->];
    rewrite trimStart_no_space by reflexivity.
  - cbn. change (isDigit ".") with false. cbn.
    by rewrite (spanChars_dotOrDash s Hs).
  - cbn. destruct s as [|c' s]; [done|].
    cbn in Hs. apply andb_true_iff in Hs as [Hc' Hs].
    destruct (dotOrDash_inv c' Hc') as [-> | ->]; cbn.
    + change (isDigit ".") with false. cbn.
      by rewrite (spanChars_dotOrDash s Hs).
    + by change (isDigit "-") with false.
Qed.

(** X1: a text that is not empty and holds no digit is parsed to [NaN],
    not to zero. *)
Theorem parseMoney_without_digits (s : string) :
  s <> EmptyString ->
  allChars (fun c => negb (isDigit c)) s = true ->
  parseMoney (Some s) = NaN.
Proof.
  intros Hne Hs. destruct s as [|c s]; [done|]. unfold parseMoney.
  apply parseFloat_dotOrDash. by apply filter_money_without_digits.
Qed.

Lemma matchTax_needs_phrase (s : string) :
  includes (toLowerCase s) "tax withheld" = false -> matchTax s = None.
Proof.
  induction s as [|c s IH]; [done|].
  cbn [toLowerCase includes]. intros [Hhere Hlater]%orb_false_iff.
  cbn [matchTax]. unfold matchTaxAt. cbn [toLowerCase]. rewrite Hhere.
  by apply IH.
Qed.

(** X2: a description that does not contain "tax withheld", in any case,
    gives a withheld tax of zero. *)
Theorem extractTax_without_phrase (desc : string) :
  includes (toLowerCase desc) "tax withheld" = false ->
  extractTaxFromDescription (Some desc) = Some zero.
Proof.
  intros Hno. unfold extractTaxFromDescription.
  by rewrite (matchTax_needs_phrase desc Hno).
Qed.

End TextFacts.

(** ** What the rate lookup returns *)

Section RateLookupMore.
Context {dates : DateFns}.

Lemma getRateFrom_inv (n : nat) (date : Date) (rates : RatesMap) (rd : RateData.t) :
  getRateFrom n date rates = Some rd ->
  (rd = notFound /\ forall j, j < n -> skipped rates (daysBefore date j)) \/
  (exists k, k < n /\
     keyOf (daysBefore date k) = Some (RateData.dateUsed rd) /\
     truthyRate rates (RateData.dateUsed rd) = Some (RateData.rate rd) /\
     forall j, j < k -> skipped rates (daysBefore date j)).
Proof.
  revert date. induction n as [|n IH]; intros date Hget.
  - left. injection Hget as <-. split; [done | intros j Hj; lia].
  - cbn [getRateFrom] in Hget.
    destruct (keyOf date) as [key|] eqn:Hkey; [|done]. cbn in Hget.
    destruct (truthyRate rates key) as [r|] eqn:Hr.
    + injection Hget as <-. right. exists 0. cbn.
      repeat split; [lia | done | done | intros j Hj; lia].
    + assert (skipped rates date) as Hskip by (by exists key).
      destruct (IH _ Hget) as [[-> Hall] | (k & Hk & Hkk & Hrk & Hall)].
      * left. split; [done|]. intros [|j] Hj; [done|].
        rewrite <- daysBefore_succ. apply Hall. lia.
      * right. exists (S k). rewrite <- daysBefore_succ.
        repeat split; [lia | done | done |].
        intros [|j] Hj; [done|]. rewrite <- daysBefore_succ. apply Hall. lia.
Qed.

Lemma truthy_not_zero (r : number) : truthy r = true -> strictEq r zero = false.
Proof.
  destruct r as [| s | q]; [done | done |]. cbn. unfold isZero, Qeq_bool.
  intros Hq%negb_true_iff. cbn. apply Z.eqb_neq in Hq.
  destruct (Qnum q * 1 =? 0)%Z eqn:E; [|done].
  apply Z.eqb_eq in E. lia.
Qed.

(** X3: whatever [getRateForDate] returns is either the not-found value,
    and then none of the ten days has a truthy entry, or the truthy entry
    of the table for the nearest of the ten days that has one. *)
Theorem getRateForDate_returns_nearest (date : Date) (rates : RatesMap)
    (rd : RateData.t) :
  getRateForDate date rates = Some rd ->
  (rd = notFound /\
   forall j, j < 10 ->
     exists kj, keyOf (daysBefore date j) = Some kj /\ truthyRate rates kj = None) \/
  (exists k, k <= 9 /\
     keyOf (daysBefore date k) = Some (RateData.dateUsed rd) /\
     rates !! RateData.dateUsed rd = Some (RateData.rate rd) /\
     truthy (RateData.rate rd) = true /\
     forall j, j < k ->
       exists kj, keyOf (daysBefore date j) = Some kj /\ truthyRate rates kj = None).
Proof.
  intros Hget. destruct (getRateFrom_inv _ _ _ _ Hget)
    as [[-> Hall] | (k & Hk & Hkey & Hr & Hall)].
  - by left.
  - right. exists k. apply truthyRate_Some in Hr as [Hr Ht].
    repeat split; [lia | done | done | done | done].
Qed.

(** The returned rate is zero exactly when the lookup found nothing. *)
Lemma rate_zero_iff_notFound (date : Date) (rates : RatesMap)
    (rd : RateData.t) :
  getRateForDate date rates = Some rd ->
  (strictEq (RateData.rate rd) zero = true <-> rd = notFound).
Proof.
  intros Hget. split; [|by intros ->].
  destruct (getRateFrom_inv _ _ _ _ Hget) as [[-> _] | (k & _ & _ & Hr & _)]; [done|].
  apply truthyRate_Some in Hr as [_ Ht]. by rewrite (truthy_not_zero _ Ht).
Qed.

Lemma getRateFrom_throws (n : nat) (date : Date) (rates : RatesMap) :
  getRateFrom n date rates = None <->
  exists k, k < n /\ keyOf (daysBefore date k) = None /\
    forall j, j < k -> skipped rates (daysBefore date j).
Proof.
  revert date. induction n as [|n IH]; intros date.
  - split; [done | intros (k & Hk & _); lia].
  - cbn [getRateFrom]. destruct (keyOf date) as [key|] eqn:Hkey; cbn.
    + destruct (truthyRate rates key) as [r|] eqn:Hr.
      * split; [done|]. intros (k & Hk & Hnone & Hall).
        destruct k as [|k]; [cbn in Hnone; congruence|].
        destruct (Hall 0) as (key' & Hkey' & Hr'); [lia|]. cbn in Hkey'.
        congruence.
      * rewrite IH. split.
        -- intros (k & Hk & Hnone & Hall). exists (S k).
           rewrite <- daysBefore_succ. repeat split; [lia | done |].
           intros [|j] Hj; [by exists key|].
           rewrite <- daysBefore_succ. apply Hall. lia.
        -- intros (k & Hk & Hnone & Hall).
           destruct k as [|k]; [cbn in Hnone; congruence|].
           exists k. rewrite daysBefore_succ. repeat split; [lia | done |].
           intros j Hj. rewrite daysBefore_succ. apply Hall. lia.
    + split; [|done]. intros _. exists 0. repeat split; [lia | done |].
      intros j Hj. lia.
Qed.

(** X4: [getRateForDate] throws exactly when, going back from the date, it
    reaches within its ten attempts a day that [format] rejects before it
    has found a truthy entry. *)
Theorem getRateForDate_throws_iff (date : Date) (rates : RatesMap) :
  getRateForDate date rates = None <->
  exists k, k <= 9 /\ keyOf (daysBefore date k) = None /\
    forall j, j < k ->
      exists kj, keyOf (daysBefore date j) = Some kj /\ truthyRate rates kj = None.
Proof.
  unfold getRateForDate. rewrite getRateFrom_throws. split.
  - intros (k & Hk & Hnone & Hall). exists k. repeat split; [lia | done | done].
  - intros (k & Hk & Hnone & Hall). exists k. repeat split; [lia | done | done].
Qed.

End RateLookupMore.

(** ** The calculators, row by row *)

Section RowLoopMore.
Context {A : Type}.
Implicit Types (f : nat -> Row -> option (option A)) (rows : list Row).

(** One throwing row makes the whole loop throw. *)
Lemma mapRows_throw f rows (i : nat) (row : Row) :
  rows !! i = Some row -> f i row = None -> mapRows f rows = None.
Proof.
  revert f i. induction rows as [|r rows IH]; intros f i Hi Hf; [done|].
  rewrite mapRows_cons. destruct i as [|i].
  - injection Hi as ->. by rewrite Hf.
  - destruct (f 0%nat r); [cbn|done]. by rewrite (IH (f ∘ S) i Hi Hf).
Qed.

(** The output lines up, in order, with the rows that are kept. *)
Lemma mapRows_Forall2 f (R : A -> Row -> Prop) (kept : Row -> Prop)
    `{!forall r, Decision (kept r)} rows (out : list A) :
  (forall i r t, f i r = Some (Some t) -> R t r /\ kept r) ->
  (forall i r, f i r = Some None -> ~ kept r) ->
  mapRows f rows = Some out ->
  Forall2 R out (filter kept rows).
Proof.
  revert f out. induction rows as [|r rows IH]; intros f out Hsome Hnull Hm.
  - injection Hm as <-. constructor.
  - rewrite mapRows_cons in Hm.
    destruct (f 0%nat r) as [x|] eqn:Hx; [|done]. cbn in Hm.
    destruct (mapRows (f ∘ S) rows) as [xs|] eqn:Hxs; [|done]. cbn in Hm.
    injection Hm as <-.
    assert (Forall2 R xs (filter kept rows)) as Htail.
    { apply (IH (f ∘ S)); [| |done].
      - intros i r' t. apply Hsome.
      - intros i r'. apply Hnull. }
    destruct x as [t|].
    + destruct (Hsome _ _ _ Hx) as [HR Hk].
      rewrite filter_cons_True by done. by constructor.
    + rewrite filter_cons_False by (by eapply Hnull). done.
Qed.

End RowLoopMore.

Section CalculatorsMore.
Context {dates : DateFns}.
Implicit Types (rows : list Row) (row : Row) (currentRates : RatesMap)
  (st : AppState Date).

Lemma getRateForDate_unformattable (date : Date) currentRates :
  keyOf date = None -> getRateForDate date currentRates = None.
Proof. intros Hkey. unfold getRateForDate. cbn. by rewrite Hkey. Qed.

(** X5: a row whose sale date, or whose parsed acquisition date, is one
    that [format] rejects makes [calculateGainLoss] throw; the state is left
    as it was, the records of the other rows included. *)
Theorem calculateGainLoss_aborts_on_bad_date rows currentRates st row
    (sold : Date) :
  row ∈ rows ->
  parseDateAny (row !! "Date Sold") = Some sold ->
  (keyOf sold = None \/
   exists acquired, parseDateAny (row !! "Date Acquired") = Some acquired /\
                    keyOf acquired = None) ->
  calculateGainLoss rows currentRates st = Thrown st.
Proof.
  intros Hin Hsold Hbad. apply list_elem_of_lookup_1 in Hin as [i Hi].
  unfold calculateGainLoss, calculatedGainLoss.
  rewrite (mapRows_throw _ rows i row Hi); [done|].
  unfold gainLossOfRow. rewrite Hsold. cbn zeta.
  destruct Hbad as [Hkey | (acquired & Hacq & Hkey)].
  - by rewrite (getRateForDate_unformattable sold).
  - destruct (getRateForDate sold currentRates); [|done].
    cbn [mbind option_bind]. rewrite Hacq. cbn [default].
    by rewrite (getRateForDate_unformattable acquired).
Qed.

(** X6: a history row whose date parses but which has no description cell
    makes [calculateDividends] throw and leave the state as it was. *)
Theorem calculateDividends_needs_description rows currentRates st row :
  row ∈ rows ->
  is_Some (parseDateAny (row !! "TradeDate")) ->
  row !! "Description" = None ->
  calculateDividends rows currentRates st = Thrown st.
Proof.
  intros Hin [date Hdate] Hdesc. apply list_elem_of_lookup_1 in Hin as [i Hi].
  unfold calculateDividends, calculatedDividends.
  rewrite (mapRows_throw _ rows i row Hi); [done|].
  unfold dividendOfRow. by rewrite Hdate, Hdesc.
Qed.

(** X7: the records [calculateGainLoss] derives correspond one to one, and
    in input order, to the input rows whose sale date parses, and each takes
    its dates, symbol, USD amounts and wash-sale flag from its row. *)
Theorem calculateGainLoss_follows_rows rows currentRates st st' :
  calculateGainLoss rows currentRates st = Returned st' ->
  Forall2 gainLossReadFrom (gainLossData st') (filter (datable "Date Sold") rows).
Proof.
  intros Hc%calculateGainLoss_Returned.
  eapply mapRows_Forall2; [| |exact Hc].
  - intros i r t Hrow. unfold gainLossOfRow in Hrow. unfold datable.
    destruct (parseDateAny (r !! "Date Sold")) as [sold|] eqn:Hsold; [|done].
    cbn zeta in Hrow.
    destruct (getRateForDate sold currentRates) as [rs|]; [|done].
    cbn [mbind option_bind] in Hrow.
    destruct (getRateForDate _ currentRates) as [ra|]; [|done].
    cbn [mbind option_bind] in Hrow. injection Hrow as <-.
    split; [|by eexists]. unfold gainLossReadFrom. cbn.
    repeat split; try done.
    + by intros ?%bool_decide_eq_true.
    + by intros ?; apply bool_decide_eq_true.
  - intros i r Hnull [sold Hsold].
    by rewrite (gainLossOfRow_null _ _ _ Hnull) in Hsold.
Qed.

(** X8: the records [calculateDividends] derives correspond one to one, and
    in input order, to the input rows whose trade date parses; the net
    amount is the parsed amount cell and the tax is the one extracted from
    the description cell. *)
Theorem calculateDividends_follows_rows rows currentRates st st' :
  calculateDividends rows currentRates st = Returned st' ->
  Forall2 dividendReadFrom (dividendData st') (filter (datable "TradeDate") rows).
Proof.
  intros Hc%calculateDividends_Returned.
  eapply mapRows_Forall2; [| |exact Hc].
  - intros i r t Hrow. unfold dividendOfRow in Hrow. unfold datable.
    destruct (parseDateAny (r !! "TradeDate")) as [date|] eqn:Hdate; [|done].
    cbn zeta in Hrow.
    destruct (extractTaxFromDescription (r !! "Description")) as [tax|] eqn:Htax;
      [|done].
    cbn [mbind option_bind] in Hrow.
    destruct (getRateForDate date currentRates) as [rd|]; [|done].
    cbn [mbind option_bind] in Hrow. injection Hrow as <-.
    split; [|by eexists]. by unfold dividendReadFrom.
  - intros i r Hnull [date Hdate].
    by rewrite (dividendOfRow_null _ _ _ Hnull) in Hdate.
Qed.

(** X9: the records [calculateInterests] derives correspond one to one,
    and in input order, to the input rows whose trade date parses; each has
    the parsed amount cell as its USD amount, the rate looked up for its
    date, and the floor of their product as its JPY amount. *)
Theorem calculateInterests_follows_rows rows currentRates st st' :
  calculateInterests rows currentRates st = Returned st' ->
  Forall2 (interestReadFrom currentRates) (interestData st')
          (filter (datable "TradeDate") rows).
Proof.
  intros Hc%calculateInterests_Returned.
  eapply mapRows_Forall2; [| |exact Hc].
  - intros i r t Hrow. unfold interestOfRow in Hrow. unfold datable.
    destruct (parseDateAny (r !! "TradeDate")) as [date|] eqn:Hdate; [|done].
    cbn zeta in Hrow.
    destruct (getRateForDate date currentRates) as [rd|] eqn:Hrd; [|done].
    cbn [mbind option_bind] in Hrow. injection Hrow as <-.
    split; [|by eexists]. unfold interestReadFrom. cbn.
    repeat split; try done. by exists rd.
  - intros i r Hnull [date Hdate].
    by rewrite (interestOfRow_null _ _ _ Hnull) in Hdate.
Qed.

Lemma calculated_record_row rows currentRates st st' (t : JpyTransaction.t Date) :
  calculateGainLoss rows currentRates st = Returned st' ->
  t ∈ gainLossData st' ->
  exists row, rows !! JpyTransaction.id t = Some row /\
    gainLossOfRow currentRates (JpyTransaction.id t) row = Some (Some t).
Proof.
  intros Hc Ht.
  destruct (calculated_record_fields _ _ _ _ _ Hc Ht) as (i & row & Hi & Hrow).
  destruct (gainLossOfRow_inv _ _ _ _ Hrow) as (-> & _). by exists row.
Qed.

Lemma notes_distinct :
  variousNote <> rateErrorNote /\ variousNote <> EmptyString /\
  rateErrorNote <> EmptyString.
Proof. by repeat split. Qed.

(** The note of a record, from the row it was built from. *)
Lemma gainLossOfRow_notes currentRates (idx : nat) row (t : JpyTransaction.t Date) :
  gainLossOfRow currentRates idx row = Some (Some t) ->
  JpyTransaction.notes t =
    if signalsVarious row then variousNote
    else if strictEq (JpyTransaction.rateSold t) zero then rateErrorNote
    else EmptyString.
Proof.
  intros Hrow. unfold gainLossOfRow in Hrow.
  destruct (parseDateAny (row !! "Date Sold")) as [sold|]; [|done].
  cbn zeta in Hrow.
  destruct (getRateForDate sold currentRates) as [rs|]; [|done].
  cbn [mbind option_bind] in Hrow.
  destruct (getRateForDate _ currentRates) as [ra|]; [|done].
  cbn [mbind option_bind] in Hrow. injection Hrow as <-. cbn.
  destruct (parseDateAny (row !! "Date Acquired")) as [acq|] eqn:Hacq.
  - destruct (signalsVarious row) eqn:Hvar; [|done].
    by rewrite (signalsVarious_unparsed _ Hvar) in Hacq.
  - unfold signalsVarious. by destruct (row !! "Date Acquired").
Qed.

(** X10: the note of a derived capital-gain record is the various-date
    note exactly when the acquisition text of its row contains "var", and
    otherwise the rate-error note exactly when the lookup for its sale date
    found nothing; in every other case it is empty. *)
Theorem gainLoss_note_cases rows currentRates st st' (t : JpyTransaction.t Date) :
  calculateGainLoss rows currentRates st = Returned st' ->
  t ∈ gainLossData st' ->
  exists row, rows !! JpyTransaction.id t = Some row /\
    (JpyTransaction.notes t = variousNote <-> signalsVarious row = true) /\
    (JpyTransaction.notes t = rateErrorNote <->
       signalsVarious row = false /\
       getRateForDate (JpyTransaction.dateSold t) currentRates = Some notFound) /\
    (JpyTransaction.notes t = EmptyString <->
       signalsVarious row = false /\
       getRateForDate (JpyTransaction.dateSold t) currentRates <> Some notFound).
Proof.
  intros Hc Ht. destruct (calculated_record_row _ _ _ _ _ Hc Ht) as (row & Hi & Hrow).
  exists row. split; [done|].
  pose proof (gainLossOfRow_notes _ _ _ _ Hrow) as Hnotes.
  destruct (gainLossOfRow_rates _ _ _ _ Hrow) as [(rs & Hrs & Hrate) _].
  pose proof (rate_zero_iff_notFound _ _ _ Hrs) as Hzero.
  rewrite <- Hrate in Hzero. rewrite Hrs, Hnotes.
  destruct notes_distinct as (Hvr & Hve & Hre).
  destruct (signalsVarious row).
  - intuition (try discriminate; try contradiction).
  - destruct (strictEq (JpyTransaction.rateSold t) zero) eqn:Hz.
    + assert (rs = notFound) as -> by (by apply Hzero).
      intuition (try discriminate; try contradiction; try congruence).
    + assert (rs <> notFound) as Hne.
      { intros Heq. apply Hzero in Heq. done. }
      intuition (try discriminate; try contradiction; try congruence).
Qed.



End CalculatorsMore.

(** ** File processing, path by path *)

Section ClassifierMore.
Context {dates : DateFns} {papa : PapaParse}.
Implicit Types (st : AppState Date) (data : list Row).

Lemma calculateGainLoss_frame rows currentRates st :
  let st' := stateAfter (calculateGainLoss rows currentRates st) in
  error st' = error st /\ rates st' = rates st /\
  selectedYear st' = selectedYear st.
Proof. unfold calculateGainLoss. by destruct (calculatedGainLoss _ _). Qed.

Lemma calculateDividends_frame rows currentRates st :
  let st' := stateAfter (calculateDividends rows currentRates st) in
  error st' = error st /\ rates st' = rates st /\
  selectedYear st' = selectedYear st.
Proof. unfold calculateDividends. by destruct (calculatedDividends _ _). Qed.

Lemma calculateInterests_frame rows currentRates st :
  let st' := stateAfter (calculateInterests rows currentRates st) in
  error st' = error st /\ rates st' = rates st /\
  selectedYear st' = selectedYear st.
Proof. unfold calculateInterests. by destruct (calculatedInterests _ _). Qed.

Lemma onComplete_rejected (fileType : FileType) data st :
  let st' := stateAfter (onComplete fileType data st) in
  rates st' = rates st /\ selectedYear st' = selectedYear st /\
  (error st = None -> error st' <> None -> sameData st st' /\ loading st' = false).
Proof.
  unfold onComplete.
  destruct fileType.
  - destruct (isNil (filter _ data)); [by cbn|].
    destruct (0 <? size (rates st))%nat; [|by cbn].
    unfold calculateGainLoss. by destruct (calculatedGainLoss _ _); cbn.
  - destruct (isNil (filter (fun r => Is_true (hasAction "Dividend" r)) data));
      [by cbn|].
    destruct (0 <? size (rates st))%nat;
      [|by destruct (isNil (filter _ data)); cbn].
    unfold calculateDividends, calculateInterests.
    destruct (isNil (filter (fun r => Is_true (hasAction "Interest" r)) data));
      destruct (calculatedDividends _ _); cbn; try done;
      by destruct (calculatedInterests _ _); cbn.
  - destruct (nonEmpty _); [by cbn|].
    destruct (nonEmpty _); [|by cbn].
    destruct (isNil (filter (fun r => Is_true (hasAction "Dividend" r)) data)),
      (isNil (filter (fun r => Is_true (hasAction "Interest" r)) data)); by cbn.
Qed.

(** X12: [processFile] never changes the rate table or the selected year,
    and a file it turns away with an error message leaves every raw and
    derived collection and the active tab as they were. *)
Theorem processFile_rejection_keeps_data (text : string) st :
  let st' := stateAfter (processFile text st) in
  rates st' = rates st /\ selectedYear st' = selectedYear st /\
  (error st = None -> error st' <> None -> sameData st st' /\ loading st' = false).
Proof.
  unfold processFile. destruct text as [|c text]; [by cbn|].
  destruct (findHeader _) as [[i line]|]; [|by cbn].
  destruct (Papa_parse _) as [data|message]; [|by cbn].
  apply onComplete_rejected.
Qed.

Lemma onComplete_error (fileType : FileType) data st :
  is_Some (error st) -> is_Some (error (stateAfter (onComplete fileType data st))).
Proof.
  intros Herr. unfold onComplete.
  destruct fileType.
  - destruct (isNil (filter _ data)); [by cbn|].
    destruct (0 <? size (rates st))%nat; [|by cbn].
    unfold calculateGainLoss. by destruct (calculatedGainLoss _ _); cbn.
  - destruct (isNil (filter (fun r => Is_true (hasAction "Dividend" r)) data));
      [by cbn|].
    destruct (0 <? size (rates st))%nat;
      [|by destruct (isNil (filter _ data)); cbn].
    unfold calculateDividends, calculateInterests.
    destruct (isNil (filter (fun r => Is_true (hasAction "Interest" r)) data));
      destruct (calculatedDividends _ _); cbn; try done;
      by destruct (calculatedInterests _ _); cbn.
  - destruct (nonEmpty _); [by cbn|].
    destruct (nonEmpty _); [|by cbn].
    destruct (isNil (filter (fun r => Is_true (hasAction "Dividend" r)) data)),
      (isNil (filter (fun r => Is_true (hasAction "Interest" r)) data)); by cbn.
Qed.

(** X13: [processFile] never clears the error message: a state that
    shows a message still shows one afterwards, also when the file is
    taken in. *)
Theorem processFile_keeps_error_message (text : string) st :
  is_Some (error st) -> is_Some (error (stateAfter (processFile text st))).
Proof.
  intros Herr. unfold processFile. destruct text as [|c text]; [by cbn|].
  destruct (findHeader _) as [[i line]|]; [|by cbn].
  destruct (Papa_parse _) as [data|message]; [|by cbn].
  by apply onComplete_error.
Qed.

Lemma onComplete_loading (fileType : FileType) data st :
  match onComplete fileType data st with
  | Returned st' => loading st' = false
  | Thrown st' => loading st' = loading st /\ error st' = error st
  end.
Proof.
  unfold onComplete.
  destruct fileType.
  - destruct (isNil (filter _ data)); [by cbn|].
    destruct (0 <? size (rates st))%nat; [|by cbn].
    unfold calculateGainLoss. by destruct (calculatedGainLoss _ _); cbn.
  - destruct (isNil (filter (fun r => Is_true (hasAction "Dividend" r)) data));
      [by cbn|].
    destruct (0 <? size (rates st))%nat;
      [|by destruct (isNil (filter _ data)); cbn].
    unfold calculateDividends, calculateInterests.
    destruct (isNil (filter (fun r => Is_true (hasAction "Interest" r)) data));
      destruct (calculatedDividends _ _); cbn; try done;
      by destruct (calculatedInterests _ _); cbn.
  - destruct (nonEmpty _); [by cbn|].
    destruct (nonEmpty _); [|by cbn].
    destruct (isNil (filter (fun r => Is_true (hasAction "Dividend" r)) data)),
      (isNil (filter (fun r => Is_true (hasAction "Interest" r)) data)); by cbn.
Qed.

(** X14: after [handleFileUpload] the loading flag is down whenever the
    handler returns, with or without an error message; when a calculator
    throws inside it, the flag stays up and no message is shown. *)
Theorem handleFileUpload_loading_flag (text : string) st :
  match handleFileUpload (Some text) st with
  | Returned st' => loading st' = false
  | Thrown st' => loading st' = true /\ error st' = None
  end.
Proof.
  unfold handleFileUpload, processFile. destruct text as [|c text]; [by cbn|].
  destruct (findHeader _) as [[i line]|]; [|by cbn].
  destruct (Papa_parse _) as [data|message]; [|by cbn].
  apply (onComplete_loading _ data (setError None (setLoading true st))).
Qed.

Lemma split_cons_form (s : string) :
  exists h t, split s newline = h :: t.
Proof.
  destruct s as [|c s]; [by eexists _, _|]. cbn.
  destruct (Ascii.eqb c newline); [by eexists _, _|].
  destruct (split s newline); by eexists _, _.
Qed.

Lemma split_app_newline (a b : string) :
  split (a ++ String newline b) newline
  = (split a newline ++ split b newline)%list.
Proof.
  induction a as [|c a IH]; [done|].
  change (String c a ++ String newline b) with (String c (a ++ String newline b)).
  cbn [split]. rewrite IH.
  destruct (Ascii.eqb c newline); [done|].
  by destruct (split_cons_form a) as (h & t & ->).
Qed.

Lemma linesOf_app_newline (a b : string) :
  linesOf (a ++ String newline b) = (linesOf a ++ linesOf b)%list.
Proof.
  unfold linesOf. by rewrite split_app_newline, fmap_app, filter_app.
Qed.

(** X15: lines in front of the header line are ignored.  Putting a
    preamble none of whose lines starts with "symbol" before a non-empty
    text does not change what [processFile] does. *)
Theorem processFile_ignores_preamble (pre text : string) st :
  text <> EmptyString ->
  findHeader (linesOf pre) = None ->
  processFile (pre ++ String newline text) st = processFile text st.
Proof.
  intros Hne Hpre. unfold processFile.
  destruct (pre ++ String newline text) as [|c0 s0] eqn:Hcat.
  { by destruct pre. }
  rewrite <- Hcat. clear c0 s0 Hcat.
  destruct text as [|c text]; [done|].
  rewrite linesOf_app_newline. unfold findHeader in *.
  rewrite list_find_app_r by done.
  destruct (list_find _ (linesOf (String c text))) as [[i line]|]; [|done].
  cbn [fmap option_fmap option_map prod_map fst snd].
  by rewrite Nat.add_comm, drop_app_add.
Qed.

(** X16: a summary row whose symbol starts with "Total" is never among the
    rows the capital-gains branch stores. *)
Theorem total_rows_are_not_stored data st (r : Row) (sym : string) :
  r !! "Symbol" = Some sym ->
  startsWith sym "Total" = true ->
  forall rows,
    gainLossRaw (stateAfter (onComplete GAIN_LOSS data st)) = Some rows ->
    gainLossRaw st <> Some rows -> r ∉ rows.
Proof.
  intros Hsym Htotal rows Hrows Hnew Hr. unfold onComplete in Hrows.
  assert (isTransactionRow r = false) as Hrow.
  { unfold isTransactionRow. rewrite Hsym. destruct sym; [done|].
    by rewrite Htotal. }
  destruct (isNil (filter _ data)) eqn:Hnil; [by cbn in Hrows|].
  assert (rows = filter (fun r => Is_true (isTransactionRow r)) data) as ->.
  { destruct (0 <? size (rates st))%nat; [|cbn in Hrows; congruence].
    unfold calculateGainLoss in Hrows.
    destruct (calculatedGainLoss _ _); cbn in Hrows; congruence. }
  apply list_elem_of_filter in Hr as [Hr _]. by rewrite Hrow in Hr.
Qed.

(** X17: the fallback branch never calculates.  Whatever the rows and
    whether or not rates are loaded, it returns and leaves the three derived
    collections as they were. *)
Theorem fallback_never_calculates data st :
  exists st', onComplete UNKNOWN data st = Returned st' /\
    gainLossData st' = gainLossData st /\
    dividendData st' = dividendData st /\
    interestData st' = interestData st /\
    loading st' = false.
Proof.
  unfold onComplete.
  destruct (nonEmpty _); [by eexists|].
  destruct (nonEmpty _); [|by eexists].
  destruct (isNil (filter (fun r => Is_true (hasAction "Dividend" r)) data)),
    (isNil (filter (fun r => Is_true (hasAction "Interest" r)) data));
    by eexists.
Qed.

(** X18: on the history branch a file with dividend rows and no interest
    rows leaves the interest rows and the interest records of an earlier
    file in place. *)
Theorem history_without_interest_keeps_old data st :
  filter (fun r => Is_true (hasAction "Dividend" r)) data <> [] ->
  filter (fun r => Is_true (hasAction "Interest" r)) data = [] ->
  let st' := stateAfter (onComplete HISTORY data st) in
  dividendRaw st' = Some (filter (fun r => Is_true (hasAction "Dividend" r)) data) /\
  interestRaw st' = interestRaw st /\
  interestData st' = interestData st.
Proof.
  intros Hdiv Hint. unfold onComplete. rewrite Hint.
  destruct (filter (fun r => Is_true (hasAction "Dividend" r)) data)
    as [|d ds] eqn:Ed; [done|].
  cbn [isNil]. destruct (0 <? size (rates st))%nat; [|by cbn].
  unfold calculateDividends. by destruct (calculatedDividends _ _); cbn.
Qed.

(** X19: with rates loaded, a capital-gains file is calculated at once: the
    kept rows are stored and, when the calculation returns, its records
    replace the derived collection; when it throws, the rows are stored,
    the old records stay and [loading] is not reset. *)
Theorem gainLoss_file_calculated_when_rates_loaded data st :
  let rows := filter (fun r => Is_true (isTransactionRow r)) data in
  rows <> [] ->
  (0 < size (rates st))%nat ->
  match calculatedGainLoss rows (rates st) with
  | Some calculated =>
      exists st', onComplete GAIN_LOSS data st = Returned st' /\
        gainLossRaw st' = Some rows /\ gainLossData st' = calculated /\
        activeTab st' = capital /\ loading st' = false
  | None =>
      exists st', onComplete GAIN_LOSS data st = Thrown st' /\
        gainLossRaw st' = Some rows /\ gainLossData st' = gainLossData st /\
        loading st' = loading st /\ error st' = error st
  end.
Proof.
  intros rows Hrows Hrates. unfold onComplete. fold rows.
  destruct rows as [|r rs] eqn:Erows; [done|]. cbn [isNil].
  apply Nat.ltb_lt in Hrates. rewrite Hrates. unfold calculateGainLoss.
  destruct (calculatedGainLoss (r :: rs) (rates st)); by eexists.
Qed.

End ClassifierMore.

(** ** Grouping by symbol *)

Section GroupingFacts.
Context {dates : DateFns} {collation : Collation}.
Implicit Types (t : JpyTransaction.t Date) (g : Group Date)
  (l filtered : list (JpyTransaction.t Date)) (groups : gmap string (Group Date))
  (entries : list (string * Group Date)).

Lemma groupedGainLoss_Some filtered entries :
  groupedGainLoss filtered = Some entries ->
  groupsOf filtered = Some (filed filtered) /\
  entries ≡ₚ map_to_list (filed filtered).
Proof.
  unfold groupedGainLoss.
  destruct (groupsOf filtered) as [groups|] eqn:Hgroups; [|done].
  cbn. intros [= <-]. rewrite (groupsOf_Some _ _ Hgroups).
  split; [done|]. apply merge_sort_Permutation.
Qed.

(** X20: [groupedGainLoss] throws exactly when a record's symbol is a
    property name inherited from [Object.prototype]; otherwise it files
    every record under its symbol, once.  The transactions of a group are
    exactly the records with that symbol, in their order in the input, and
    there is at least one; every record has its group; no symbol comes
    twice. *)
Theorem groupedGainLoss_partitions filtered :
  (groupedGainLoss filtered = None <->
   exists t, t ∈ filtered /\
     inherited (propertyKey (JpyTransaction.symbol t)) = true) /\
  (forall entries, groupedGainLoss filtered = Some entries ->
     (forall sym g, (sym, g) ∈ entries ->
        transactions g = filter (filedUnder sym) filtered /\
        transactions g <> []) /\
     (forall t, t ∈ filtered ->
        exists g, (propertyKey (JpyTransaction.symbol t), g) ∈ entries /\
                  t ∈ transactions g) /\
     NoDup entries.*1).
Proof.
  split.
  { rewrite <- groupsOf_None. unfold groupedGainLoss.
    by destruct (groupsOf filtered). }
  intros entries [_ Hperm]%groupedGainLoss_Some. split; [|split].
  - intros sym g Hin. rewrite Hperm in Hin. apply elem_of_map_to_list in Hin.
    pose proof (filed_lookup filtered sym) as Hl. rewrite Hin in Hl.
    destruct Hl as (Hne & Htr & _). by rewrite Htr.
  - intros t Ht.
    pose proof (filed_lookup filtered (propertyKey (JpyTransaction.symbol t))) as Hl.
    destruct (filed filtered !! _) as [g|] eqn:Hg.
    + destruct Hl as (_ & Htr & _). exists g. split.
      * rewrite Hperm. by apply elem_of_map_to_list.
      * rewrite Htr. by apply list_elem_of_filter.
    + exfalso. by eapply (filter_nil_not_elem_of _ _ t Hl).
  - rewrite Hperm. apply NoDup_fst_map_to_list.
Qed.

(** X21: the summary of a group is what [totalsGainLoss] computes over the
    transactions of that group: the same six sums, added in the same
    order, and a count that is the size of the group. *)
Theorem group_summary_is_group_totals filtered entries (sym : string) g :
  groupedGainLoss filtered = Some entries ->
  (sym, g) ∈ entries ->
  summaryOfTotals (summary g) (totalsGainLoss (transactions g)) /\
  Totals.count (totalsGainLoss (transactions g)) = length (transactions g).
Proof.
  intros [_ Hperm]%groupedGainLoss_Some Hin.
  rewrite Hperm in Hin. apply elem_of_map_to_list in Hin.
  pose proof (filed_lookup filtered sym) as Hl. rewrite Hin in Hl.
  destruct Hl as (_ & Htr & Hsum). rewrite Htr. split; [done|].
  generalize (filter (filedUnder sym) filtered). intros l.
  induction l as [|t l IH] using rev_ind; [done|].
  rewrite totalsGainLoss_snoc, length_app. cbn. by rewrite IH.
Qed.

Lemma fileRecord_size groups t :
  sum_list_with (fun p => length (transactions p.2)) (map_to_list (fileRecord groups t))
  = S (sum_list_with (fun p => length (transactions p.2)) (map_to_list groups)).
Proof.
  unfold fileRecord. set (k := propertyKey (JpyTransaction.symbol t)).
  destruct (groups !! k) as [g|] eqn:Hk; cbn [default].
  - rewrite <- insert_delete_eq.
    rewrite map_to_list_insert by apply lookup_delete_eq.
    rewrite <- (map_to_list_delete groups k g Hk). cbn.
    rewrite length_app. cbn. lia.
  - by rewrite map_to_list_insert by done.
Qed.

Lemma totalsGainLoss_count l : Totals.count (totalsGainLoss l) = length l.
Proof.
  induction l as [|t l IH] using rev_ind; [done|].
  rewrite totalsGainLoss_snoc, length_app. cbn. by rewrite IH.
Qed.

(** X22: when [groupedGainLoss] returns, grouping has lost and repeated
    nothing: the sizes of the groups add up to the number of records, which
    is the [count] of the totals. *)
Theorem group_sizes_add_up filtered entries :
  groupedGainLoss filtered = Some entries ->
  sum_list_with (fun p => length (transactions p.2)) entries = length filtered /\
  Totals.count (totalsGainLoss filtered) = length filtered.
Proof.
  intros [_ Hperm]%groupedGainLoss_Some.
  split; [|apply totalsGainLoss_count]. rewrite Hperm. clear Hperm.
  induction filtered as [|t l IH] using rev_ind; [done|].
  rewrite filed_snoc, fileRecord_size, IH, length_app. cbn. lia.
Qed.

End GroupingFacts.

(** ** Dividend totals and the years on offer *)

Section TotalsFacts.
Context {dates : DateFns}.
Implicit Types (st : AppState Date).

Lemma totalsDividend_snoc (l : list (DividendTransaction.t Date)) d :
  totalsDividend (l ++ [d]) = totalsDividendStep (totalsDividend l) d.
Proof. unfold totalsDividend. by rewrite foldl_snoc. Qed.

Lemma dividendTotal_snoc (l : list (DividendTransaction.t Date)) d :
  dividendTotal (l ++ [d]) = dividendTotalStep (dividendTotal l) d.
Proof. unfold dividendTotal. by rewrite foldl_snoc. Qed.

(** X24: the dividend totals printed by the report are the totals shown
    on screen: over the same list the four sums of [dividendTotal] equal
    those of [totalsDividend], whose [count] is the number of records. *)
Theorem report_dividend_totals_agree (l : list (DividendTransaction.t Date)) :
  ReportDividendTotal.gross (dividendTotal l)
    = DividendTotals.amountGrossJpy (totalsDividend l) /\
  ReportDividendTotal.tax (dividendTotal l)
    = DividendTotals.taxJpy (totalsDividend l) /\
  ReportDividendTotal.net (dividendTotal l)
    = DividendTotals.amountNetJpy (totalsDividend l) /\
  ReportDividendTotal.grossUsd (dividendTotal l)
    = DividendTotals.amountGrossUsd (totalsDividend l) /\
  DividendTotals.count (totalsDividend l) = length l.
Proof.
  induction l as [|d l IH] using rev_ind; [done|].
  destruct IH as (Hg & Ht & Hn & Hu & Hc).
  rewrite totalsDividend_snoc, dividendTotal_snoc, length_app. cbn.
  rewrite Hg, Ht, Hn, Hu, Hc. repeat split; lia.
Qed.

Lemma sameValueZero_refl (x : number) : sameValueZero x x = true.
Proof.
  destruct x as [|s|q]; [done | by destruct s |]. cbn. apply Qeq_bool_iff.
  reflexivity.
Qed.

Lemma setAdd_keeps (years : list number) (x y : number) :
  y ∈ years -> y ∈ setAdd years x.
Proof.
  unfold setAdd. destruct (existsb _ years); [done|].
  intros Hy. apply elem_of_app. by left.
Qed.

Lemma setAdd_has (years : list number) (x : number) :
  exists y, y ∈ setAdd years x /\ sameValueZero x y = true.
Proof.
  unfold setAdd. destruct (existsb (sameValueZero x) years) eqn:Hex.
  - apply existsb_exists in Hex as (y & Hy & Hxy). exists y.
    split; [by apply list_elem_of_In | done].
  - exists x. split; [|apply sameValueZero_refl].
    apply elem_of_app. right. by apply list_elem_of_singleton.
Qed.

Lemma setAdd_from (years : list number) (x y : number) :
  y ∈ setAdd years x -> y ∈ years \/ y = x.
Proof.
  unfold setAdd. destruct (existsb _ years); [by left|].
  intros [Hy | Hy%list_elem_of_singleton]%elem_of_app; auto.
Qed.

Lemma foldl_setAdd_keeps (xs years : list number) (y : number) :
  y ∈ years -> y ∈ foldl setAdd years xs.
Proof.
  revert years. induction xs as [|x xs IH]; intros years Hy; [done|].
  cbn. apply IH. by apply setAdd_keeps.
Qed.

Lemma foldl_setAdd_has (xs years : list number) (x : number) :
  x ∈ xs -> exists y, y ∈ foldl setAdd years xs /\ sameValueZero x y = true.
Proof.
  revert years. induction xs as [|x' xs IH]; intros years Hx.
  - by apply elem_of_nil in Hx.
  - apply elem_of_cons in Hx as [-> | Hx]; cbn.
    + destruct (setAdd_has years x') as (y & Hy & Hxy). exists y.
      split; [by apply foldl_setAdd_keeps | done].
    + by apply IH.
Qed.

Lemma foldl_setAdd_from (xs years : list number) (y : number) :
  y ∈ foldl setAdd years xs -> y ∈ years \/ y ∈ xs.
Proof.
  revert years. induction xs as [|x xs IH]; intros years Hy; [by left|].
  cbn in Hy. destruct (IH _ Hy) as [Hin | Hin].
  - destruct (setAdd_from _ _ _ Hin) as [? | ->]; [by left|].
    right. apply elem_of_cons. by left.
  - right. apply elem_of_cons. by right.
Qed.

Lemma availableYears_elem (currentYear : number) st (y : number) :
  collectedYears st <> [] ->
  y ∈ availableYears currentYear st <-> y ∈ collectedYears st.
Proof.
  intros Hne. unfold availableYears.
  destruct (collectedYears st) as [|y0 ys] eqn:E; [done|]. cbn [isNil].
  by rewrite merge_sort_Permutation.
Qed.

Lemma collectedYears_has st (x : number) :
  x ∈ ((fun t => getFullYear (JpyTransaction.dateSold t)) <$> gainLossData st) \/
  x ∈ ((fun t => getFullYear (DividendTransaction.date t)) <$> dividendData st) \/
  x ∈ ((fun t => getFullYear (InterestTransaction.date t)) <$> interestData st) ->
  exists y, y ∈ collectedYears st /\ sameValueZero x y = true.
Proof.
  unfold collectedYears. intros [Hx | [Hx | Hx]].
  - destruct (foldl_setAdd_has _ [] x Hx) as (y & Hy & Hxy). exists y.
    split; [|done]. by do 2 apply foldl_setAdd_keeps.
  - destruct (foldl_setAdd_has _ (foldl setAdd [] ((fun t =>
      getFullYear (JpyTransaction.dateSold t)) <$> gainLossData st)) x Hx)
      as (y & Hy & Hxy).
    exists y. split; [|done]. by apply foldl_setAdd_keeps.
  - by apply foldl_setAdd_has.
Qed.

Lemma collectedYears_from st (y : number) :
  y ∈ collectedYears st ->
  y ∈ ((fun t => getFullYear (JpyTransaction.dateSold t)) <$> gainLossData st) \/
  y ∈ ((fun t => getFullYear (DividendTransaction.date t)) <$> dividendData st) \/
  y ∈ ((fun t => getFullYear (InterestTransaction.date t)) <$> interestData st).
Proof.
  unfold collectedYears. intros Hy.
  destruct (foldl_setAdd_from _ _ _ Hy) as [Hy2 | ?]; [|by right; right].
  destruct (foldl_setAdd_from _ _ _ Hy2) as [Hy1 | ?]; [|by right; left].
  destruct (foldl_setAdd_from _ _ _ Hy1) as [Hy0 | ?]; [|by left].
  by apply elem_of_nil in Hy0.
Qed.

Lemma sameValueZero_strict (x y : number) :
  sameValueZero x y = true -> x <> NaN -> strictEq x y = true.
Proof. by destruct x, y. Qed.

(** X25: the years on offer cover the data.  The list is never empty;
    every year in it is the year of some derived record, or the current
    year when there is no record at all; and every capital-gain, dividend
    or interest record whose date has a year is shown by the year filter
    under one of the years on offer. *)
Theorem availableYears_cover_records (currentYear : number) st :
  availableYears currentYear st <> [] /\
  (forall y, y ∈ availableYears currentYear st ->
     (gainLossData st = [] /\ dividendData st = [] /\ interestData st = [] /\
      y = currentYear) \/
     (exists t, t ∈ gainLossData st /\ getFullYear (JpyTransaction.dateSold t) = y) \/
     (exists t, t ∈ dividendData st /\ getFullYear (DividendTransaction.date t) = y) \/
     (exists t, t ∈ interestData st /\ getFullYear (InterestTransaction.date t) = y)) /\
  (forall t, t ∈ gainLossData st ->
     getFullYear (JpyTransaction.dateSold t) <> NaN ->
     exists y, y ∈ availableYears currentYear st /\
       t ∈ filteredGainLoss (setSelectedYear y st)) /\
  (forall t, t ∈ dividendData st ->
     getFullYear (DividendTransaction.date t) <> NaN ->
     exists y, y ∈ availableYears currentYear st /\
       t ∈ filteredDividends (setSelectedYear y st)) /\
  (forall t, t ∈ interestData st ->
     getFullYear (InterestTransaction.date t) <> NaN ->
     exists y, y ∈ availableYears currentYear st /\
       t ∈ filteredInterests (setSelectedYear y st)).
Proof.
  assert (forall x,
    x ∈ ((fun t => getFullYear (JpyTransaction.dateSold t)) <$> gainLossData st) \/
    x ∈ ((fun t => getFullYear (DividendTransaction.date t)) <$> dividendData st) \/
    x ∈ ((fun t => getFullYear (InterestTransaction.date t)) <$> interestData st) ->
    x <> NaN ->
    exists y, y ∈ availableYears currentYear st /\ strictEq x y = true) as Hcover.
  { intros x Hx Hnan. destruct (collectedYears_has st x Hx) as (y & Hy & Hxy).
    exists y. split; [|by apply sameValueZero_strict].
    apply availableYears_elem; [|done]. intros Hnil. rewrite Hnil in Hy.
    by apply elem_of_nil in Hy. }
  split; [|split; [|split; [|split]]].
  - unfold availableYears. destruct (collectedYears st) as [|y0 ys] eqn:E; [done|].
    cbn [isNil]. intros Hnil.
    pose proof (merge_sort_Permutation byYearDescending (y0 :: ys)) as Hp.
    rewrite Hnil in Hp. by apply Permutation_nil_cons in Hp.
  - intros y Hy. destruct (collectedYears st) as [|y0 ys] eqn:E.
    + left. unfold availableYears in Hy. rewrite E in Hy. cbn in Hy.
      apply list_elem_of_singleton in Hy as ->.
      assert (forall x, ~ (
        x ∈ ((fun t => getFullYear (JpyTransaction.dateSold t)) <$> gainLossData st) \/
        x ∈ ((fun t => getFullYear (DividendTransaction.date t)) <$> dividendData st) \/
        x ∈ ((fun t => getFullYear (InterestTransaction.date t)) <$> interestData st)))
        as Hnone.
      { intros x Hx. destruct (collectedYears_has st x Hx) as (y & Hy & _).
        rewrite E in Hy. by apply elem_of_nil in Hy. }
      repeat split.
      * destruct (gainLossData st) as [|t l]; [done|]. exfalso.
        apply (Hnone (getFullYear (JpyTransaction.dateSold t))). left.
        apply elem_of_cons. by left.
      * destruct (dividendData st) as [|t l]; [done|]. exfalso.
        apply (Hnone (getFullYear (DividendTransaction.date t))). right. left.
        apply elem_of_cons. by left.
      * destruct (interestData st) as [|t l]; [done|]. exfalso.
        apply (Hnone (getFullYear (InterestTransaction.date t))). right. right.
        apply elem_of_cons. by left.
    + right. apply availableYears_elem in Hy; [|by rewrite E].
      destruct (collectedYears_from st y Hy) as [H | [H | H]];
        apply list_elem_of_fmap in H as (t & -> & Ht); eauto.
  - intros t Ht Hnan.
    destruct (Hcover (getFullYear (JpyTransaction.dateSold t))) as (y & Hy & Heq);
      [left; by apply list_elem_of_fmap_2' with t | done |].
    exists y. split; [done|]. apply list_elem_of_filter. split; [|done].
    by apply Is_true_true.
  - intros t Ht Hnan.
    destruct (Hcover (getFullYear (DividendTransaction.date t))) as (y & Hy & Heq);
      [right; left; by apply list_elem_of_fmap_2' with t | done |].
    exists y. split; [done|]. apply list_elem_of_filter. split; [|done].
    by apply Is_true_true.
  - intros t Ht Hnan.
    destruct (Hcover (getFullYear (InterestTransaction.date t))) as (y & Hy & Heq);
      [right; right; by apply list_elem_of_fmap_2' with t | done |].
    exists y. split; [done|]. apply list_elem_of_filter. split; [|done].
    by apply Is_true_true.
Qed.

End TotalsFacts.

(** ** Fetching the rates *)

Section MaxFacts.

Lemma greaterThan_Num (p q : Q) :
  greaterThan (Num p) (Num q) = true <-> (q < p)%Q.
Proof.
  cbn. destruct (Qle_bool p q) eqn:E; cbn.
  - apply Qle_bool_iff in E. split; [done|]. intros Hlt.
    by apply Qlt_not_le in Hlt.
  - split; [|done]. intros _. apply Qnot_le_lt. intros Hle.
    apply Qle_bool_iff in Hle. congruence.
Qed.

Lemma greaterThan_trans (a b c : number) :
  greaterThan a b = true -> greaterThan b c = true -> greaterThan a c = true.
Proof.
  destruct a as [|[]|p], b as [|[]|q], c as [|[]|s]; try done.
  rewrite !greaterThan_Num. intros H1 H2. by eapply Qlt_trans.
Qed.

Lemma greaterThan_below (v r h : number) :
  h <> NaN ->
  greaterThan v r = true -> greaterThan h r = false -> greaterThan v h = true.
Proof.
  destruct v as [|[]|p], r as [|[]|q], h as [|[]|s]; try done.
  intros _ H1 H2. apply greaterThan_Num. apply greaterThan_Num in H1.
  eapply Qle_lt_trans; [|done].
  apply Qnot_lt_le. intros Hlt. apply greaterThan_Num in Hlt. congruence.
Qed.

Lemma greaterThan_NaN_r (a : number) : greaterThan a NaN = false.
Proof. by destruct a. Qed.

Lemma greaterThan_same (x y m : number) :
  sameValueZero x y = true -> greaterThan y m = false -> greaterThan x m = false.
Proof.
  destruct x as [|nx|p], y as [|ny|q]; try done.
  - destruct nx, ny; done.
  - cbn [sameValueZero strictEq]. intros Heq%Qeq_bool_iff.
    destruct m as [|nm|s]; try done.
    intros Hy. destruct (greaterThan (Num p) (Num s)) eqn:Hx; [|done].
    apply greaterThan_Num in Hx. rewrite Heq in Hx.
    apply greaterThan_Num in Hx. congruence.
Qed.

Lemma foldl_maxStep_NaN (l : list number) : foldl maxStep NaN l = NaN.
Proof. by induction l. Qed.

Lemma maxStep_NaN_r (h : number) : maxStep h NaN = NaN.
Proof. by destruct h. Qed.

Lemma maxStep_cases (h v : number) :
  h <> NaN -> v <> NaN ->
  maxStep h v = if greaterThan v h then v else h.
Proof. by destruct h, v. Qed.

Lemma foldl_maxStep_bounds (l : list number) (h : number) :
  greaterThan h (foldl maxStep h l) = false /\
  (forall x, x ∈ l -> greaterThan x (foldl maxStep h l) = false).
Proof.
  revert h. induction l as [|v l IH]; intros h.
  { split; [|by intros x Hx%elem_of_nil]. destruct h as [|n|q]; [done| by destruct n |].
    destruct (greaterThan (Num q) (Num q)) eqn:E; [|done].
    apply greaterThan_Num in E. by apply Qlt_irrefl in E. }
  cbn [foldl].
  assert (h = NaN \/ h <> NaN) as [->|Hh] by (destruct h; auto).
  { cbn [maxStep]. rewrite foldl_maxStep_NaN.
    split; [done|]. intros x _. apply greaterThan_NaN_r. }
  assert (v = NaN \/ v <> NaN) as [->|Hv] by (destruct v; auto).
  { rewrite maxStep_NaN_r, foldl_maxStep_NaN.
    split; [apply greaterThan_NaN_r|]. intros x _. apply greaterThan_NaN_r. }
  rewrite (maxStep_cases h v Hh Hv).
  destruct (greaterThan v h) eqn:Hvh.
  - destruct (IH v) as [Hm Hrest]. split.
    + destruct (greaterThan h (foldl maxStep v l)) eqn:Hhr; [|done].
      by rewrite (greaterThan_trans _ _ _ Hvh Hhr) in Hm.
    + intros x [->|Hx]%elem_of_cons; [done | by apply Hrest].
  - destruct (IH h) as [Hm Hrest]. split; [done|].
    intros x [->|Hx]%elem_of_cons; [|by apply Hrest].
    destruct (greaterThan v (foldl maxStep h l)) eqn:Hvr; [|done].
    by rewrite (greaterThan_below _ _ _ Hh Hvr Hm) in Hvh.
Qed.

Lemma maxStep_choice (h v : number) : maxStep h v = h \/ maxStep h v = v.
Proof.
  destruct h as [|nh|p], v as [|nv|q]; cbn; auto;
    match goal with |- context [if ?b then _ else _] => destruct b end; auto.
Qed.

Lemma foldl_maxStep_elem (l : list number) (h : number) :
  foldl maxStep h l ∈ h :: l.
Proof.
  revert h. induction l as [|v l IH]; intros h; [by apply list_elem_of_singleton|].
  cbn [foldl]. specialize (IH (maxStep h v)).
  apply elem_of_cons in IH as [Heq | Hin].
  - rewrite Heq. destruct (maxStep_choice h v) as [-> | ->].
    + apply elem_of_cons. by left.
    + apply elem_of_cons. right. apply elem_of_cons. by left.
  - apply elem_of_cons. right. apply elem_of_cons. by right.
Qed.

Lemma Math_max_bounds (values : list number) (x : number) :
  x ∈ values -> greaterThan x (Math_max values) = false.
Proof. apply foldl_maxStep_bounds. Qed.

Lemma Math_max_elem (values : list number) :
  values <> [] -> Math_max values ∈ values.
Proof.
  destruct values as [|v l]; [done|]. intros _. unfold Math_max. cbn [foldl].
  replace (maxStep (Infinity true) v) with v;
    [apply foldl_maxStep_elem|].
  destruct v as [|n|q]; [done | by destruct n | done].
Qed.

End MaxFacts.

Section FetchFacts.
Context {dates : DateFns} {runtime : Runtime} {network : Network}.
Implicit Types (st : AppState Date) (rows : list Row).

Lemma collectedDates_sold st rows row d :
  gainLossRaw st = Some rows -> row ∈ rows ->
  parseDateAny (row !! "Date Sold") = Some d -> d ∈ collectedDates st.
Proof.
  intros Hraw Hrow Hd. unfold collectedDates. rewrite Hraw. cbn [default].
  apply elem_of_app. left. apply list_elem_of_bind. exists row.
  split; [|done]. unfold datesOfSale. rewrite Hd.
  apply elem_of_app. right. by apply list_elem_of_singleton.
Qed.

Lemma collectedDates_acquired st rows row d :
  gainLossRaw st = Some rows -> row ∈ rows ->
  parseDateAny (row !! "Date Acquired") = Some d -> d ∈ collectedDates st.
Proof.
  intros Hraw Hrow Hd. unfold collectedDates. rewrite Hraw. cbn [default].
  apply elem_of_app. left. apply list_elem_of_bind. exists row.
  split; [|done]. unfold datesOfSale. rewrite Hd.
  apply elem_of_app. left. by apply list_elem_of_singleton.
Qed.

Lemma collectedDates_dividend st rows row d :
  dividendRaw st = Some rows -> row ∈ rows ->
  parseDateAny (row !! "TradeDate") = Some d -> d ∈ collectedDates st.
Proof.
  intros Hraw Hrow Hd. unfold collectedDates. rewrite Hraw. cbn [default].
  apply elem_of_app. right. apply elem_of_app. left.
  apply list_elem_of_bind. exists row.
  split; [|done]. unfold dateOfTrade. rewrite Hd. by apply list_elem_of_singleton.
Qed.

Lemma collectedDates_interest st rows row d :
  interestRaw st = Some rows -> row ∈ rows ->
  parseDateAny (row !! "TradeDate") = Some d -> d ∈ collectedDates st.
Proof.
  intros Hraw Hrow Hd. unfold collectedDates. rewrite Hraw. cbn [default].
  apply elem_of_app. right. apply elem_of_app. right.
  apply list_elem_of_bind. exists row.
  split; [|done]. unfold dateOfTrade. rewrite Hd. by apply list_elem_of_singleton.
Qed.

Lemma foldl_setAdd_nonempty (y : number) (ys : list number) :
  foldl setAdd [] (y :: ys) <> [].
Proof.
  intros Hnil.
  assert (y ∈ foldl setAdd [] (y :: ys)) as Hy.
  { cbn [foldl]. apply foldl_setAdd_keeps. cbn. by apply list_elem_of_singleton. }
  rewrite Hnil in Hy. by apply elem_of_nil in Hy.
Qed.

(** What the [try] block has done when it runs to its end. *)
Lemma fetchAttempt_Done st st' :
  fetchAttempt st = Done st' ->
  collectedDates st <> [] /\
  error st' = error st /\
  selectedYear st'
    = Math_max (foldl setAdd [] (getFullYear <$> collectedDates st)) /\
  exists ratesMap, inStep ratesMap st st'.
Proof.
  unfold fetchAttempt.
  destruct (collectedDates st) as [|d ds] eqn:Edates; [done|]. cbn [isNil].
  destruct (format (subDays _ _) _) as [fetchStart|]; [|done].
  destruct (format (max _) _) as [fetchEnd|]; [|done].
  destruct (fetch _) as [message| |ratesMap]; [done|done|].
  destruct (foldl setAdd [] (getFullYear <$> d :: ds)) as [|y ys] eqn:Eyears.
  { by apply foldl_setAdd_nonempty in Eyears. }
  cbn [isNil].
  unfold whenLoaded, attemptThen, calculateGainLoss, calculateDividends,
    calculateInterests, inStep.
  intros Hdone. split; [done|].
  destruct (gainLossRaw st) as [rows1|] eqn:E1;
    [destruct (calculatedGainLoss rows1 ratesMap) as [c1|] eqn:C1; [|done]|];
    (destruct (dividendRaw st) as [rows2|] eqn:E2;
      [destruct (calculatedDividends rows2 ratesMap) as [c2|] eqn:C2; [|done]|]);
    (destruct (interestRaw st) as [rows3|] eqn:E3;
      [destruct (calculatedInterests rows3 ratesMap) as [c3|] eqn:C3; [|done]|]);
    injection Hdone as <-; cbn; rewrite ?E1, ?E2, ?E3, ?C1, ?C2, ?C3;
    (split; [done|]); (split; [done|]); exists ratesMap; by repeat split.
Qed.

(** What the [try] block has done when an error reaches the [catch]:
    nothing, or it has stored the fetched rates and a calculator threw. *)
Lemma fetchAttempt_Failed st message st' :
  fetchAttempt st = Failed message st' ->
  error st' = error st /\
  selectedYear st' = selectedYear st /\
  interestData st' = interestData st /\
  gainLossRaw st' = gainLossRaw st /\
  dividendRaw st' = dividendRaw st /\
  interestRaw st' = interestRaw st /\
  activeTab st' = activeTab st /\
  loading st' = loading st /\
  (st' = st \/
   exists ratesMap,
     is_Some (format (subDays (min (collectedDates st)) 10) "yyyy-MM-dd") /\
     rates st' = ratesMap /\
     ((exists rows, gainLossRaw st = Some rows /\
         calculatedGainLoss rows ratesMap = None) \/
      (exists rows, dividendRaw st = Some rows /\
         calculatedDividends rows ratesMap = None) \/
      (exists rows, interestRaw st = Some rows /\
         calculatedInterests rows ratesMap = None))).
Proof.
  unfold fetchAttempt.
  destruct (isNil (collectedDates st)); [intros [= _ <-]; by auto 10|].
  destruct (format (subDays _ _) _) as [fetchStart|] eqn:Estart;
    [|intros [= _ <-]; by auto 10].
  destruct (format (max _) _) as [fetchEnd|]; [|intros [= _ <-]; by auto 10].
  destruct (fetch _) as [m| |ratesMap];
    [intros [= _ <-]; by auto 10 | intros [= _ <-]; by auto 10 |].
  unfold whenLoaded, attemptThen, calculateGainLoss, calculateDividends,
    calculateInterests.
  intros Hfail.
  destruct (gainLossRaw st) as [rows1|] eqn:E1;
    [destruct (calculatedGainLoss rows1 ratesMap) as [c1|] eqn:C1|];
    (destruct (dividendRaw st) as [rows2|] eqn:E2;
      [destruct (calculatedDividends rows2 ratesMap) as [c2|] eqn:C2|]);
    (destruct (interestRaw st) as [rows3|] eqn:E3;
      [destruct (calculatedInterests rows3 ratesMap) as [c3|] eqn:C3|]);
    try (destruct (isNil _); discriminate Hfail);
    injection Hfail as _ <-; cbn; rewrite ?E1, ?E2, ?E3;
    (repeat (split; [done|])); right; exists ratesMap;
    (split; [done|]); (split; [done|]); eauto 10.
Qed.

(** X26: an interest-only statement taken in by the fallback branch gets
    no rates.  With no capital-gains and no dividend rows loaded, the
    fallback stores the interest rows and shows the interest tab, and
    [fetchExchangeRates] then returns at once: the state stays as it is
    and the interest is never converted. *)
Theorem interest_only_file_gets_no_rates (data : list Row) (first : Row) st
    (fetchingRates : bool) :
  gainLossRaw st = None -> dividendRaw st = None ->
  data !! 0%nat = Some first ->
  nonEmpty (first !! "Sales Proceeds") = false ->
  nonEmpty (first !! "Action") = true ->
  filter (fun r => Is_true (hasAction "Dividend" r)) data = [] ->
  filter (fun r => Is_true (hasAction "Interest" r)) data <> [] ->
  exists st', onComplete UNKNOWN data st = Returned st' /\
    interestRaw st'
      = Some (filter (fun r => Is_true (hasAction "Interest" r)) data) /\
    activeTab st' = interest /\ interestData st' = interestData st /\
    fetchExchangeRates st' fetchingRates = (st', fetchingRates).
Proof.
  intros Hgain Hdiv Hfirst Hsales Haction Hnone Hsome. unfold onComplete.
  rewrite Hfirst. cbn [mbind option_bind]. rewrite Hsales, Haction, Hnone.
  destruct (filter (fun r => Is_true (hasAction "Interest" r)) data)
    as [|x xs] eqn:Ex; [done|].
  cbn. eexists. split; [done|]. cbn. repeat split.
  unfold fetchExchangeRates. cbn. by rewrite Hgain, Hdiv.
Qed.

(** X27: when [fetchExchangeRates] gets past its guard, [fetchingRates]
    is down afterwards.  If no message is shown, the state holds the
    fetched rates and every loaded table is calculated with them; if a
    message is shown, the selected year, the interest records, the raw
    tables and the tab are as before. *)
Theorem fetchExchangeRates_message_or_in_step st (fetchingRates : bool) :
  is_Some (gainLossRaw st) \/ is_Some (dividendRaw st) ->
  let st' := (fetchExchangeRates st fetchingRates).1 in
  (fetchExchangeRates st fetchingRates).2 = false /\
  (error st' = None -> exists ratesMap, inStep ratesMap st st') /\
  (is_Some (error st') ->
     selectedYear st' = selectedYear st /\
     interestData st' = interestData st /\
     gainLossRaw st' = gainLossRaw st /\
     dividendRaw st' = dividendRaw st /\
     interestRaw st' = interestRaw st /\
     activeTab st' = activeTab st).
Proof.
  intros Hguard. unfold fetchExchangeRates.
  destruct (fetchAttempt (setError None st)) as [st1|message st1] eqn:Hattempt.
  - destruct (fetchAttempt_Done _ _ Hattempt) as (_ & Herr & _ & ratesMap & Hstep).
    cbn in Herr.
    destruct (gainLossRaw st) eqn:E1, (dividendRaw st) eqn:E2; cbn;
      try (by destruct Hguard as [[? [=]] | [? [=]]]);
      (split; [done|]); (split; [by intros _; exists ratesMap|]);
      rewrite Herr; by intros [? [=]].
  - destruct (fetchAttempt_Failed _ _ _ Hattempt)
      as (_ & Hyear & Hint & H1 & H2 & H3 & Htab & _).
    cbn in Hyear, Hint, H1, H2, H3, Htab.
    destruct (gainLossRaw st) eqn:E1, (dividendRaw st) eqn:E2; cbn;
      try (by destruct Hguard as [[? [=]] | [? [=]]]);
      (split; [done|]); (split; [done|]); intros _;
      rewrite <- ?E1, <- ?E2; by repeat split.
Qed.

(** X28: all or nothing.  Suppose that whenever the day ten days before
    the earliest of some dates can be formatted, each of the dates is
    one whose ten keys can be formatted, as it is when [min] and
    [subDays] are those of date-fns; and that every loaded dividend row has
    a description.  Then [fetchExchangeRates] either only puts up a
    message, or it shows none and leaves the fetched rates and every
    record in step with them. *)
Theorem fetchExchangeRates_all_or_nothing st (fetchingRates : bool) :
  (forall (ds : list Date) (d : Date),
     is_Some (format (subDays (min ds) 10) "yyyy-MM-dd") -> d ∈ ds ->
     formattable d) ->
  (forall rows row, dividendRaw st = Some rows -> row ∈ rows ->
     is_Some (row !! "Description")) ->
  is_Some (gainLossRaw st) \/ is_Some (dividendRaw st) ->
  let st' := (fetchExchangeRates st fetchingRates).1 in
  (exists message, st' = setError (Some message) st) \/
  (error st' = None /\ exists ratesMap, inStep ratesMap st st').
Proof.
  intros Hmin Hdesc Hguard. unfold fetchExchangeRates.
  destruct (fetchAttempt (setError None st)) as [st1|message st1] eqn:Hattempt.
  - right.
    destruct (fetchAttempt_Done _ _ Hattempt) as (_ & Herr & _ & ratesMap & Hstep).
    cbn in Herr.
    destruct (gainLossRaw st) eqn:E1, (dividendRaw st) eqn:E2; cbn;
      try (by destruct Hguard as [[? [=]] | [? [=]]]);
      (split; [done|]); by exists ratesMap.
  - left.
    assert (st1 = setError None st) as ->.
    { destruct (fetchAttempt_Failed _ _ _ Hattempt)
        as (_ & _ & _ & _ & _ & _ & _ & _ & [-> | Hpartial]); [done|].
      exfalso. destruct Hpartial as (ratesMap & Hfmt & _ & Hthrown).
      change (collectedDates (setError None st)) with (collectedDates st) in Hfmt.
      cbn [gainLossRaw dividendRaw interestRaw setError] in Hthrown.
      destruct Hthrown as [(rows & Hraw & Hnone) | [(rows & Hraw & Hnone)
                                                   | (rows & Hraw & Hnone)]].
      + destruct (calculateGainLoss_returns rows ratesMap st) as [st2 Hret].
        * intros row d Hrow Hd. apply (Hmin (collectedDates st)); [done|].
          by eapply collectedDates_sold.
        * intros row d Hrow Hd. apply (Hmin (collectedDates st)); [done|].
          by eapply collectedDates_acquired.
        * apply calculateGainLoss_Returned in Hret. congruence.
      + destruct (calculateDividends_returns rows ratesMap st) as [st2 Hret].
        * intros row d Hrow Hd. apply (Hmin (collectedDates st)); [done|].
          by eapply collectedDates_dividend.
        * intros row Hrow. by eapply Hdesc.
        * apply calculateDividends_Returned in Hret. congruence.
      + destruct (calculateInterests_returns rows ratesMap st) as [st2 Hret].
        * intros row d Hrow Hd. apply (Hmin (collectedDates st)); [done|].
          by eapply collectedDates_interest.
        * apply calculateInterests_Returned in Hret. congruence. }
    destruct (gainLossRaw st) eqn:E1, (dividendRaw st) eqn:E2; cbn;
      try (by destruct Hguard as [[? [=]] | [? [=]]]); by eexists.
Qed.

(** X29: when [fetchExchangeRates] shows no message, the year it selects
    is the latest year of the file: it is the year of one of the dates
    read from the loaded rows, and none of them has a greater year. *)
Theorem fetchExchangeRates_selects_latest_year st (fetchingRates : bool) :
  is_Some (gainLossRaw st) \/ is_Some (dividendRaw st) ->
  let st' := (fetchExchangeRates st fetchingRates).1 in
  error st' = None ->
  selectedYear st' ∈ getFullYear <$> collectedDates st /\
  (forall d, d ∈ collectedDates st ->
     greaterThan (getFullYear d) (selectedYear st') = false).
Proof.
  intros Hguard. unfold fetchExchangeRates.
  assert (forall st1, fetchAttempt (setError None st) = Done st1 ->
    selectedYear st1 ∈ getFullYear <$> collectedDates st /\
    (forall d, d ∈ collectedDates st ->
       greaterThan (getFullYear d) (selectedYear st1) = false)) as Hdone.
  { intros st1 Hattempt.
    destruct (fetchAttempt_Done _ _ Hattempt) as (Hdates & _ & Hyear & _).
    change (collectedDates (setError None st)) with (collectedDates st)
      in Hdates, Hyear.
    rewrite Hyear. split.
    - assert (foldl setAdd [] (getFullYear <$> collectedDates st) <> []) as Hne.
      { destruct (collectedDates st) as [|d ds]; [done|].
        apply foldl_setAdd_nonempty. }
      apply Math_max_elem in Hne.
      apply foldl_setAdd_from in Hne as [Hnil | Hin]; [|done].
      by apply elem_of_nil in Hnil.
    - intros d Hd.
      destruct (foldl_setAdd_has (getFullYear <$> collectedDates st) []
                  (getFullYear d)) as (y & Hy & Hsame).
      { by apply list_elem_of_fmap_2. }
      eapply greaterThan_same; [done|]. by apply Math_max_bounds. }
  destruct (fetchAttempt (setError None st)) as [st1|message st1] eqn:Hattempt.
  - destruct (gainLossRaw st) eqn:E1, (dividendRaw st) eqn:E2; cbn;
      try (by destruct Hguard as [[? [=]] | [? [=]]]); intros _; by apply Hdone.
  - destruct (gainLossRaw st) eqn:E1, (dividendRaw st) eqn:E2; cbn;
      try (by destruct Hguard as [[? [=]] | [? [=]]]); done.
Qed.

(** X30: rates and records can fall out of step.  When a loaded
    dividend row with a date has no description cell and the request
    succeeds, [fetchExchangeRates] stores the fetched rates and recalculates
    the capital gains, then stops with a message: the dividend and
    interest records and the selected year stay as they were. *)
Theorem fetchExchangeRates_stale_dividends st (fetchingRates : bool) rows
    (row : Row) (ratesMap : RatesMap) :
  dividendRaw st = Some rows -> row ∈ rows ->
  is_Some (parseDateAny (row !! "TradeDate")) ->
  row !! "Description" = None ->
  (forall url, fetch url = Rates ratesMap) ->
  is_Some (format (subDays (min (collectedDates st)) 10) "yyyy-MM-dd") ->
  is_Some (format (max (collectedDates st)) "yyyy-MM-dd") ->
  (forall rows', gainLossRaw st = Some rows' ->
     is_Some (calculatedGainLoss rows' ratesMap)) ->
  let st' := (fetchExchangeRates st fetchingRates).1 in
  rates st' = ratesMap /\ is_Some (error st') /\
  dividendData st' = dividendData st /\
  interestData st' = interestData st /\
  selectedYear st' = selectedYear st /\
  (forall rows', gainLossRaw st = Some rows' ->
     calculatedGainLoss rows' ratesMap = Some (gainLossData st')).
Proof.
  intros Hraw Hrow [d Hd] Hdesc Hfetch [fetchStart Hstart] [fetchEnd Hend] Hgain.
  assert (calculatedDividends rows ratesMap = None) as Hnone.
  { apply list_elem_of_lookup_1 in Hrow as [i Hi]. unfold calculatedDividends.
    apply (mapRows_throw _ rows i row Hi). unfold dividendOfRow.
    by rewrite Hd, Hdesc. }
  assert (d ∈ collectedDates st) as Hin by by eapply collectedDates_dividend.
  unfold fetchExchangeRates, fetchAttempt.
  change (collectedDates (setError None st)) with (collectedDates st).
  destruct (collectedDates st) as [|d0 ds] eqn:Edates;
    [by apply elem_of_nil in Hin|].
  cbn [isNil]. rewrite Hstart, Hend, Hfetch.
  unfold whenLoaded, attemptThen, calculateGainLoss, calculateDividends.
  cbn [gainLossRaw dividendRaw interestRaw setError setRates].
  rewrite Hraw.
  destruct (gainLossRaw st) as [rows1|] eqn:E1.
  - destruct (Hgain rows1 eq_refl) as [c1 Hc1]. rewrite Hc1, Hnone. cbn.
    repeat split; [by eexists|]. by intros rows' [= <-].
  - rewrite Hnone. cbn. repeat split; [by eexists | done].
Qed.

End FetchFacts.

(** ** The further properties on the sample inputs *)

Section MoreScenarios.
Import Calendar Samples CalendarRuntime MoreSamples.

Ltac run := vm_compute; reflexivity.

(** In the calendar instance [min] gives a valid day only when every date
    is one. *)
Lemma foldl_earlier_Day (ds : list date) (acc : option date) (n : Z) :
  foldl earlier acc ds = Some (Day n) ->
  forall d, d ∈ ds -> exists m, d = Day m.
Proof.
  revert acc. induction ds as [|d0 ds IH]; intros acc Hfold d Hd.
  { by apply elem_of_nil in Hd. }
  cbn [foldl] in Hfold.
  assert (forall l, foldl earlier (Some InvalidDate) l = Some InvalidDate) as Hbad.
  { induction l as [|x l IHl]; [done|]. cbn [foldl]. by destruct x. }
  apply elem_of_cons in Hd as [-> | Hd]; [|by eapply IH].
  destruct d0 as [m|]; [by eexists|]. exfalso.
  assert (earlier acc InvalidDate = Some InvalidDate) as Hstep
    by (by destruct acc as [[r|]|]).
  rewrite Hstep, Hbad in Hfold. discriminate.
Qed.

Lemma earliest_formattable (ds : list Date) (d : Date) :
  is_Some (format (subDays (min ds) 10) "yyyy-MM-dd") -> d ∈ ds -> formattable d.
Proof.
  intros Hfmt Hd. cbn in Hfmt. unfold earliest in Hfmt.
  destruct (foldl earlier None ds) as [[n|]|] eqn:Hfold;
    try (by destruct Hfmt as [? [=]]).
  destruct (foldl_earlier_Day ds None n Hfold d Hd) as [m ->].
  apply Day_formattable.
Qed.

Lemma parseMoney_without_digits_witness : parseMoney (Some "N/A") = NaN.
Proof. apply parseMoney_without_digits; [done | reflexivity]. Defined.

Lemma extractTax_without_phrase_witness :
  extractTaxFromDescription (Some "QUALIFIED DIVIDEND") = Some zero.
Proof. apply extractTax_without_phrase. run. Defined.

Lemma getRateForDate_returns_nearest_witness :
  exists k, k <= 9 /\ keyOf (daysBefore sunday k) = Some "2023-03-03" /\
    forall j, j < k ->
      exists kj, keyOf (daysBefore sunday j) = Some kj /\
                 truthyRate weekendRates kj = None.
Proof.
  assert (getRateForDate sunday weekendRates
          = Some (RateData.mk (ofZ 136) "2023-03-03")) as Hget by run.
  destruct (getRateForDate_returns_nearest _ _ _ Hget)
    as [[Hnf _] | (k & Hk & Hkey & _ & _ & Hbefore)].
  - unfold notFound in Hnf. discriminate Hnf.
  - by exists k.
Defined.

Lemma calculateGainLoss_aborts_on_bad_date_witness :
  calculateGainLoss [appleSale; misdatedSale] saleRates st0 = Thrown st0.
Proof.
  apply (calculateGainLoss_aborts_on_bad_date _ _ _ misdatedSale (InvalidDate : @Date dateFns)).
  - apply elem_of_cons. right. by apply list_elem_of_singleton.
  - run.
  - left. run.
Defined.

Lemma calculateDividends_needs_description_witness :
  calculateDividends [undescribedRow] dividendRates st0 = Thrown st0.
Proof.
  apply (calculateDividends_needs_description _ _ _ undescribedRow).
  - by apply list_elem_of_singleton.
  - exists (Day 19523). run.
  - run.
Defined.

Lemma calculateGainLoss_follows_rows_witness :
  Forall2 gainLossReadFrom [appleRecord]
          (filter (datable "Date Sold") [appleSale]).
Proof.
  apply (calculateGainLoss_follows_rows [appleSale] saleRates st0
           (setGainLossData [appleRecord] st0)).
  run.
Defined.

Lemma calculateDividends_follows_rows_witness :
  Forall2 dividendReadFrom [dividendRecord 1]
          (filter (datable "TradeDate") [undatedRow; dividendRow]).
Proof.
  apply (calculateDividends_follows_rows [undatedRow; dividendRow] dividendRates
           st0 (setDividendData [dividendRecord 1] st0)).
  run.
Defined.

Lemma calculateInterests_follows_rows_witness :
  Forall2 (interestReadFrom dividendRates)
          (interestData (stateAfter (calculateInterests [interestRow] dividendRates st0)))
          (filter (datable "TradeDate") [interestRow]).
Proof.
  apply (calculateInterests_follows_rows [interestRow] dividendRates st0).
  run.
Defined.

Lemma gainLoss_note_cases_witness :
  exists row, [variousSale] !! 0%nat = Some row /\
    (JpyTransaction.notes variousRecord = variousNote <->
       signalsVarious row = true).
Proof.
  destruct (gainLoss_note_cases [variousSale] saleRates st0
              (setGainLossData [variousRecord] st0) variousRecord)
    as (row & Hrow & Hvarious & _).
  - run.
  - by apply list_elem_of_singleton.
  - by exists row.
Defined.


Lemma processFile_ignores_preamble_witness :
  processFile ("Firstrade realized gain/loss"
               ++ String newline interestOnlyCsvNet) st0
  = processFile interestOnlyCsvNet st0.
Proof.
  apply processFile_ignores_preamble; [discriminate | run].
Defined.

Lemma total_rows_are_not_stored_witness : totalRow ∉ [appleSale].
Proof.
  apply (total_rows_are_not_stored [appleSale; totalRow] st0 totalRow "Total");
    [run | run | run | discriminate].
Defined.

Lemma history_without_interest_keeps_old_witness :
  let st' := stateAfter (onComplete HISTORY [dividendRow] st0) in
  dividendRaw st'
    = Some (filter (fun r => Is_true (hasAction "Dividend" r)) [dividendRow]) /\
  interestRaw st' = interestRaw st0 /\
  interestData st' = interestData st0.
Proof.
  apply (history_without_interest_keeps_old [dividendRow] st0).
  - vm_compute. discriminate.
  - run.
Defined.

Lemma gainLoss_file_calculated_when_rates_loaded_witness :
  exists st', onComplete GAIN_LOSS [appleSale; totalRow] rated = Returned st' /\
    gainLossRaw st' = Some [appleSale] /\ gainLossData st' = [appleRecord] /\
    activeTab st' = capital /\ loading st' = false.
Proof.
  assert (filter (fun r => Is_true (isTransactionRow r)) [appleSale; totalRow]
          = [appleSale]) as Hrows by run.
  assert (calculatedGainLoss [appleSale] (rates rated) = Some [appleRecord])
    as Hcalc by run.
  pose proof (gainLoss_file_calculated_when_rates_loaded
                [appleSale; totalRow] rated) as Hfile.
  cbv zeta in Hfile. rewrite Hrows, Hcalc in Hfile.
  apply Hfile; [discriminate | vm_compute; lia].
Defined.

Lemma group_summary_is_group_totals_witness :
  summaryOfTotals (summary appleGroup) (totalsGainLoss (transactions appleGroup)) /\
  Totals.count (totalsGainLoss (transactions appleGroup))
    = length (transactions appleGroup).
Proof.
  apply (group_summary_is_group_totals [appleRecord] [("AAPL", appleGroup)]
           "AAPL" appleGroup).
  - run.
  - by apply list_elem_of_singleton.
Defined.

(** A record filed under an inherited name stops the aggregator. *)
Example inherited_symbol_throws :
  groupedGainLoss
    (default [] (calculatedGainLoss [appleSale; constructorSale] saleRates))
  = None.
Proof. run. Qed.

Lemma group_sizes_add_up_witness :
  sum_list_with (fun p => length (transactions p.2))
                (default [] (groupedGainLoss twoSales)) = length twoSales /\
  Totals.count (totalsGainLoss twoSales) = length twoSales.
Proof. apply (group_sizes_add_up twoSales). run. Defined.

Lemma processFile_keeps_error_message_witness :
  is_Some (error (stateAfter (processFile gainLossCsv complaining))).
Proof. apply processFile_keeps_error_message. by eexists. Defined.

Lemma interest_only_file_gets_no_rates_witness :
  exists st', onComplete UNKNOWN [interestRowNet] st0 = Returned st' /\
    interestRaw st'
      = Some (filter (fun r => Is_true (hasAction "Interest" r)) [interestRowNet]) /\
    activeTab st' = interest /\ interestData st' = interestData st0 /\
    fetchExchangeRates (network := frankfurter) st' false = (st', false).
Proof.
  apply (interest_only_file_gets_no_rates (network := frankfurter)
           [interestRowNet] interestRowNet st0 false);
    try run.
  vm_compute. discriminate.
Defined.

Lemma fetchExchangeRates_message_or_in_step_witness :
  let st' := (fetchExchangeRates (network := frankfurter) loaded true).1 in
  (fetchExchangeRates (network := frankfurter) loaded true).2 = false /\
  (error st' = None -> exists ratesMap, inStep ratesMap loaded st') /\
  (is_Some (error st') ->
     selectedYear st' = selectedYear loaded /\
     interestData st' = interestData loaded /\
     gainLossRaw st' = gainLossRaw loaded /\
     dividendRaw st' = dividendRaw loaded /\
     interestRaw st' = interestRaw loaded /\
     activeTab st' = activeTab loaded).
Proof.
  apply (fetchExchangeRates_message_or_in_step (network := frankfurter) loaded true).
  left. by eexists.
Defined.

Lemma fetchExchangeRates_all_or_nothing_witness :
  let st' := (fetchExchangeRates (network := frankfurter) loaded true).1 in
  (exists message, st' = setError (Some message) loaded) \/
  (error st' = None /\ exists ratesMap, inStep ratesMap loaded st').
Proof.
  apply (fetchExchangeRates_all_or_nothing (network := frankfurter) loaded true).
  - apply earliest_formattable.
  - intros rows row [= <-] ->%list_elem_of_singleton. by eexists.
  - left. by eexists.
Defined.

Lemma fetchExchangeRates_selects_latest_year_witness :
  let st' := (fetchExchangeRates (network := frankfurter) loaded true).1 in
  selectedYear st' ∈ getFullYear <$> collectedDates loaded /\
  (forall d, d ∈ collectedDates loaded ->
     greaterThan (getFullYear d) (selectedYear st') = false).
Proof.
  apply (fetchExchangeRates_selects_latest_year (network := frankfurter) loaded true).
  - left. by eexists.
  - run.
Defined.

Lemma fetchExchangeRates_stale_dividends_witness :
  let st' := (fetchExchangeRates (network := answering yearRates)
                loadedUndescribed true).1 in
  rates st' = yearRates /\ is_Some (error st') /\
  dividendData st' = dividendData loadedUndescribed /\
  interestData st' = interestData loadedUndescribed /\
  selectedYear st' = selectedYear loadedUndescribed /\
  (forall rows', gainLossRaw loadedUndescribed = Some rows' ->
     calculatedGainLoss rows' yearRates = Some (gainLossData st')).
Proof.
  apply (fetchExchangeRates_stale_dividends (network := answering yearRates)
           loadedUndescribed true [undescribedRow] undescribedRow yearRates).
  - run.
  - by apply list_elem_of_singleton.
  - exists (Day 19523). run.
  - run.
  - done.
  - eexists. run.
  - eexists. run.
  - intros rows' [= <-]. eexists. run.
Defined.

End MoreScenarios.
